(** * Head-dependent flow boundary observation package (flopy, mfflwob.py)

    A shallow embedding of [ModflowFlwob.__init__] and
    [ModflowFlwob.write_file], and the properties of the observation
    group encoder proved (or refuted) on it.

    Conventions of the embedding.
    - Python [int] is [Z]; a NumPy [int32] cell holds a [Z] inside
      [-2^31, 2^31): a Python integer outside that range is refused when
      it is stored ([OverflowError], as NumPy 2 does), and [abs] on an
      [int32] wraps at the smallest value.
    - Floating point values are kept abstract ([Floats]): the model only
      moves them around, casts them to single precision and hands them to
      the formatter.
    - The boundary-type tag goes through [str.upper] and [str.strip]. On
      text made of ASCII characters the two are computed ([upper],
      [strip]); on any other text their result depends on the character
      tables of the interpreter, and [t.upper().strip()] is a parameter
      of the model there ([Unicode]).
    - A raised exception is a value of [exn]; the constructor runs in the
      error monad [result], [write_file] in a monad [M] that threads the
      encoder (its [factor] array is mutated), the lines written to the
      currently open file, and the exception.
    - A line written with a format string is recorded as the tuple of the
      format arguments ([line]); the rendering of numbers is not modelled,
      except for the plain [%s] of an integer in the instruction file. *)

From Stdlib Require Import ZArith String Ascii List DecimalString Lia QArith.
From stdpp Require Import gmap strings list.

Open Scope Z_scope.

(** ** Exceptions and the error monad *)

Inductive exn : Type :=
  | AttributeError
  | UnboundLocalError
  | IndexError
  | ValueError
  | OverflowError.

Inductive result (A : Type) : Type :=
  | Ok (a : A)
  | Raise (e : exn).
Arguments Ok {A} a.
Arguments Raise {A} e.

#[global] Instance result_ret : MRet result := fun _ a => Ok a.
#[global] Instance result_bind : MBind result := fun _ _ f m =>
  match m with
  | Ok a => f a
  | Raise e => Raise e
  end.

(** ** Python strings: [str.upper] and [str.strip]

    [upper] and [strip] are the two methods on text made of ASCII
    characters: the letters [a]-[z] are put in upper case, and the
    characters removed at both ends are the codes 9-13 and 28-32. *)

Definition upper_char (c : ascii) : ascii :=
  let n := nat_of_ascii c in
  if ((97 <=? n) && (n <=? 122))%nat then ascii_of_nat (n - 32) else c.

Definition is_space (c : ascii) : bool :=
  let n := nat_of_ascii c in
  (((9 <=? n) && (n <=? 13)) || ((28 <=? n) && (n <=? 32)))%nat.

Fixpoint lstrip_chars (l : list ascii) : list ascii :=
  match l with
  | c :: l' => if is_space c then lstrip_chars l' else l
  | [] => []
  end.

Definition upper (s : string) : string :=
  string_of_list_ascii (upper_char <$> list_ascii_of_string s).

Definition strip (s : string) : string :=
  string_of_list_ascii
    (rev (lstrip_chars (rev (lstrip_chars (list_ascii_of_string s))))).

Definition ascii_char (c : ascii) : bool := (nat_of_ascii c <? 128)%nat.

Definition ascii_text (s : string) : bool :=
  forallb ascii_char (list_ascii_of_string s).

(** Outside ASCII the two methods follow the character tables of the
    interpreter: ['r\u0131v'.upper()] is ['RIV'] and ['CHD\xa0'.strip()]
    is ['CHD']. The code uses them in the expression
    [flowtype.upper().strip()] only, whose value on such text is left
    open. *)
Class Unicode : Type := {
  unicode_upper_strip : string -> string
}.

(** [t.upper().strip()] *)
Definition upper_strip {UC : Unicode} (t : string) : string :=
  if ascii_text t then strip (upper t) else unicode_upper_strip t.

(** [str(n)] of a Python integer, as ['%s' % n] renders it. *)
Definition py_str (n : Z) : string := NilZero.string_of_int (Z.to_int n).

(** ** Python lists *)

(** [l[a:b]] for constant non-negative bounds: clipped to the list. *)
Definition py_slice {A} (a b : nat) (l : list A) : list A :=
  take (b - a) (drop a l).

(** [l[i]] for [i >= 0]. *)
Definition py_getitem {A} (l : list A) (i : nat) : result A :=
  match l !! i with
  | Some x => Ok x
  | None => Raise IndexError
  end.

(** [max(l)] of a list of integers. *)
Definition py_max (l : list Z) : result Z :=
  match l with
  | [] => Raise ValueError
  | x :: l' => Ok (foldl Z.max x l')
  end.

Definition sum_list_Z (l : list Z) : Z := foldr Z.add 0 l.

(** [range(n)]: empty when [n <= 0]. *)
Definition range (n : Z) : list nat := seq 0 (Z.to_nat n).

(** ** NumPy arrays *)

Definition int32_min : Z := - 2 ^ 31.
Definition int32_max : Z := 2 ^ 31 - 1.

Definition in_int32 (z : Z) : bool := (int32_min <=? z) && (z <=? int32_max).

(** [abs] of an [int32] scalar: the smallest value has no opposite and
    is returned unchanged. *)
Definition abs32 (z : Z) : Z := if z =? int32_min then int32_min else Z.abs z.

(** Conversion of a list of Python integers to [int32] cells. *)
Fixpoint as_int32 (l : list Z) : result (list Z) :=
  match l with
  | [] => Ok []
  | z :: l' =>
      if in_int32 z then (r ← as_int32 l'; Ok (z :: r))
      else Raise OverflowError
  end.

(** A two-dimensional array: its shape and its rows. *)
Record ndarray2 (A : Type) : Type := Ndarray2 {
  shape0 : nat;
  shape1 : nat;
  rows : list (list A)
}.
Arguments Ndarray2 {A} _ _ _.
Arguments shape0 {A} _.
Arguments shape1 {A} _.
Arguments rows {A} _.

(** [np.zeros((n), dtype)] *)
Definition np_zeros1 {A} (zero : A) (n : Z) : result (list A) :=
  if n <? 0 then Raise ValueError else Ok (replicate (Z.to_nat n) zero).

(** [np.zeros((n, m), dtype)] *)
Definition np_zeros2 {A} (zero : A) (n m : Z) : result (ndarray2 A) :=
  if (n <? 0) || (m <? 0) then Raise ValueError
  else Ok (Ndarray2 (Z.to_nat n) (Z.to_nat m)
             (replicate (Z.to_nat n) (replicate (Z.to_nat m) zero))).

(** [r[:k] = src] on a one-dimensional array [r]: the slice holds
    [min k (len r)] cells; the value is converted to the array's type,
    then copied when it has as many cells as the slice, broadcast when
    it has one, and refused otherwise. *)
Definition np_setslice {S A} (conv : list S -> result (list A))
    (r : list A) (k : nat) (src : list S) : result (list A) :=
  v ← conv src;
  let m := Nat.min k (length r) in
  if (length v =? m)%nat then Ok (v ++ drop m r)
  else match v with
       | [x] => Ok (replicate m x ++ drop m r)
       | _ => Raise ValueError
       end.

(** [r[:] = src] *)
Definition np_assign {S A} (conv : list S -> result (list A))
    (r : list A) (src : list S) : result (list A) :=
  np_setslice conv r (length r) src.

(** [arr[i, :k] = src] *)
Definition np_setrow_prefix {S A} (conv : list S -> result (list A))
    (arr : ndarray2 A) (i k : nat) (src : list S) : result (ndarray2 A) :=
  match rows arr !! i with
  | None => Raise IndexError
  | Some r =>
      r' ← np_setslice conv r k src;
      Ok (Ndarray2 (shape0 arr) (shape1 arr) (<[i := r']> (rows arr)))
  end.

(** [arr[i, j]] *)
Definition np_getitem2 {A} (arr : ndarray2 A) (i j : nat) : option A :=
  rows arr !! i ≫= (.!! j).

(** ** Floating point values *)

Class Floats : Type := {
  float64 : Type;            (* Python float *)
  float32 : Type;            (* dtype='float32' cell *)
  f32_of : float64 -> float32;  (* the cast done when a cell is stored *)
  f32_zero : float32;        (* the cell of np.zeros *)
  f64_one : float64          (* the literal 1.0 *)
}.

(** A model of the interface on the rationals, for evaluating the code on
    concrete inputs. *)
Definition Q_floats : Floats :=
  {| float64 := Q; float32 := Q; f32_of := fun q => q;
     f32_zero := 0%Q; f64_one := 1%Q |}.

(** ** The package registry *)

(** Modelled from the spec: [Package.__init__] and the parent model
    (pakbase, not in this module) are a black box that records the
    package's extensions, names and unit numbers and assigns the path of
    its primary file; [add_package] registers the package and has no
    effect on it. The only thing the encoder reads back is that path. *)
Record Model : Type := {
  package_path : list string -> list string -> list Z -> string
}.

Section Flwob.
Context {FL : Floats} {UC : Unicode}.

(** ** Constructor arguments *)

Record Args : Type := {
  arg_model : Model;
  arg_nqfb : Z;
  arg_nqcfb : Z;
  arg_nqtfb : Z;
  arg_iufbobsv : Z;
  arg_tomultfb : float64;
  arg_nqobfb : list Z;
  arg_nqclfb : list Z;
  arg_obsnam : list string;
  arg_irefsp : list Z;
  arg_toffset : list float64;
  arg_flwobs : list float64;
  arg_layer : list (list Z);
  arg_row : list (list Z);
  arg_column : list (list Z);
  arg_factor : list (list float64);
  arg_flowtype : option string;
  arg_extension : list string;
  arg_unitnumber : list Z
}.

Definition default_extension : list string :=
  ["chob"; "obc"; "gbob"; "obg"; "drob"; "obd"; "rvob"; "obr"]%string.

Definition default_unitnumber : list Z :=
  [40; 140; 41; 141; 42; 142; 43; 143].

(** The constructor called with the model only: every default. *)
Definition default_args (m : Model) : Args :=
  {| arg_model := m; arg_nqfb := 0; arg_nqcfb := 0; arg_nqtfb := 0;
     arg_iufbobsv := 0; arg_tomultfb := f64_one;
     arg_nqobfb := []; arg_nqclfb := []; arg_obsnam := [];
     arg_irefsp := []; arg_toffset := []; arg_flwobs := [];
     arg_layer := []; arg_row := []; arg_column := []; arg_factor := [];
     arg_flowtype := None;
     arg_extension := default_extension;
     arg_unitnumber := default_unitnumber |}.

Definition with_flowtype (a : Args) (t : option string) : Args :=
  {| arg_model := arg_model a; arg_nqfb := arg_nqfb a;
     arg_nqcfb := arg_nqcfb a; arg_nqtfb := arg_nqtfb a;
     arg_iufbobsv := arg_iufbobsv a; arg_tomultfb := arg_tomultfb a;
     arg_nqobfb := arg_nqobfb a; arg_nqclfb := arg_nqclfb a;
     arg_obsnam := arg_obsnam a; arg_irefsp := arg_irefsp a;
     arg_toffset := arg_toffset a; arg_flwobs := arg_flwobs a;
     arg_layer := arg_layer a; arg_row := arg_row a;
     arg_column := arg_column a; arg_factor := arg_factor a;
     arg_flowtype := t;
     arg_extension := arg_extension a;
     arg_unitnumber := arg_unitnumber a |}.

(** ** The encoder *)

Record Encoder : Type := {
  name : list string;
  extension : list string;
  unit_number : list Z;
  fn_path : string;
  url : string;
  heading : string;
  nqfb : Z;
  nqcfb : Z;
  nqtfb : Z;
  iufbobsv : Z;
  tomultfb : float64;
  nqobfb : list Z;
  nqclfb : list Z;
  obsnam : list string;
  irefsp : list Z;
  toffset : list float32;
  flwobs : list float32;
  layer : ndarray2 Z;
  row : ndarray2 Z;
  column : ndarray2 Z;
  factor : ndarray2 float32
}.

(** ** [__init__], lines 92-120: the boundary-type branch *)

(** The local variables after the [if]/[elif] chain; [name], [url] and
    [heading] are bound only when a branch was taken. *)
Record Selected : Type := {
  s_name : option (list string);
  s_extension : list string;
  s_unitnumber : list Z;
  s_iufbobsv : Z;
  s_url : option string;
  s_heading : option string
}.

(** One branch of the chain: [name = [nm, 'DATA']], the slices
    [a:b] of the two tables, the output unit [unitnumber[1]] read from
    the sliced list, then [self.url] and [self.heading]. *)
Definition take_branch (nm : string) (a b : nat) (u h : string)
    (ext : list string) (units : list Z) : result Selected :=
  let ext' := py_slice a b ext in
  let units' := py_slice a b units in
  iu ← py_getitem units' 1;
  Ok {| s_name := Some [nm; "DATA"%string];
        s_extension := ext';
        s_unitnumber := units';
        s_iufbobsv := iu;
        s_url := Some u;
        s_heading := Some h |}.

Definition select_flowtype (flowtype : option string) (ext : list string)
    (units : list Z) (iufbobsv0 : Z) : result Selected :=
  match flowtype with
  | None => Raise AttributeError
  | Some t =>
      let tag := upper_strip t in
      if String.eqb tag "CHD" then
        take_branch "CHOB" 0 2 "chob.htm"
          "# CHOB for MODFLOW, generated by Flopy." ext units
      else if String.eqb tag "GHB" then
        take_branch "GBOB" 2 4 "gbob.htm"
          "# GBOB for MODFLOW, generated by Flopy." ext units
      else if String.eqb tag "DRN" then
        take_branch "DROB" 4 6 "drob.htm"
          "# DROB for MODFLOW, generated by Flopy." ext units
      else if String.eqb tag "RIV" then
        take_branch "RVOB" 6 8 "rvob.htm"
          "# RVOB for MODFLOW, generated by Flopy." ext units
      else Ok {| s_name := None; s_extension := ext; s_unitnumber := units;
                 s_iufbobsv := iufbobsv0; s_url := None; s_heading := None |}
  end.

(** Reading a local variable that no branch bound. *)
Definition py_local {A} (v : option A) : result A :=
  match v with
  | Some x => Ok x
  | None => Raise UnboundLocalError
  end.

(** ** [__init__], lines 141-165: the dense storage *)

Record Cells : Type := {
  c_layer : ndarray2 Z;
  c_row : ndarray2 Z;
  c_column : ndarray2 Z;
  c_factor : ndarray2 float32
}.

Definition as_float32 (l : list float64) : result (list float32) :=
  Ok (f32_of <$> l).

(** The body of [for i in range(self.nqfb)], lines 162-165. *)
Definition fill_group (a : Args) (i : nat) (c : Cells) : result Cells :=
  li ← py_getitem (arg_layer a) i;
  lay ← np_setrow_prefix as_int32 (c_layer c) i (length li) li;
  ri ← py_getitem (arg_row a) i;
  rw ← np_setrow_prefix as_int32 (c_row c) i (length ri) ri;
  ci ← py_getitem (arg_column a) i;
  col ← np_setrow_prefix as_int32 (c_column c) i (length ci) ci;
  fi ← py_getitem (arg_factor a) i;
  fac ← np_setrow_prefix as_float32 (c_factor c) i (length fi) fi;
  Ok {| c_layer := lay; c_row := rw; c_column := col; c_factor := fac |}.

Fixpoint fill_cells (a : Args) (idx : list nat) (c : Cells) : result Cells :=
  match idx with
  | [] => Ok c
  | i :: idx' => c' ← fill_group a i c; fill_cells a idx' c'
  end.

Definition __init__ (a : Args) : result Encoder :=
  sel ← select_flowtype (arg_flowtype a) (arg_extension a)
          (arg_unitnumber a) (arg_iufbobsv a);
  (* Package.__init__(self, model, extension, name, unitnumber, ...) *)
  nm ← py_local (s_name sel);
  let path := package_path (arg_model a) (s_extension sel) nm
                (s_unitnumber sel) in
  u ← py_local (s_url sel);
  h ← py_local (s_heading sel);
  (* lines 143-151 *)
  w ← py_max (arg_nqclfb a);
  layer0 ← np_zeros2 0 (arg_nqfb a) w;
  row0 ← np_zeros2 0 (arg_nqfb a) w;
  column0 ← np_zeros2 0 (arg_nqfb a) w;
  factor0 ← np_zeros2 f32_zero (arg_nqfb a) w;
  nqobfb0 ← np_zeros1 0 (arg_nqfb a);
  nqclfb0 ← np_zeros1 0 (arg_nqfb a);
  irefsp0 ← np_zeros1 0 (arg_nqtfb a);
  toffset0 ← np_zeros1 f32_zero (arg_nqtfb a);
  flwobs0 ← np_zeros1 f32_zero (arg_nqtfb a);
  (* lines 155-160; self.obsnam[:] = obsnam assigns the list to itself *)
  nqobfb1 ← np_assign as_int32 nqobfb0 (arg_nqobfb a);
  nqclfb1 ← np_assign as_int32 nqclfb0 (arg_nqclfb a);
  irefsp1 ← np_assign as_int32 irefsp0 (arg_irefsp a);
  toffset1 ← np_assign as_float32 toffset0 (arg_toffset a);
  flwobs1 ← np_assign as_float32 flwobs0 (arg_flwobs a);
  (* lines 161-165 *)
  c ← fill_cells a (range (arg_nqfb a))
        {| c_layer := layer0; c_row := row0; c_column := column0;
           c_factor := factor0 |};
  Ok {| name := nm; extension := s_extension sel;
        unit_number := s_unitnumber sel; fn_path := path;
        url := u; heading := h;
        nqfb := arg_nqfb a; nqcfb := arg_nqcfb a; nqtfb := arg_nqtfb a;
        iufbobsv := s_iufbobsv sel; tomultfb := arg_tomultfb a;
        nqobfb := nqobfb1; nqclfb := nqclfb1; obsnam := arg_obsnam a;
        irefsp := irefsp1; toffset := toffset1; flwobs := flwobs1;
        layer := c_layer c; row := c_row c; column := c_column c;
        factor := c_factor c |}.

(** ** Written lines *)

Inductive line : Type :=
  | L_text (s : string)
      (* a line given as text: the heading, and the instruction file *)
  | L_header (n_qfb n_qcfb n_qtfb unit : Z)
      (* '%10i%10i%10i%10i' *)
  | L_tomult (x : float64)
      (* '%10e' *)
  | L_group (n_qobfb n_qclfb : Z)
      (* '{:10d}{:10d}', section 3 *)
  | L_obs (nam : string) (ref : Z) (toff flw : float32)
      (* '{}{:10d}{:10.4g}{}{:10.4g}', section 4 *)
  | L_cell (lay rw col : Z) (fac : float32).
      (* '{:10d}{:10d}{:10d}{}{:10f}', section 5 *)

(** ** The monad of [write_file] *)

Record outcome (A : Type) : Type := Outcome {
  out : list line;    (* lines written, in order *)
  st : Encoder;       (* the encoder afterwards *)
  res : result A      (* the value, or the exception raised *)
}.
Arguments Outcome {A} _ _ _.
Arguments out {A} _.
Arguments st {A} _.
Arguments res {A} _.

Definition M (A : Type) : Type := Encoder -> outcome A.

#[global] Instance M_ret : MRet M := fun _ a s => Outcome [] s (Ok a).
#[global] Instance M_bind : MBind M := fun _ _ f m s =>
  let o := m s in
  match res o with
  | Ok a => let o' := f a (st o) in Outcome (out o ++ out o') (st o') (res o')
  | Raise e => Outcome (out o) (st o) (Raise e)
  end.

(** [f.write(...)] of one line *)
Definition emit (l : line) : M unit := fun s => Outcome [l] s (Ok tt).

(** Evaluating an expression that reads the encoder and may raise. *)
Definition eval {A} (f : Encoder -> result A) : M A :=
  fun s => Outcome [] s (f s).

Definition of_option {A} (o : option A) : result A :=
  match o with
  | Some x => Ok x
  | None => Raise IndexError
  end.

(** [for i in l: c = body(i, c)] *)
Fixpoint for_loop {C} (l : list nat) (body : nat -> C -> M C) (c : C) : M C :=
  match l with
  | [] => mret c
  | i :: l' => c' ← body i c; for_loop l' body c'
  end.

Definition set_factor (s : Encoder) (f : ndarray2 float32) : Encoder :=
  {| name := name s; extension := extension s;
     unit_number := unit_number s; fn_path := fn_path s;
     url := url s; heading := heading s;
     nqfb := nqfb s; nqcfb := nqcfb s; nqtfb := nqtfb s;
     iufbobsv := iufbobsv s; tomultfb := tomultfb s;
     nqobfb := nqobfb s; nqclfb := nqclfb s; obsnam := obsnam s;
     irefsp := irefsp s; toffset := toffset s; flwobs := flwobs s;
     layer := layer s; row := row s; column := column s;
     factor := f |}.

Definition ones_row (f : ndarray2 float32) : list float32 :=
  replicate (shape1 f) (f32_of f64_one).

(** [self.factor[i, :] = 1.0] *)
Definition set_factor_row (i : nat) : M unit := fun s =>
  let f := factor s in
  if (i <? length (rows f))%nat then
    Outcome [] (set_factor s
                  (Ndarray2 (shape0 f) (shape1 f) (<[i := ones_row f]> (rows f))))
      (Ok tt)
  else Outcome [] s (Raise IndexError).

(** ** [write_file] *)

(** Section 4, the body of [for j in range(self.nqobfb[i])]: one record
    at the cursor [c], then [c += 1]. *)
Definition write_obs (c : nat) : M nat :=
  nam ← eval (fun s => py_getitem (obsnam s) c);
  ref ← eval (fun s => py_getitem (irefsp s) c);
  toff ← eval (fun s => py_getitem (toffset s) c);
  flw ← eval (fun s => py_getitem (flwobs s) c);
  emit (L_obs nam ref toff flw);;
  mret (S c).

(** Section 5, the body of [for j in range(abs(self.nqclfb[i]))]. *)
Definition write_cell (i j : nat) : M unit :=
  nqcl ← eval (fun s => py_getitem (nqclfb s) i);
  (if nqcl <? 0 then set_factor_row i else mret tt);;
  lay ← eval (fun s => of_option (np_getitem2 (layer s) i j));
  rw ← eval (fun s => of_option (np_getitem2 (row s) i j));
  col ← eval (fun s => of_option (np_getitem2 (column s) i j));
  fac ← eval (fun s => of_option (np_getitem2 (factor s) i j));
  emit (L_cell lay rw col fac).

(** The body of [for i in range(self.nqfb)], with the cursor [c]. *)
Definition write_group (i : nat) (c : nat) : M nat :=
  nqob ← eval (fun s => py_getitem (nqobfb s) i);
  nqcl ← eval (fun s => py_getitem (nqclfb s) i);
  emit (L_group nqob nqcl);;
  nqob' ← eval (fun s => py_getitem (nqobfb s) i);
  c' ← for_loop (range nqob') (fun _ c => write_obs c) c;
  nqcl' ← eval (fun s => py_getitem (nqclfb s) i);
  for_loop (range (abs32 nqcl')) (fun j _ => write_cell i j) tt;;
  mret c'.

(** Lines 194-220: [c = 0] and the loop over the groups; the value is
    the cursor when the loop ends. *)
Definition write_sections_3_5 : M nat :=
  n ← eval (fun s => Ok (nqfb s));
  for_loop (range n) write_group 0%nat.

(** What is written to the primary file, lines 186-220. *)
Definition write_primary : M unit :=
  h ← eval (fun s => Ok (heading s));
  emit (L_text h);;
  hd ← eval (fun s => Ok (L_header (nqfb s) (nqcfb s) (nqtfb s) (iufbobsv s)));
  emit hd;;
  t ← eval (fun s => Ok (tomultfb s));
  emit (L_tomult t);;
  write_sections_3_5;;
  mret tt.

(** What is written to the instruction file, lines 229-234. *)
Definition write_ins : M unit :=
  emit (L_text "jif @");;
  n ← eval (fun s => Ok (nqtfb s));
  emit (L_text (String.append "StandardFile 0 1 " (py_str n)));;
  n' ← eval (fun s => Ok (nqtfb s));
  for_loop (range n')
    (fun i _ => nam ← eval (fun s => py_getitem (obsnam s) i);
                emit (L_text nam)) tt.

(** The file system maps a path to the lines of the file; opening a
    file for writing replaces its content, and what was written before an
    exception stays in the file. *)
Record written : Type := Written {
  w_res : result unit;
  w_self : Encoder;
  w_fs : gmap string (list line)
}.

Definition write_file (self : Encoder) (fs : gmap string (list line))
    : written :=
  let o1 := write_primary self in
  let fs1 := <[fn_path self := out o1]> fs in
  match res o1 with
  | Raise e => Written (Raise e) (st o1) fs1
  | Ok _ =>
      let sfname := String.append (fn_path (st o1)) "_ins" in
      let o2 := write_ins (st o1) in
      Written (res o2) (st o2) (<[sfname := out o2]> fs1)
  end.

(** ** Reading a written file back *)

Definition is_obs (l : line) : bool :=
  match l with L_obs _ _ _ _ => true | _ => false end.

Definition is_cell (l : line) : bool :=
  match l with L_cell _ _ _ _ => true | _ => false end.

Definition is_group (l : line) : bool :=
  match l with L_group _ _ => true | _ => false end.

(** The observation records of a file, in file order. *)
Definition obs_lines (f : list line) : list line := List.filter is_obs f.

Definition obs_name (l : line) : option string :=
  match l with L_obs nam _ _ _ => Some nam | _ => None end.

Definition cell_factor (l : line) : option float32 :=
  match l with L_cell _ _ _ fac => Some fac | _ => None end.

(** The lines before the first section-3 record. *)
Fixpoint until_group (f : list line) : list line :=
  match f with
  | [] => []
  | l :: f' => if is_group l then [] else l :: until_group f'
  end.

(** The file cut at its section-3 records: one block per group, each
    starting with its section-3 record. *)
Fixpoint groups_of (f : list line) : list (list line) :=
  match f with
  | [] => []
  | l :: f' =>
      if is_group l then (l :: until_group f') :: groups_of f'
      else groups_of f'
  end.

(** The section-5 records written for group [i]. *)
Definition cells_of_group (f : list line) (i : nat) : list line :=
  List.filter is_cell (nth i (groups_of f) []).

(** Lines with no section-3 record, and files that start with one. *)
Definition no_group (l : list line) : Prop :=
  Forall (fun x => is_group x = false) l.

Definition group_headed (l : list line) : Prop :=
  match l with
  | [] => True
  | x :: _ => is_group x = true
  end.

(** ** The flattened record stream *)

(** The record at index [c] of the flattened arrays, when all four have
    one. *)
Definition obs_record (s : Encoder) (c : nat) : option line :=
  nam ← obsnam s !! c;
  ref ← irefsp s !! c;
  toff ← toffset s !! c;
  flw ← flwobs s !! c;
  Some (L_obs nam ref toff flw).

(** Where the cursor stands after every group: each group advances it
    by the length of [range(nqobfb[i])]. *)
Definition cursor_end (s : Encoder) : nat :=
  foldr Nat.add 0%nat (Z.to_nat <$> nqobfb s).

(** ** When [write_file] runs to its end

    The cursor stays inside the flattened arrays, every record has a
    name, and every group fits the padded width of the cell storage. *)
Definition write_ready (s : Encoder) : bool :=
  (cursor_end s <=? Z.to_nat (nqtfb s))%nat
  && (Z.to_nat (nqtfb s) <=? length (obsnam s))%nat
  && forallb (fun q => (Z.to_nat (abs32 q) <=? shape1 (layer s))%nat)
       (nqclfb s).

(** Recognized boundary-type tags: [flowtype.upper().strip()] is one of
    the four. *)
Definition recognized (flowtype : option string) : bool :=
  match flowtype with
  | None => false
  | Some t =>
      let tag := upper_strip t in
      String.eqb tag "CHD" || String.eqb tag "GHB"
      || String.eqb tag "DRN" || String.eqb tag "RIV"
  end.

Definition all_space (s : string) : bool :=
  forallb is_space (list_ascii_of_string s).

(** ** The shape inconsistencies of the construction contract *)

(** The three conditions on the shapes of the inputs: every ragged
    sub-sequence of group [i] has [abs(nqclfb[i])] entries, the
    observation counts add up to [nqtfb], and the flattened arrays have
    [nqtfb] entries. *)
Definition ragged_ok (a : Args) : bool :=
  let ok {A} (ll : list (list A)) :=
    forallb (fun p => (Z.of_nat (length (snd p)) =? Z.abs (fst p)))
      (zip (arg_nqclfb a) ll) in
  ok (arg_layer a) && ok (arg_row a) && ok (arg_column a) && ok (arg_factor a).

Definition counts_ok (a : Args) : bool :=
  sum_list_Z (arg_nqobfb a) =? arg_nqtfb a.

Definition flattened_ok (a : Args) : bool :=
  let n := arg_nqtfb a in
  (Z.of_nat (length (arg_obsnam a)) =? n)
  && (Z.of_nat (length (arg_irefsp a)) =? n)
  && (Z.of_nat (length (arg_toffset a)) =? n)
  && (Z.of_nat (length (arg_flwobs a)) =? n).

(** ** The shapes [__init__] establishes *)

Definition arr_shaped {A} (arr : ndarray2 A) (n w : nat) : Prop :=
  shape0 arr = n /\ shape1 arr = w /\ length (rows arr) = n
  /\ Forall (fun r => length r = w) (rows arr).

Definition shaped (s : Encoder) : Prop :=
  let n := Z.to_nat (nqfb s) in
  let t := Z.to_nat (nqtfb s) in
  let w := shape1 (layer s) in
  length (nqobfb s) = n /\ length (nqclfb s) = n
  /\ length (irefsp s) = t /\ length (toffset s) = t
  /\ length (flwobs s) = t
  /\ arr_shaped (layer s) n w /\ arr_shaped (row s) n w
  /\ arr_shaped (column s) n w /\ arr_shaped (factor s) n w.

Definition cells_shaped (c : Cells) (n w : nat) : Prop :=
  arr_shaped (c_layer c) n w /\ arr_shaped (c_row c) n w
  /\ arr_shaped (c_column c) n w /\ arr_shaped (c_factor c) n w.

(** [runs m s l s' a]: from the encoder [s], [m] writes the lines [l],
    leaves the encoder [s'] and returns [a] without raising. *)
Definition runs {A} (m : M A) (s : Encoder) (l : list line) (s' : Encoder)
    (a : A) : Prop :=
  m s = Outcome l s' (Ok a).

(** ** What a complete run writes, in closed form *)

Definition obs_at (s : Encoder) (c : nat) : line :=
  L_obs (nth c (obsnam s) ""%string) (nth c (irefsp s) 0)
        (nth c (toffset s) f32_zero) (nth c (flwobs s) f32_zero).

Definition get2 {A} (d : A) (arr : ndarray2 A) (i j : nat) : A :=
  nth j (nth i (rows arr) []) d.

Definition cell_at (s : Encoder) (i : nat) (q : Z) (j : nat) : line :=
  L_cell (get2 0 (layer s) i j) (get2 0 (row s) i j) (get2 0 (column s) i j)
         (if q <? 0 then f32_of f64_one else get2 f32_zero (factor s) i j).

Definition group_count (s : Encoder) (i : nat) : nat :=
  Z.to_nat (nth i (nqobfb s) 0).

Definition block (s : Encoder) (i c : nat) : list line :=
  let q := nth i (nqclfb s) 0 in
  L_group (nth i (nqobfb s) 0) q
  :: (obs_at s <$> seq c (group_count s i))
  ++ (cell_at s i q <$> seq 0 (Z.to_nat (abs32 q))).

(** The records consumed by the groups of [idx]. *)
Definition counts (s : Encoder) (idx : list nat) : nat :=
  foldr Nat.add 0%nat (group_count s <$> idx).

Fixpoint blocks_from (s : Encoder) (idx : list nat) (c : nat)
    : list (list line) :=
  match idx with
  | [] => []
  | i :: idx' => block s i c :: blocks_from s idx' (c + group_count s i)
  end.

Definition preamble (s : Encoder) : list line :=
  [L_text (heading s);
   L_header (nqfb s) (nqcfb s) (nqtfb s) (iufbobsv s);
   L_tomult (tomultfb s)].

Definition primary_lines (s : Encoder) : list line :=
  preamble s ++ concat (blocks_from s (range (nqfb s)) 0).

Definition ins_lines (s : Encoder) : list line :=
  L_text "jif @"
  :: L_text (String.append "StandardFile 0 1 " (py_str (nqtfb s)))
  :: (L_text <$> take (Z.to_nat (nqtfb s)) (obsnam s)).

(** The rows of [factor] a run overwrites: those of the groups whose
    flag is negative and whose cell loop runs at least once. *)
Definition overwritten (s : Encoder) (i : nat) : bool :=
  match nqclfb s !! i with
  | Some q => (q <? 0) && (0 <? abs32 q)
  | None => false
  end.

(** The encoder with the rows selected by [T] set to ones. *)
Definition set_ones (T : nat -> bool) (s : Encoder) : Encoder :=
  let f := factor s in
  set_factor s
    (Ndarray2 (shape0 f) (shape1 f)
       (imap (fun i r => if T i then ones_row f else r) (rows f))).

(** The encoder after the groups below [k] were written. *)
Definition settled (s : Encoder) (k : nat) : Encoder :=
  set_ones (fun i => (i <? k)%nat && overwritten s i) s.

(** The encoder [__init__] returns, and a blank one when it raises. *)
Definition blank : Encoder :=
  {| name := []; extension := []; unit_number := []; fn_path := "";
     url := ""; heading := "";
     nqfb := 0; nqcfb := 0; nqtfb := 0; iufbobsv := 0;
     tomultfb := f64_one;
     nqobfb := []; nqclfb := []; obsnam := []; irefsp := [];
     toffset := []; flwobs := [];
     layer := Ndarray2 0 0 []; row := Ndarray2 0 0 [];
     column := Ndarray2 0 0 []; factor := Ndarray2 0 0 [] |}.

Definition built (a : Args) : Encoder :=
  match __init__ a with
  | Ok e => e
  | Raise _ => blank
  end.

(** ** What any run may change *)

Definition flag_negative (s : Encoder) (i : nat) : bool :=
  match nqclfb s !! i with
  | Some q => q <? 0
  | None => false
  end.

(** [frame s s']: [s'] is [s] but for rows of [factor] set to ones, all of
    them rows of groups with a negative flag. *)
Definition frame (s s' : Encoder) : Prop :=
  exists T : nat -> bool,
    (forall k, T k = true -> flag_negative s k = true) /\ s' = set_ones T s.

(** [m] raises nothing but [IndexError]. *)
Definition index_only {A} (m : M A) : Prop :=
  forall s x, res (m s) = Raise x -> x = IndexError.

(** ** The inputs as the files show them *)

(** The cell record [j] of group [i] as the inputs give it; an entry
    past the end of a sub-sequence reads as zero, and the factor is 1.0
    under a negative flag [q]. *)
Definition input_cell (a : Args) (i : nat) (q : Z) (j : nat) : line :=
  L_cell (nth j (nth i (arg_layer a) []) 0)
         (nth j (nth i (arg_row a) []) 0)
         (nth j (nth i (arg_column a) []) 0)
         (if q <? 0 then f32_of f64_one
          else nth j (f32_of <$> nth i (arg_factor a) []) f32_zero).

(** The observation record [c] as the inputs give it. *)
Definition input_record (a : Args) (c : nat) : option line :=
  nam ← arg_obsnam a !! c;
  ref ← arg_irefsp a !! c;
  toff ← arg_toffset a !! c;
  flw ← arg_flwobs a !! c;
  Some (L_obs nam ref (f32_of toff) (f32_of flw)).

End Flwob.

Arguments Outcome {FL A} _ _ _.
Arguments out {FL A} _.
Arguments st {FL A} _.
Arguments res {FL A} _.

(** ** Concrete inputs *)

(** The tags of the inputs below are ASCII text, on which [upper_strip]
    is computed; this instance only lets the examples be evaluated. *)
#[global] Instance bytewise : Unicode :=
  {| unicode_upper_strip := fun t => strip (upper t) |}.

Definition registry : Model :=
  {| package_path := fun ext _ _ =>
       String.append "model." (hd ""%string ext) |}.

(** Two groups, [nqobfb = [2, 1]], [nqtfb = 3], a first group with flag
    [-3] and factors [0.2, 0.5, 0.9], tag ["chd "]. *)
Definition two_groups : @Args Q_floats :=
  @Build_Args Q_floats registry 2 6 3 0 1%Q
    [2; 1] [-3; 3] ["o1"; "o2"; "o3"]%string
    [1; 1; 2] [0%Q; 1%Q; 2%Q] [5%Q; 6%Q; 7%Q]
    [[1; 1; 1]; [2; 2; 2]] [[1; 2; 3]; [4; 5; 6]] [[7; 8; 9]; [1; 2; 3]]
    [[1 # 5; 1 # 2; 9 # 10]; [1 # 3; 1 # 3; 1 # 3]]
    (Some "chd "%string) default_extension default_unitnumber.

(** Groups of sizes [2, 5]. *)
Definition sizes_2_5 : @Args Q_floats :=
  @Build_Args Q_floats registry 2 7 2 0 1%Q
    [1; 1] [2; 5] ["a"; "b"]%string
    [1; 1] [0%Q; 0%Q] [3%Q; 4%Q]
    [[1; 1]; [1; 1; 1; 1; 1]] [[1; 2]; [1; 2; 3; 4; 5]]
    [[1; 1]; [2; 2; 2; 2; 2]]
    [[1 # 2; 1 # 2]; [1 # 5; 1 # 5; 1 # 5; 1 # 5; 1 # 5]]
    (Some "DRN"%string) default_extension default_unitnumber.

(** One group of three cells with the flag [-3]: a documented use of the
    flag. *)
Definition negative_flag : @Args Q_floats :=
  @Build_Args Q_floats registry 1 3 1 0 1%Q
    [1] [-3] ["o1"]%string
    [1] [0%Q] [5%Q]
    [[1; 1; 1]] [[1; 2; 3]] [[7; 8; 9]]
    [[1 # 5; 1 # 2; 9 # 10]]
    (Some "RIV"%string) default_extension default_unitnumber.

(** Two groups, the first with the flag [-1] and one cell, the second
    with no cell. *)
Definition negative_flag_zero_width : @Args Q_floats :=
  @Build_Args Q_floats registry 2 1 1 0 1%Q
    [1; 0] [-1; 0] ["o1"]%string
    [1] [0%Q] [5%Q]
    [[4]; []] [[5]; []] [[6]; []]
    [[1 # 2]; []]
    (Some "RIV"%string) default_extension default_unitnumber.

(** Inputs with the three shape inconsistencies at once: the cell lists
    of the only group are empty where [nqclfb = [2]], the counts add up
    to 1 where [nqtfb = 2], and there is one name for two records. *)
Definition inconsistent : @Args Q_floats :=
  @Build_Args Q_floats registry 1 2 2 0 1%Q
    [1] [2] ["o1"]%string
    [1; 1] [0%Q; 0%Q] [5%Q; 6%Q]
    [[]] [[]] [[]]
    [[]]
    (Some "GHB"%string) default_extension default_unitnumber.


Definition two_groups_encoder : @Encoder Q_floats :=
  Eval vm_compute in built two_groups.

Definition sizes_2_5_encoder : @Encoder Q_floats :=
  Eval vm_compute in built sizes_2_5.

Definition zero_width_encoder : @Encoder Q_floats :=
  Eval vm_compute in built negative_flag_zero_width.

Definition inconsistent_encoder : @Encoder Q_floats :=
  Eval vm_compute in built inconsistent.

(** The constructor called with the tag ["riv"] and every default. *)
Definition riv_defaults : @Args Q_floats :=
  with_flowtype (default_args registry) (Some "riv"%string).

(** A file system with a file of the user's, and one with an older
    instruction file. *)
Definition notes_fs : gmap string (list (@line Q_floats)) :=
  <["notes.txt"%string := [L_text "kept"]]> ∅.

Definition stale_ins_fs : gmap string (list (@line Q_floats)) :=
  <["model.rvob_ins"%string := [L_text "old"]]> ∅.

(** * Properties *)

(** ** The error monad *)

Lemma bind_ok {A B} (m : result A) (f : A -> result B) (b : B) :
  m ≫= f = Ok b -> exists a, m = Ok a /\ f a = Ok b.
Proof. destruct m as [a|e]; [eauto | discriminate]. Qed.

Ltac inv_bind H :=
  let a := fresh "v" in
  let Ha := fresh "E" in
  apply bind_ok in H; destruct H as (a & Ha & H).

(** ** Tags: [upper] and [strip] *)

Lemma upper_char_space (c : ascii) : is_space (upper_char c) = is_space c.
Proof. destruct c as [[] [] [] [] [] [] [] []]; reflexivity. Qed.

Lemma list_ascii_app (s1 s2 : string) :
  list_ascii_of_string (String.append s1 s2)
  = list_ascii_of_string s1 ++ list_ascii_of_string s2.
Proof. induction s1 as [|c s1 IH]; simpl; [reflexivity | now rewrite IH]. Qed.

Lemma list_ascii_string (l : list ascii) :
  list_ascii_of_string (string_of_list_ascii l) = l.
Proof. induction l as [|c l IH]; simpl; [reflexivity | now rewrite IH]. Qed.

Lemma lstrip_spaces (ws l : list ascii) :
  forallb is_space ws = true -> lstrip_chars (ws ++ l) = lstrip_chars l.
Proof.
  induction ws as [|c ws IH]; simpl; [reflexivity |].
  intros H. apply andb_prop in H as [Hc Hws]. rewrite Hc. auto.
Qed.

Lemma lstrip_app (l ws : list ascii) :
  forallb is_space ws = true ->
  lstrip_chars (l ++ ws) = lstrip_chars l ++ ws /\ lstrip_chars l <> []
  \/ lstrip_chars (l ++ ws) = [] /\ lstrip_chars l = [].
Proof.
  intros Hws. induction l as [|c l IH]; simpl.
  - right. split; [| reflexivity].
    rewrite <- (app_nil_r ws). now rewrite lstrip_spaces.
  - destruct (is_space c); [exact IH |]. left. split; [reflexivity | discriminate].
Qed.

Lemma strip_chars_spaces (pre l post : list ascii) :
  forallb is_space pre = true -> forallb is_space post = true ->
  rev (lstrip_chars (rev (lstrip_chars (pre ++ l ++ post))))
  = rev (lstrip_chars (rev (lstrip_chars l))).
Proof.
  intros Hpre Hpost. rewrite lstrip_spaces by assumption.
  destruct (lstrip_app l post Hpost) as [[-> _] | [-> ->]]; [| reflexivity].
  rewrite rev_app_distr, lstrip_spaces; [reflexivity |].
  rewrite forallb_forall in *. intros x Hx. apply Hpost.
  now apply in_rev.
Qed.

Lemma upper_spaces (s : string) :
  all_space s = true -> all_space (upper s) = true.
Proof.
  unfold all_space, upper. rewrite list_ascii_string.
  induction (list_ascii_of_string s) as [|c l IH]; [reflexivity |].
  rewrite fmap_cons. simpl. intros H. apply andb_prop in H as [Hc Hl].
  rewrite upper_char_space, Hc. now apply IH.
Qed.

Lemma upper_app (s1 s2 : string) :
  upper (String.append s1 s2) = String.append (upper s1) (upper s2).
Proof.
  unfold upper. rewrite list_ascii_app, fmap_app.
  induction (upper_char <$> list_ascii_of_string s1) as [|c l IH]; simpl;
    [reflexivity | now rewrite IH].
Qed.

(** The normal form of a tag ignores surrounding whitespace. *)
Lemma tag_normal_form (pre t post : string) :
  all_space pre = true -> all_space post = true ->
  strip (upper (String.append pre (String.append t post))) = strip (upper t).
Proof.
  intros Hpre Hpost. rewrite !upper_app. unfold strip.
  rewrite !list_ascii_app. f_equal.
  apply strip_chars_spaces; now apply upper_spaces.
Qed.

(** [upper] and [strip] neither bring in nor remove a character outside
    ASCII. *)
Lemma upper_char_ascii (c : ascii) : ascii_char (upper_char c) = ascii_char c.
Proof. destruct c as [[] [] [] [] [] [] [] []]; reflexivity. Qed.

Lemma space_ascii (c : ascii) : is_space c = true -> ascii_char c = true.
Proof. destruct c as [[] [] [] [] [] [] [] []]; now intros. Qed.

Lemma upper_ascii_text (s : string) : ascii_text (upper s) = ascii_text s.
Proof.
  unfold ascii_text, upper. rewrite list_ascii_string.
  induction (list_ascii_of_string s) as [|c l IH]; [reflexivity |].
  rewrite fmap_cons. simpl. now rewrite upper_char_ascii, IH.
Qed.

Lemma lstrip_ascii (l : list ascii) :
  forallb ascii_char (lstrip_chars l) = forallb ascii_char l.
Proof.
  induction l as [|c l IH]; [reflexivity |]. simpl.
  destruct (is_space c) eqn:Hc; [| reflexivity].
  now rewrite IH, (space_ascii c Hc).
Qed.

Lemma forallb_rev {A} (f : A -> bool) (l : list A) :
  forallb f (rev l) = forallb f l.
Proof.
  induction l as [|x l IH]; [reflexivity |]. simpl.
  rewrite forallb_app, IH. simpl. rewrite andb_true_r. apply andb_comm.
Qed.

Lemma strip_ascii_text (s : string) : ascii_text (strip s) = ascii_text s.
Proof.
  unfold ascii_text, strip. rewrite list_ascii_string.
  now rewrite forallb_rev, lstrip_ascii, forallb_rev, lstrip_ascii.
Qed.

Section FlwobFacts.
Context {FL : Floats} {UC : Unicode}.

(** ** The boundary-type branch *)

(** On ASCII text [upper_strip] is [upper] followed by [strip]; a tag
    whose bytewise normal form is ASCII text is ASCII text itself. *)
Lemma upper_strip_ascii (t : string) :
  ascii_text (strip (upper t)) = true -> upper_strip t = strip (upper t).
Proof.
  rewrite strip_ascii_text, upper_ascii_text. unfold upper_strip.
  now intros ->.
Qed.

(** Two tags with the same normal form build the same encoder. *)
Lemma init_same_normal_form (a : Args) (t1 t2 : string) :
  upper_strip t1 = upper_strip t2 ->
  __init__ (with_flowtype a (Some t1)) = __init__ (with_flowtype a (Some t2)).
Proof.
  intros H. unfold __init__.
  assert (Hfill : forall t idx c,
    fill_cells (with_flowtype a t) idx c = fill_cells a idx c).
  { intros o idx. induction idx as [|i idx IH]; intros c; [reflexivity |].
    simpl. change (fill_group (with_flowtype a o) i c) with (fill_group a i c).
    destruct (fill_group a i c); simpl; [apply IH | reflexivity]. }
  unfold select_flowtype. simpl. rewrite H.
  repeat match goal with
         | |- ?m ≫= _ = ?m ≫= _ => destruct m; simpl; [| reflexivity]
         end.
  now rewrite !Hfill.
Qed.

(** A tag outside ASCII is read through the tables of the interpreter:
    when they give one of the tags, the encoder is the one that tag
    builds. With the tables of Python 3 this is the case of
    ['r\u0131v'], read as ['RIV'], and of ['CHD\xa0'], read as ['CHD']. *)
Lemma tag_outside_ascii (a : Args) (t tag : string) :
  ascii_text t = false ->
  unicode_upper_strip t = tag ->
  ascii_text tag = true -> strip (upper tag) = tag ->
  __init__ (with_flowtype a (Some t)) = __init__ (with_flowtype a (Some tag)).
Proof.
  intros Ht Htab Htag Hnorm. apply init_same_normal_form.
  unfold upper_strip. now rewrite Ht, Htag, Htab, Hnorm.
Qed.

(** A tag outside the four variants leaves [name] unbound. *)
Lemma unrecognized_tag_unbound (a : Args) (t : string) :
  recognized (Some t) = false ->
  __init__ (with_flowtype a (Some t)) = Raise UnboundLocalError.
Proof.
  unfold recognized, __init__, select_flowtype. simpl. intros H.
  apply orb_false_elim in H as [H Hr]. apply orb_false_elim in H as [H Hd].
  apply orb_false_elim in H as [Hc Hg]. now rewrite Hc, Hg, Hd, Hr.
Qed.

(** C6 (flowtype matching): a tag that reads [CHD] once surrounding
    whitespace is dropped and letters are put in upper case selects what
    the tag ["CHD"] selects: the same encoder is built, and with the
    default tables its name pair is [CHOB, DATA], its extension pair
    [chob, obc], its unit pair [40, 140] and its output unit 140. The tag
    ["chd "] is the case [pre = ""], [t = "chd"], [post = " "]. *)
Theorem chd_tag_case_and_space_insensitive
    (a : Args) (pre t post : string) (e : Encoder) :
  all_space pre = true -> all_space post = true ->
  upper t = "CHD"%string ->
  arg_extension a = default_extension ->
  arg_unitnumber a = default_unitnumber ->
  __init__ (with_flowtype a (Some (String.append pre (String.append t post))))
    = Ok e ->
  __init__ (with_flowtype a (Some "CHD"%string)) = Ok e
  /\ name e = ["CHOB"; "DATA"]%string
  /\ extension e = ["chob"; "obc"]%string
  /\ unit_number e = [40; 140]
  /\ iufbobsv e = 140.
Proof.
  intros Hpre Hpost Ht Hext Hunit Hinit.
  assert (Hb : strip (upper (String.append pre (String.append t post)))
               = "CHD"%string).
  { rewrite tag_normal_form by assumption. now rewrite Ht. }
  assert (Hn : upper_strip (String.append pre (String.append t post))
               = upper_strip "CHD").
  { rewrite upper_strip_ascii by now rewrite Hb. exact Hb. }
  rewrite (init_same_normal_form a _ _ Hn) in Hinit.
  split; [exact Hinit |].
  unfold __init__ in Hinit. simpl in Hinit. rewrite Hext, Hunit in Hinit.
  simpl in Hinit.
  repeat (inv_bind Hinit). injection Hinit as <-. simpl. repeat split.
Qed.

(** C7 (unrecognized tag): the tag ["XYZ"] is not rejected by a check of
    the tag: no branch binds [name], and the call of the base
    constructor stops on the unbound local. *)
Theorem xyz_tag_unbound_local (a : Args) :
  __init__ (with_flowtype a (Some "XYZ"%string)) = Raise UnboundLocalError.
Proof. now apply unrecognized_tag_unbound. Qed.

(** A recognized tag binds [name], [url] and [heading], unless the unit
    table is too short for [unitnumber[1]]. *)
Lemma select_recognized (t : option string) (ext : list string)
    (units : list Z) (iu : Z) :
  recognized t = true ->
  (select_flowtype t ext units iu = Raise IndexError
   /\ units <> default_unitnumber)
  \/ exists sel nm u h,
       select_flowtype t ext units iu = Ok sel /\ s_name sel = Some nm
       /\ s_url sel = Some u /\ s_heading sel = Some h.
Proof.
  unfold recognized, select_flowtype. destruct t as [t|]; [| discriminate].
  intros Hrec.
  assert (Hb : forall nm x y u h, (y <= 8)%nat -> (y = x + 2)%nat ->
    (take_branch nm x y u h ext units = Raise IndexError
     /\ units <> default_unitnumber)
    \/ exists sel nm' u' h',
         take_branch nm x y u h ext units = Ok sel /\ s_name sel = Some nm'
         /\ s_url sel = Some u' /\ s_heading sel = Some h').
  { intros nm x y u h Hy Hx. unfold take_branch, py_getitem.
    destruct (py_slice x y units !! 1%nat) eqn:E; simpl.
    - right. eauto 10.
    - left. split; [reflexivity |]. intros ->. subst y.
      destruct x as [|[|[|[|[|[|[|x]]]]]]]; try discriminate E; lia. }
  destruct (String.eqb _ "CHD"); [apply Hb; lia |].
  destruct (String.eqb _ "GHB"); [apply Hb; lia |].
  destruct (String.eqb _ "DRN"); [apply Hb; lia |].
  destruct (String.eqb _ "RIV"); [apply Hb; lia | discriminate].
Qed.

(** C10 (empty flag list): with a recognized tag and [nqclfb = []] the
    constructor always raises; with the default unit table the
    exception is the [ValueError] of [max] on an empty list. *)
Theorem empty_flag_list_rejected (a : Args) :
  recognized (arg_flowtype a) = true ->
  arg_nqclfb a = [] ->
  (__init__ a = Raise ValueError \/ __init__ a = Raise IndexError)
  /\ (arg_unitnumber a = default_unitnumber -> __init__ a = Raise ValueError).
Proof.
  intros Hrec Hnil. unfold __init__. rewrite Hnil.
  destruct (select_recognized _ (arg_extension a) (arg_unitnumber a)
              (arg_iufbobsv a) Hrec)
    as [[-> Hu] | (sel & nm & u & h & -> & Hn & Hurl & Hh)]; simpl.
  - split; [now right | intros; contradiction].
  - rewrite Hn, Hurl, Hh. simpl. split; [now left | reflexivity].
Qed.

(** ** The shapes after construction *)

Lemma np_zeros1_ok {A} (z : A) (n : Z) (l : list A) :
  np_zeros1 z n = Ok l -> 0 <= n /\ l = replicate (Z.to_nat n) z.
Proof.
  unfold np_zeros1. destruct (Z.ltb_spec n 0); [discriminate |].
  intros [= <-]. now split.
Qed.

Lemma np_zeros2_ok {A} (z : A) (n m : Z) (arr : ndarray2 A) :
  np_zeros2 z n m = Ok arr ->
  0 <= n /\ 0 <= m /\ arr_shaped arr (Z.to_nat n) (Z.to_nat m).
Proof.
  unfold np_zeros2.
  destruct (Z.ltb_spec n 0); [discriminate |].
  destruct (Z.ltb_spec m 0); [discriminate |].
  intros [= <-]. repeat split; simpl; try assumption.
  - apply length_replicate.
  - apply Forall_replicate, length_replicate.
Qed.

Lemma as_int32_ok (l v : list Z) : as_int32 l = Ok v -> v = l.
Proof.
  revert v. induction l as [|z l IH]; simpl; intros v H.
  - now injection H as <-.
  - destruct (in_int32 z); [| discriminate].
    inv_bind H. injection H as <-. f_equal. now apply IH.
Qed.

Lemma np_setslice_length {S A} (conv : list S -> result (list A))
    (r : list A) (k : nat) (src : list S) (r' : list A) :
  np_setslice conv r k src = Ok r' -> length r' = length r.
Proof.
  unfold np_setslice. intros H. inv_bind H.
  destruct (Nat.eqb_spec (length v) (Nat.min k (length r))) as [Hl|Hl].
  - injection H as <-. rewrite length_app, length_drop. lia.
  - destruct v as [|x [|y v]]; try discriminate. injection H as <-.
    rewrite length_app, length_replicate, length_drop. lia.
Qed.

Lemma np_setrow_prefix_shaped {S A} (conv : list S -> result (list A))
    (arr arr' : ndarray2 A) (i k : nat) (src : list S) (n w : nat) :
  arr_shaped arr n w ->
  np_setrow_prefix conv arr i k src = Ok arr' -> arr_shaped arr' n w.
Proof.
  intros (H0 & H1 & Hn & Hw). unfold np_setrow_prefix.
  destruct (rows arr !! i) as [r|] eqn:Hr; [| discriminate].
  intros H. inv_bind H. injection H as <-. repeat split; simpl; auto.
  - now rewrite length_insert.
  - apply Forall_insert; [assumption |].
    rewrite (np_setslice_length _ _ _ _ _ E).
    eapply Forall_lookup_1 in Hw; eauto.
Qed.

Lemma fill_cells_shaped (a : Args) (idx : list nat) (c c' : Cells) (n w : nat) :
  cells_shaped c n w -> fill_cells a idx c = Ok c' -> cells_shaped c' n w.
Proof.
  revert c. induction idx as [|i idx IH]; simpl; intros c Hc H.
  - now injection H as <-.
  - inv_bind H. apply (IH v); [| assumption].
    destruct Hc as (Hl & Hr & Hcl & Hf). unfold fill_group in E.
    repeat (inv_bind E). injection E as <-.
    exact (conj (np_setrow_prefix_shaped _ _ _ _ _ _ _ _ Hl E1)
          (conj (np_setrow_prefix_shaped _ _ _ _ _ _ _ _ Hr E3)
          (conj (np_setrow_prefix_shaped _ _ _ _ _ _ _ _ Hcl E5)
                (np_setrow_prefix_shaped _ _ _ _ _ _ _ _ Hf E7)))).
Qed.

(** What [__init__] leaves in the encoder. *)
Lemma init_fields (a : Args) (e : Encoder) :
  __init__ a = Ok e ->
  nqfb e = arg_nqfb a /\ nqtfb e = arg_nqtfb a /\ obsnam e = arg_obsnam a
  /\ py_max (arg_nqclfb a) = Ok (Z.of_nat (shape1 (layer e)))
  /\ (length (arg_nqobfb a) = Z.to_nat (arg_nqfb a) ->
      nqobfb e = arg_nqobfb a)
  /\ 0 <= nqfb e /\ 0 <= nqtfb e
  /\ shaped e.
Proof.
  intros H. unfold __init__ in H.
  do 5 (inv_bind H). rename v3 into w.
  inv_bind H. rename v3 into layer0.
  inv_bind H. rename v3 into row0.
  inv_bind H. rename v3 into column0.
  inv_bind H. rename v3 into factor0.
  inv_bind H. rename v3 into nqobfb0.
  inv_bind H. rename v3 into nqclfb0.
  inv_bind H. rename v3 into irefsp0.
  inv_bind H. rename v3 into toffset0.
  inv_bind H. rename v3 into flwobs0.
  inv_bind H. rename v3 into nqobfb1.
  inv_bind H. rename v3 into nqclfb1.
  inv_bind H. rename v3 into irefsp1.
  inv_bind H. rename v3 into toffset1.
  inv_bind H. rename v3 into flwobs1.
  inv_bind H. rename v3 into c.
  injection H as <-. simpl.
  destruct (np_zeros2_ok _ _ _ _ E4) as (Hn & Hw & Hlay).
  destruct (np_zeros2_ok _ _ _ _ E5) as (_ & _ & Hrow).
  destruct (np_zeros2_ok _ _ _ _ E6) as (_ & _ & Hcol).
  destruct (np_zeros2_ok _ _ _ _ E7) as (_ & _ & Hfac).
  destruct (np_zeros1_ok _ _ _ E8) as (_ & ->).
  destruct (np_zeros1_ok _ _ _ E9) as (_ & ->).
  destruct (np_zeros1_ok _ _ _ E10) as (Ht & ->).
  destruct (np_zeros1_ok _ _ _ E11) as (_ & ->).
  destruct (np_zeros1_ok _ _ _ E12) as (_ & ->).
  destruct (fill_cells_shaped a _
              {| c_layer := layer0; c_row := row0; c_column := column0;
                 c_factor := factor0 |} c _ _
              (conj Hlay (conj Hrow (conj Hcol Hfac))) E18)
    as (Hl' & Hr' & Hc' & Hf').
  assert (Hw1 : shape1 (c_layer c) = Z.to_nat w) by apply Hl'.
  unfold np_assign in *.
  apply np_setslice_length in E14, E15, E16, E17.
  rewrite length_replicate in E14. rewrite length_replicate in E15.
  rewrite length_replicate in E16. rewrite length_replicate in E17.
  split; [reflexivity |]. split; [reflexivity |]. split; [reflexivity |].
  split; [rewrite Hw1, Z2Nat.id by assumption; exact E3 |].
  split.
  - intros Hlen. unfold np_setslice in E13.
    apply bind_ok in E13 as (src & Hsrc & E13).
    apply as_int32_ok in Hsrc. subst src.
    rewrite length_replicate, Nat.min_id, Hlen, Nat.eqb_refl in E13.
    injection E13 as <-.
    rewrite drop_ge by (rewrite length_replicate; lia). apply app_nil_r.
  - split; [assumption |]. split; [assumption |].
    apply np_setslice_length in E13. rewrite length_replicate in E13.
    unfold shaped. simpl. rewrite Hw1. repeat split; try assumption;
      first [apply Hl' | apply Hr' | apply Hc' | apply Hf'].
Qed.

(** ** Runs of the [write_file] monad *)

Lemma runs_ret {A} (a : A) (s : Encoder) : runs (mret a) s [] s a.
Proof. reflexivity. Qed.

Lemma runs_bind {A B} (m : M A) (f : A -> M B) s l1 s1 a l2 s2 b :
  runs m s l1 s1 a -> runs (f a) s1 l2 s2 b ->
  runs (m ≫= f) s (l1 ++ l2) s2 b.
Proof.
  unfold runs, mbind, M_bind. intros -> Hf. simpl. now rewrite Hf.
Qed.

Lemma runs_eval {A} (g : Encoder -> result A) (s : Encoder) (a : A) :
  g s = Ok a -> runs (eval g) s [] s a.
Proof. unfold runs, eval. now intros ->. Qed.

Lemma runs_emit (l : line) (s : Encoder) : runs (emit l) s [l] s tt.
Proof. reflexivity. Qed.

(** A step that reads the encoder and writes nothing. *)
Lemma runs_eval_bind {A B} (g : Encoder -> result A) (f : A -> M B)
    s a l s' b :
  g s = Ok a -> runs (f a) s l s' b -> runs (eval g ≫= f) s l s' b.
Proof.
  intros Hg Hf. apply (runs_bind _ _ _ [] s a l s' b); [| exact Hf].
  now apply runs_eval.
Qed.

Lemma runs_emit_bind {B} (x : line) (f : unit -> M B) s l s' b :
  runs (f tt) s l s' b -> runs (emit x ≫= f) s (x :: l) s' b.
Proof.
  intros Hf. apply (runs_bind _ _ _ [x] s tt l s' b); [| exact Hf].
  apply runs_emit.
Qed.

Lemma runs_eq {A} (m : M A) s l l' s1 s1' (a a' : A) :
  runs m s l s1 a -> l = l' -> s1 = s1' -> a = a' -> runs m s l' s1' a'.
Proof. now intros H <- <- <-. Qed.

Lemma py_getitem_nth {A} (l : list A) (i : nat) (d : A) :
  (i < length l)%nat -> py_getitem l i = Ok (nth i l d).
Proof.
  intros Hi. unfold py_getitem.
  destruct (lookup_lt_is_Some_2 l i Hi) as [x Hx].
  rewrite Hx. f_equal. symmetry. now apply nth_lookup_Some.
Qed.

(** Section 4: one record at the cursor. *)
Lemma write_obs_runs (s : Encoder) (c : nat) :
  (c < length (obsnam s))%nat -> (c < length (irefsp s))%nat ->
  (c < length (toffset s))%nat -> (c < length (flwobs s))%nat ->
  runs (write_obs c) s [obs_at s c] s (S c).
Proof.
  intros Hn Hi Ht Hf. unfold write_obs.
  eapply runs_eval_bind; [now apply py_getitem_nth |].
  eapply runs_eval_bind; [now apply py_getitem_nth |].
  eapply runs_eval_bind; [now apply py_getitem_nth |].
  eapply runs_eval_bind; [now apply py_getitem_nth |].
  apply runs_emit_bind, runs_ret.
Qed.

Lemma obs_loop_runs (s : Encoder) (l : list nat) (c : nat) :
  (c + length l <= length (obsnam s))%nat ->
  (c + length l <= length (irefsp s))%nat ->
  (c + length l <= length (toffset s))%nat ->
  (c + length l <= length (flwobs s))%nat ->
  runs (for_loop l (fun _ c => write_obs c) c) s
    (obs_at s <$> seq c (length l)) s (c + length l)%nat.
Proof.
  revert c. induction l as [|j l IH]; intros c Hn Hi Ht Hf; simpl in *.
  - rewrite Nat.add_0_r. apply runs_ret.
  - eapply runs_eq;
      [eapply runs_bind;
         [apply write_obs_runs; lia | apply (IH (S c)); lia]
      | reflexivity | reflexivity | lia].
Qed.

(** ** Rows set to ones *)

Lemma set_ones_ext (T T' : nat -> bool) (s : Encoder) :
  (forall k, T k = T' k) -> set_ones T s = set_ones T' s.
Proof.
  intros H. unfold set_ones. do 2 f_equal.
  apply imap_ext. intros k r _. now rewrite H.
Qed.

Lemma set_ones_none (T : nat -> bool) (s : Encoder) :
  (forall k, T k = false) -> set_ones T s = s.
Proof.
  intros H. unfold set_ones, set_factor.
  replace (imap (fun i r => if T i then ones_row (factor s) else r)
             (rows (factor s))) with (rows (factor s)).
  - destruct s as [? ? ? ? ? ? ? ? ? ? ? ? ? ? ? ? ? ? ? ? [? ? ?]].
    reflexivity.
  - apply list_eq. intros k. rewrite list_lookup_imap.
    destruct (rows (factor s) !! k); simpl; [| reflexivity]. now rewrite H.
Qed.

Lemma set_ones_twice (T T' : nat -> bool) (s : Encoder) :
  set_ones T' (set_ones T s) = set_ones (fun k => T k || T' k) s.
Proof.
  unfold set_ones, set_factor. simpl. do 2 f_equal.
  apply list_eq. intros k. rewrite !list_lookup_imap.
  destruct (rows (factor s) !! k); simpl; [| reflexivity].
  unfold ones_row. simpl. now destruct (T k), (T' k).
Qed.

Lemma set_ones_shaped (T : nat -> bool) (s : Encoder) :
  shaped s -> shaped (set_ones T s).
Proof.
  unfold shaped. simpl.
  intros (H1 & H2 & H3 & H4 & H5 & H6 & H7 & H8 & F0 & F1 & Fn & Fr).
  do 8 (split; [assumption |]).
  split; [assumption |]. split; [assumption |].
  simpl. split; [now rewrite length_imap |].
  apply Forall_lookup_2. intros k r. rewrite list_lookup_imap.
  destruct (rows (factor s) !! k) as [r0|] eqn:Hk; [| discriminate].
  simpl. intros [= <-]. destruct (T k).
  - unfold ones_row. now rewrite length_replicate.
  - eapply Forall_lookup_1 in Fr; eauto.
Qed.

(** [self.factor[i, :] = 1.0] adds row [i] to the rows set to ones. *)
Lemma set_factor_row_runs (T T' : nat -> bool) (s : Encoder) (i : nat) :
  (i < length (rows (factor s)))%nat ->
  (forall k, T' k = T k || (k =? i)%nat) ->
  runs (set_factor_row i) (set_ones T s) [] (set_ones T' s) tt.
Proof.
  intros Hi HT. unfold runs, set_factor_row. simpl.
  rewrite length_imap. destruct (Nat.ltb_spec i (length (rows (factor s))));
    [| lia].
  f_equal. unfold set_ones, set_factor. simpl. do 2 f_equal.
  apply list_eq. intros k. rewrite list_lookup_imap.
  destruct (Nat.eq_dec k i) as [-> | Hne].
  - rewrite list_lookup_insert_eq by now rewrite length_imap.
    rewrite HT, Nat.eqb_refl, orb_true_r.
    destruct (lookup_lt_is_Some_2 _ _ Hi) as [r ->]. reflexivity.
  - rewrite list_lookup_insert_ne by congruence.
    rewrite list_lookup_imap, HT.
    destruct (Nat.eqb_spec k i); [contradiction |]. now rewrite orb_false_r.
Qed.

Lemma np_getitem2_shaped {A} (d : A) (arr : ndarray2 A) (n w i j : nat) :
  arr_shaped arr n w -> (i < n)%nat -> (j < w)%nat ->
  np_getitem2 arr i j = Some (get2 d arr i j).
Proof.
  intros (_ & _ & Hn & Hw) Hi Hj. unfold np_getitem2, get2.
  destruct (lookup_lt_is_Some_2 (rows arr) i ltac:(lia)) as [r Hr].
  rewrite Hr. simpl. rewrite (nth_lookup_Some _ _ [] _ Hr).
  eapply Forall_lookup_1 in Hw; eauto.
  destruct (lookup_lt_is_Some_2 r j ltac:(lia)) as [x Hx].
  rewrite Hx. f_equal. symmetry. now apply nth_lookup_Some.
Qed.

Lemma overwritten_flag (s : Encoder) (i : nat) (q : Z) :
  nqclfb s !! i = Some q ->
  overwritten s i = (q <? 0) && (0 <? abs32 q).
Proof. unfold overwritten. now intros ->. Qed.

(** Section 5: one cell record; a negative flag sets row [i] to ones
    first. *)
Lemma write_cell_runs (T T' : nat -> bool) (s : Encoder) (i j : nat) (q : Z) :
  shaped s ->
  (forall k, T k = true -> overwritten s k = true) ->
  nqclfb s !! i = Some q ->
  (i < Z.to_nat (nqfb s))%nat -> (j < shape1 (layer s))%nat ->
  (forall k, T' k = T k || ((q <? 0) && (k =? i)%nat)) ->
  runs (write_cell i j) (set_ones T s) [cell_at s i q j] (set_ones T' s) tt.
Proof.
  intros Hs HT Hq Hi Hj HT'.
  pose proof Hs as (_ & _ & _ & _ & _ & Hlay & Hrow & Hcol & Hfac).
  unfold write_cell.
  eapply runs_eval_bind.
  { simpl. unfold py_getitem. now rewrite Hq. }
  assert (Hreads : forall T1 fac,
    np_getitem2 (factor (set_ones T1 s)) i j = Some fac ->
    runs (lay ← eval (fun s => of_option (np_getitem2 (layer s) i j));
          rw ← eval (fun s => of_option (np_getitem2 (row s) i j));
          col ← eval (fun s => of_option (np_getitem2 (column s) i j));
          fac ← eval (fun s => of_option (np_getitem2 (factor s) i j));
          emit (L_cell lay rw col fac))
      (set_ones T1 s)
      [L_cell (get2 0 (layer s) i j) (get2 0 (row s) i j)
         (get2 0 (column s) i j) fac] (set_ones T1 s) tt).
  { intros T1 fac Hfac1.
    eapply runs_eval_bind.
    { simpl. now rewrite (np_getitem2_shaped 0 _ _ _ _ _ Hlay Hi Hj). }
    eapply runs_eval_bind.
    { simpl. now rewrite (np_getitem2_shaped 0 _ _ _ _ _ Hrow Hi Hj). }
    eapply runs_eval_bind.
    { simpl. now rewrite (np_getitem2_shaped 0 _ _ _ _ _ Hcol Hi Hj). }
    eapply runs_eval_bind.
    { cbv beta. now rewrite Hfac1. }
    apply runs_emit. }
  assert (Hrow_i : exists r, rows (factor s) !! i = Some r
                             /\ length r = shape1 (layer s)).
  { destruct Hfac as (_ & _ & Hn & Hw).
    destruct (lookup_lt_is_Some_2 (rows (factor s)) i ltac:(lia)) as [r Hr].
    exists r. split; [assumption |]. eapply Forall_lookup_1 in Hw; eauto. }
  destruct Hrow_i as (r & Hr & Hlen).
  assert (Hw : shape1 (factor s) = shape1 (layer s)) by apply Hfac.
  unfold cell_at. destruct (Z.ltb_spec q 0) as [Hneg | Hpos].
  - eapply (runs_bind _ _ _ [] (set_ones T' s) tt).
    + apply set_factor_row_runs.
      * destruct Hfac as (_ & _ & -> & _). lia.
      * intros k. now rewrite HT'.
    + apply Hreads. unfold np_getitem2. simpl.
      rewrite list_lookup_imap, Hr. simpl.
      rewrite HT', Nat.eqb_refl, orb_true_r. unfold ones_row.
      apply lookup_replicate_2. lia.
  - eapply (runs_bind _ _ _ [] (set_ones T s) tt); [apply runs_ret |].
    rewrite (set_ones_ext T' T) by (intros k; rewrite HT'; apply orb_false_r).
    apply Hreads. unfold np_getitem2. simpl.
    rewrite list_lookup_imap, Hr. simpl.
    assert (HTi : T i = false).
    { destruct (T i) eqn:E; [| reflexivity]. apply HT in E.
      rewrite (overwritten_flag _ _ _ Hq) in E.
      destruct (Z.ltb_spec q 0); [lia | discriminate]. }
    rewrite HTi.
    pose proof (np_getitem2_shaped f32_zero _ _ _ _ _ Hfac Hi Hj) as Hg.
    unfold np_getitem2 in Hg. now rewrite Hr in Hg.
Qed.

(** ** The loops of [write_file] *)

Lemma cell_loop_runs (s : Encoder) (i : nat) (q : Z) :
  shaped s -> nqclfb s !! i = Some q -> (i < Z.to_nat (nqfb s))%nat ->
  forall (m a : nat) (T T' : nat -> bool),
    (a + m <= shape1 (layer s))%nat ->
    (a + m <= Z.to_nat (abs32 q))%nat ->
    (forall k, T k = true -> overwritten s k = true) ->
    (forall k, T' k = T k || ((q <? 0) && (0 <? m)%nat && (k =? i)%nat)) ->
    runs (for_loop (seq a m) (fun j _ => write_cell i j) tt) (set_ones T s)
      (cell_at s i q <$> seq a m) (set_ones T' s) tt.
Proof.
  intros Hs Hq Hi. induction m as [|m IH]; intros a T T' Hw Hm HT HT'.
  - simpl. rewrite (set_ones_ext T' T); [apply runs_ret |].
    intros k. rewrite HT'. simpl. now rewrite andb_false_r, orb_false_r.
  - simpl. set (T1 := fun k => T k || ((q <? 0) && (k =? i)%nat)).
    eapply (runs_bind _ _ _ [cell_at s i q a] (set_ones T1 s) tt).
    + apply write_cell_runs; auto. lia.
    + apply IH; try lia.
      * intros k. unfold T1. intros Hk. apply orb_prop in Hk as [Hk | Hk];
          [now apply HT |].
        apply andb_prop in Hk as [Hneg Hki].
        apply Nat.eqb_eq in Hki. subst k.
        rewrite (overwritten_flag _ _ _ Hq), Hneg. simpl.
        apply Z.ltb_lt. lia.
      * intros k. rewrite HT'. unfold T1. simpl.
        destruct (T k), (q <? 0), (k =? i)%nat, (0 <? m)%nat; reflexivity.
Qed.

Lemma range_length (n : Z) : length (range n) = Z.to_nat n.
Proof. apply length_seq. Qed.

Lemma nth_lookup_lt {A} (l : list A) (i : nat) (d : A) :
  (i < length l)%nat -> l !! i = Some (nth i l d).
Proof.
  intros Hi. destruct (lookup_lt_is_Some_2 l i Hi) as [x Hx].
  rewrite Hx. f_equal. symmetry. now apply nth_lookup_Some.
Qed.

(** One group: its section-3 record, its records of the flattened
    stream from the cursor on, its cells. *)
Lemma write_group_runs (s : Encoder) (i c : nat) :
  shaped s -> (i < Z.to_nat (nqfb s))%nat ->
  (c + group_count s i <= length (obsnam s))%nat ->
  (c + group_count s i <= Z.to_nat (nqtfb s))%nat ->
  (Z.to_nat (abs32 (nth i (nqclfb s) 0%Z)) <= shape1 (layer s))%nat ->
  runs (write_group i c) (settled s i) (block s i c) (settled s (S i))
    (c + group_count s i)%nat.
Proof.
  intros Hs Hi Hnam Ht Hw.
  pose proof Hs as (Hlo & Hlc & Hir & Hto & Hfl & _).
  set (n := nth i (nqobfb s) 0). set (q := nth i (nqclfb s) 0).
  assert (Hn : py_getitem (nqobfb s) i = Ok n)
    by (apply py_getitem_nth; lia).
  assert (Hq : py_getitem (nqclfb s) i = Ok q)
    by (apply py_getitem_nth; lia).
  assert (Hq' : nqclfb s !! i = Some q) by (apply nth_lookup_lt; lia).
  assert (Hg : group_count s i = Z.to_nat n) by reflexivity.
  rewrite Hg in *.
  unfold write_group, block. fold n q. rewrite Hg.
  eapply runs_eval_bind; [exact Hn |].
  eapply runs_eval_bind; [exact Hq |].
  apply runs_emit_bind.
  eapply runs_eval_bind; [exact Hn |].
  assert (Hobs : runs (for_loop (range n) (fun _ c => write_obs c) c)
                   (settled s i) (obs_at s <$> seq c (Z.to_nat n))
                   (settled s i) (c + Z.to_nat n)%nat).
  { pose proof (obs_loop_runs (settled s i) (range n) c) as H.
    rewrite range_length in H. apply H; simpl; lia. }
  assert (Hcells : runs (for_loop (range (abs32 q))
                           (fun j _ => write_cell i j) tt)
                     (settled s i)
                     (cell_at s i q <$> seq 0 (Z.to_nat (abs32 q)))
                     (settled s (S i)) tt).
  { apply (cell_loop_runs s i q Hs Hq' Hi (Z.to_nat (abs32 q)) 0%nat
             (fun k => (k <? i)%nat && overwritten s k)
             (fun k => (k <? S i)%nat && overwritten s k)).
    - simpl. exact Hw.
    - simpl. lia.
    - intros k Hk. now apply andb_prop in Hk as [_ Hk].
    - intros k. destruct (Nat.eqb_spec k i) as [-> | Hne].
      + rewrite (overwritten_flag _ _ _ Hq'), Nat.ltb_irrefl. simpl.
        destruct (Nat.ltb_spec i (S i)); [| lia]. simpl.
        rewrite andb_true_r. f_equal.
        destruct (Z.ltb_spec 0 (abs32 q)),
          (Nat.ltb_spec 0 (Z.to_nat (abs32 q))); try reflexivity; lia.
      + rewrite andb_false_r, orb_false_r. f_equal.
        destruct (Nat.ltb_spec k i), (Nat.ltb_spec k (S i));
          try reflexivity; lia. }
  eapply runs_bind; [exact Hobs |].
  eapply runs_eval_bind; [exact Hq |].
  eapply runs_eq;
    [eapply runs_bind; [exact Hcells | apply runs_ret]
    | apply app_nil_r | reflexivity | reflexivity].
Qed.

Lemma groups_loop_runs (s : Encoder) :
  shaped s ->
  (forall j, (j < Z.to_nat (nqfb s))%nat ->
     (Z.to_nat (abs32 (nth j (nqclfb s) 0%Z)) <= shape1 (layer s))%nat) ->
  forall (k i c : nat),
    (i + k <= Z.to_nat (nqfb s))%nat ->
    (c + counts s (seq i k) <= length (obsnam s))%nat ->
    (c + counts s (seq i k) <= Z.to_nat (nqtfb s))%nat ->
    runs (for_loop (seq i k) write_group c) (settled s i)
      (concat (blocks_from s (seq i k) c)) (settled s (i + k))
      (c + counts s (seq i k))%nat.
Proof.
  intros Hs Hw. induction k as [|k IH]; intros i c Hk Hnam Ht.
  - simpl. rewrite !Nat.add_0_r. apply runs_ret.
  - change (seq i (S k)) with (i :: seq (S i) k) in *.
    assert (Hc : counts s (i :: seq (S i) k)
                 = (group_count s i + counts s (seq (S i) k))%nat)
      by reflexivity.
    rewrite Hc in *. cbn [for_loop blocks_from concat].
    eapply runs_eq;
      [eapply runs_bind;
         [apply write_group_runs; try assumption; try lia; apply Hw; lia
         | apply (IH (S i) (c + group_count s i)%nat); lia]
      | reflexivity | f_equal; lia | lia].
Qed.

Lemma counts_all (s : Encoder) :
  counts s (seq 0 (length (nqobfb s))) = cursor_end s.
Proof.
  unfold counts, cursor_end, group_count. f_equal.
  apply list_eq. intros k. rewrite !list_lookup_fmap.
  destruct (Nat.lt_ge_cases k (length (nqobfb s))) as [Hk | Hk].
  - rewrite lookup_seq_lt by assumption. simpl.
    now rewrite (nth_lookup_lt _ _ 0 Hk).
  - rewrite lookup_seq_ge by assumption.
    now rewrite lookup_ge_None_2 by assumption.
Qed.

Lemma write_ready_spec (s : Encoder) :
  write_ready s = true ->
  (cursor_end s <= Z.to_nat (nqtfb s))%nat
  /\ (Z.to_nat (nqtfb s) <= length (obsnam s))%nat
  /\ forall j, (j < length (nqclfb s))%nat ->
       (Z.to_nat (abs32 (nth j (nqclfb s) 0%Z)) <= shape1 (layer s))%nat.
Proof.
  unfold write_ready. intros H.
  apply andb_prop in H as [H Hw]. apply andb_prop in H as [Hc Hn].
  apply Nat.leb_le in Hc, Hn. repeat split; try assumption.
  intros j Hj. rewrite forallb_forall in Hw.
  apply Nat.leb_le, Hw, nth_In, Hj.
Qed.

(** Sections 3 to 5 of a ready encoder: every block, and the cursor
    ends at [cursor_end]. *)
Lemma write_sections_3_5_runs (s : Encoder) :
  shaped s -> write_ready s = true ->
  runs write_sections_3_5 s (concat (blocks_from s (range (nqfb s)) 0))
    (settled s (Z.to_nat (nqfb s))) (cursor_end s).
Proof.
  intros Hs Hr. destruct (write_ready_spec s Hr) as (Hc & Hn & Hw).
  pose proof Hs as (Hlo & Hlc & _).
  unfold write_sections_3_5. eapply runs_eval_bind; [reflexivity |].
  rewrite <- counts_all, Hlo in *.
  assert (H0 : settled s 0 = s) by (apply set_ones_none; reflexivity).
  assert (Hw' : forall j, (j < Z.to_nat (nqfb s))%nat ->
     (Z.to_nat (abs32 (nth j (nqclfb s) 0%Z)) <= shape1 (layer s))%nat).
  { intros j Hj. apply Hw. lia. }
  pose proof (groups_loop_runs s Hs Hw' (Z.to_nat (nqfb s)) 0%nat 0%nat) as H.
  rewrite H0 in H. apply H; simpl; lia.
Qed.

Lemma write_primary_runs (s : Encoder) :
  shaped s -> write_ready s = true ->
  runs write_primary s (primary_lines s) (settled s (Z.to_nat (nqfb s))) tt.
Proof.
  intros Hs Hr. unfold write_primary, primary_lines, preamble.
  eapply runs_eval_bind; [reflexivity |]. apply runs_emit_bind.
  eapply runs_eval_bind; [reflexivity |]. apply runs_emit_bind.
  eapply runs_eval_bind; [reflexivity |]. apply runs_emit_bind.
  eapply runs_eq;
    [eapply runs_bind; [now apply write_sections_3_5_runs | apply runs_ret]
    | apply app_nil_r | reflexivity | reflexivity].
Qed.

Lemma ins_loop_runs (s : Encoder) (m a : nat) :
  (a + m <= length (obsnam s))%nat ->
  runs (for_loop (seq a m)
          (fun i _ => nam ← eval (fun s => py_getitem (obsnam s) i);
                      emit (L_text nam)) tt)
    s (L_text <$> take m (drop a (obsnam s))) s tt.
Proof.
  revert a. induction m as [|m IH]; intros a Ha; simpl.
  - apply runs_ret.
  - destruct (lookup_lt_is_Some_2 (obsnam s) a ltac:(lia)) as [x Hx].
    rewrite (drop_S _ _ _ Hx). simpl.
    eapply (runs_bind _ _ _ [L_text x] s tt).
    + eapply runs_eval_bind; [| apply runs_emit].
      unfold py_getitem. now rewrite Hx.
    + apply IH. lia.
Qed.

Lemma write_ins_runs (s : Encoder) :
  (Z.to_nat (nqtfb s) <= length (obsnam s))%nat ->
  runs write_ins s (ins_lines s) s tt.
Proof.
  intros Hn. unfold write_ins, ins_lines.
  apply runs_emit_bind. eapply runs_eval_bind; [reflexivity |].
  apply runs_emit_bind. eapply runs_eval_bind; [reflexivity |].
  apply (ins_loop_runs s (Z.to_nat (nqtfb s)) 0). simpl. lia.
Qed.

(** A ready encoder is written to the end: both files get their closed
    form, and the rows of the groups with a negative flag are ones. *)
Lemma write_file_run (s : Encoder) (fs : gmap string (list line)) :
  shaped s -> write_ready s = true ->
  write_file s fs
  = Written (Ok tt) (settled s (Z.to_nat (nqfb s)))
      (<[String.append (fn_path s) "_ins" := ins_lines s]>
         (<[fn_path s := primary_lines s]> fs)).
Proof.
  intros Hs Hr.
  destruct (write_ready_spec s Hr) as (_ & Hn & _).
  pose proof (write_primary_runs s Hs Hr) as Hp.
  pose proof (write_ins_runs (settled s (Z.to_nat (nqfb s))) Hn) as Hi.
  unfold runs in Hp, Hi. unfold write_file. cbv zeta.
  rewrite Hp. cbn [res st out]. rewrite Hi. reflexivity.
Qed.

(** ** Reading the primary file back *)

Lemma path_ins_ne (p : string) : p <> String.append p "_ins".
Proof.
  induction p as [|c p IH]; simpl; [discriminate |].
  intros H. injection H as H. now apply IH.
Qed.

Lemma filter_fmap_all {A B} (f : B -> bool) (g : A -> B) (l : list A) :
  (forall x, f (g x) = true) -> List.filter f (g <$> l) = g <$> l.
Proof.
  intros H. induction l as [|x l IH]; [reflexivity |].
  rewrite fmap_cons. simpl. now rewrite H, IH.
Qed.

Lemma filter_fmap_none {A B} (f : B -> bool) (g : A -> B) (l : list A) :
  (forall x, f (g x) = false) -> List.filter f (g <$> l) = [].
Proof.
  intros H. induction l as [|x l IH]; [reflexivity |].
  rewrite fmap_cons. simpl. now rewrite H, IH.
Qed.

Lemma obs_lines_block (s : Encoder) (i c : nat) :
  obs_lines (block s i c) = obs_at s <$> seq c (group_count s i).
Proof.
  unfold obs_lines, block. simpl. rewrite List.filter_app.
  rewrite filter_fmap_all by reflexivity.
  rewrite filter_fmap_none by reflexivity. apply app_nil_r.
Qed.

Lemma obs_lines_blocks (s : Encoder) (idx : list nat) (c : nat) :
  obs_lines (concat (blocks_from s idx c)) = obs_at s <$> seq c (counts s idx).
Proof.
  revert c. induction idx as [|i idx IH]; intros c; [reflexivity |].
  change (counts s (i :: idx)) with (group_count s i + counts s idx)%nat.
  cbn [blocks_from concat]. unfold obs_lines in *.
  rewrite List.filter_app, IH, seq_app, fmap_app. f_equal.
  apply obs_lines_block.
Qed.

(** The observation records of the primary file are the flattened
    stream up to where the cursor ends. *)
Lemma obs_lines_primary (s : Encoder) :
  shaped s ->
  obs_lines (primary_lines s) = obs_at s <$> seq 0 (cursor_end s).
Proof.
  intros (Hlo & _). unfold primary_lines, range.
  unfold obs_lines. rewrite List.filter_app. simpl.
  fold (obs_lines (concat (blocks_from s (seq 0 (Z.to_nat (nqfb s))) 0))).
  now rewrite obs_lines_blocks, <- Hlo, counts_all.
Qed.

Lemma obs_record_at (s : Encoder) (c : nat) :
  (c < length (obsnam s))%nat -> (c < length (irefsp s))%nat ->
  (c < length (toffset s))%nat -> (c < length (flwobs s))%nat ->
  obs_record s c = Some (obs_at s c).
Proof.
  intros Hn Hi Ht Hf. unfold obs_record, obs_at.
  rewrite (nth_lookup_lt _ _ ""%string Hn), (nth_lookup_lt _ _ 0 Hi),
    (nth_lookup_lt _ _ f32_zero Ht), (nth_lookup_lt _ _ f32_zero Hf).
  reflexivity.
Qed.

Lemma obs_records_stream (s : Encoder) (n : nat) :
  shaped s -> (n <= Z.to_nat (nqtfb s))%nat -> (n <= length (obsnam s))%nat ->
  Some <$> (obs_at s <$> seq 0 n) = obs_record s <$> seq 0 n.
Proof.
  intros (_ & _ & Hi & Ht & Hf & _) Hn Hnam.
  rewrite <- list_fmap_compose. apply list_fmap_ext.
  intros k c Hc. apply lookup_seq in Hc as [-> Hk]. simpl.
  symmetry. apply obs_record_at; lia.
Qed.

Lemma obs_names_stream (s : Encoder) (n : nat) :
  (n <= length (obsnam s))%nat ->
  obs_name <$> (obs_at s <$> seq 0 n) = Some <$> take n (obsnam s).
Proof.
  intros Hn. apply list_eq. intros k. rewrite !list_lookup_fmap.
  destruct (Nat.lt_ge_cases k n) as [Hk | Hk].
  - rewrite lookup_seq_lt by assumption. simpl.
    rewrite lookup_take_lt by assumption.
    now rewrite (nth_lookup_lt _ _ ""%string) by lia.
  - rewrite lookup_seq_ge by assumption.
    rewrite lookup_take_ge by assumption. reflexivity.
Qed.

(** The counts as naturals add up to at least their sum as integers,
    with equality exactly when the cursor does not pass that sum. *)
Lemma cursor_end_ge (l : list Z) :
  sum_list_Z l <= Z.of_nat (foldr Nat.add 0%nat (Z.to_nat <$> l)).
Proof.
  induction l as [|z l IH]; [simpl; lia |]. rewrite fmap_cons. simpl. lia.
Qed.

Lemma cursor_end_exact (s : Encoder) :
  0 <= nqtfb s -> sum_list_Z (nqobfb s) = nqtfb s ->
  (cursor_end s <= Z.to_nat (nqtfb s))%nat ->
  cursor_end s = Z.to_nat (nqtfb s).
Proof.
  intros H0 Hsum Hle. pose proof (cursor_end_ge (nqobfb s)) as Hge.
  unfold cursor_end in *. lia.
Qed.

(** *** The blocks of the groups *)

Lemma until_group_app (l tail : list line) :
  no_group l -> group_headed tail -> until_group (l ++ tail) = l.
Proof.
  intros Hl Ht. induction Hl as [|x l Hx Hl IH]; simpl.
  - destruct tail as [|y tail]; [reflexivity |]. simpl in *. now rewrite Ht.
  - now rewrite Hx, IH.
Qed.

Lemma groups_of_app (l tail : list line) :
  no_group l -> groups_of (l ++ tail) = groups_of tail.
Proof.
  intros Hl. induction Hl as [|x l Hx Hl IH]; simpl; [reflexivity |].
  now rewrite Hx.
Qed.

Lemma block_shape (s : Encoder) (i c : nat) :
  exists x rest, block s i c = x :: rest /\ is_group x = true /\ no_group rest.
Proof.
  unfold block. eexists _, _. split; [reflexivity |]. split; [reflexivity |].
  apply Forall_app. split; apply Forall_fmap, Forall_forall; reflexivity.
Qed.

Lemma blocks_headed (s : Encoder) (idx : list nat) (c : nat) :
  group_headed (concat (blocks_from s idx c)).
Proof. destruct idx as [|i idx]; simpl; reflexivity. Qed.

Lemma groups_of_blocks (s : Encoder) (idx : list nat) (c : nat) :
  groups_of (concat (blocks_from s idx c)) = blocks_from s idx c.
Proof.
  revert c. induction idx as [|i idx IH]; intros c; [reflexivity |].
  cbn [blocks_from concat].
  destruct (block_shape s i c) as (x & rest & -> & Hx & Hrest).
  rewrite <- app_comm_cons. simpl. rewrite Hx.
  rewrite until_group_app by (auto using blocks_headed).
  now rewrite groups_of_app, IH.
Qed.

Lemma groups_of_primary (s : Encoder) :
  groups_of (primary_lines s) = blocks_from s (range (nqfb s)) 0.
Proof. unfold primary_lines, preamble. simpl. apply groups_of_blocks. Qed.

Lemma nth_blocks_from (s : Encoder) (k a c i : nat) :
  (i < k)%nat ->
  exists c', nth i (blocks_from s (seq a k) c) [] = block s (a + i) c'.
Proof.
  revert a c i. induction k as [|k IH]; intros a c i Hi; [lia |].
  destruct i as [|i]; simpl.
  - exists c. now rewrite Nat.add_0_r.
  - destruct (IH (S a) (c + group_count s a)%nat i ltac:(lia)) as [c' Hc'].
    exists c'. rewrite Hc'. f_equal. lia.
Qed.

(** The section-5 records of group [i] in the primary file. *)
Lemma cells_of_group_primary (s : Encoder) (i : nat) :
  (i < Z.to_nat (nqfb s))%nat ->
  cells_of_group (primary_lines s) i
  = cell_at s i (nth i (nqclfb s) 0)
      <$> seq 0 (Z.to_nat (abs32 (nth i (nqclfb s) 0))).
Proof.
  intros Hi. unfold cells_of_group. rewrite groups_of_primary. unfold range.
  destruct (nth_blocks_from s (Z.to_nat (nqfb s)) 0 0 i Hi) as [c ->].
  simpl. unfold block. simpl. rewrite List.filter_app.
  rewrite filter_fmap_none by reflexivity.
  now rewrite filter_fmap_all by reflexivity.
Qed.

Lemma abs32_abs (q : Z) : q <> int32_min -> abs32 q = Z.abs q.
Proof. unfold abs32. now destruct (Z.eqb_spec q int32_min). Qed.

(** ** The encoder after a run *)

Lemma get2_set_ones (T : nat -> bool) (s : Encoder) (i j : nat) :
  T i = false ->
  get2 f32_zero (factor (set_ones T s)) i j = get2 f32_zero (factor s) i j.
Proof.
  intros HT. unfold get2. simpl. f_equal.
  destruct (rows (factor s) !! i) as [r|] eqn:Hr.
  - rewrite (nth_lookup_Some _ _ _ _ Hr).
    apply nth_lookup_Some. now rewrite list_lookup_imap, Hr, HT.
  - rewrite !nth_overflow; [reflexivity | |].
    + now apply lookup_ge_None_1.
    + rewrite length_imap. now apply lookup_ge_None_1.
Qed.

Lemma overwritten_nonneg (s : Encoder) (i : nat) :
  0 <= nth i (nqclfb s) 0 -> overwritten s i = false.
Proof.
  intros Hq. unfold overwritten.
  destruct (nqclfb s !! i) as [q|] eqn:Hi; [| reflexivity].
  rewrite (nth_lookup_Some _ _ 0 _ Hi) in Hq.
  destruct (Z.ltb_spec q 0); [lia | reflexivity].
Qed.

Lemma block_set_ones (T : nat -> bool) (s : Encoder) (i c : nat) :
  (forall k, T k = true -> overwritten s k = true) ->
  block (set_ones T s) i c = block s i c.
Proof.
  intros HT. unfold block. simpl. f_equal. f_equal.
  apply list_fmap_ext. intros _ j _. unfold cell_at. simpl.
  destruct (Z.ltb_spec (nth i (nqclfb s) 0) 0) as [Hq | Hq]; [reflexivity |].
  f_equal. apply get2_set_ones.
  destruct (T i) eqn:E; [| reflexivity].
  apply HT in E. now rewrite overwritten_nonneg in E.
Qed.

Lemma blocks_from_set_ones (T : nat -> bool) (s : Encoder)
    (idx : list nat) (c : nat) :
  (forall k, T k = true -> overwritten s k = true) ->
  blocks_from (set_ones T s) idx c = blocks_from s idx c.
Proof.
  intros HT. revert c. induction idx as [|i idx IH]; intros c;
    [reflexivity |].
  cbn [blocks_from]. rewrite (block_set_ones T s i c HT).
  change (group_count (set_ones T s) i) with (group_count s i).
  now rewrite IH.
Qed.

Lemma primary_lines_set_ones (T : nat -> bool) (s : Encoder) :
  (forall k, T k = true -> overwritten s k = true) ->
  primary_lines (set_ones T s) = primary_lines s.
Proof.
  intros HT. unfold primary_lines.
  change (nqfb (set_ones T s)) with (nqfb s).
  change (preamble (set_ones T s)) with (preamble s).
  now rewrite blocks_from_set_ones.
Qed.

Lemma settled_mask (s : Encoder) (n k : nat) :
  ((k <? n)%nat && overwritten s k) = true -> overwritten s k = true.
Proof. intros H. now apply andb_prop in H as [_ H]. Qed.

(** The second run finds the encoder the first one left. *)
Lemma settled_again (s : Encoder) (n : nat) :
  settled (settled s n) n = settled s n.
Proof.
  unfold settled at 1. unfold settled at 2. rewrite set_ones_twice.
  apply set_ones_ext. intros k. unfold overwritten. simpl.
  now destruct (k <? n)%nat, (nqclfb s !! k) as [q|];
    try destruct ((q <? 0) && (0 <? abs32 q)).
Qed.

(** ** The files of a complete run *)

Lemma written_files (s : Encoder) (fs : gmap string (list line)) :
  shaped s -> write_ready s = true ->
  w_res (write_file s fs) = Ok tt
  /\ w_self (write_file s fs) = settled s (Z.to_nat (nqfb s))
  /\ w_fs (write_file s fs) !! fn_path s = Some (primary_lines s)
  /\ w_fs (write_file s fs) !! String.append (fn_path s) "_ins"
     = Some (ins_lines s).
Proof.
  intros Hs Hr. rewrite (write_file_run s fs Hs Hr). simpl.
  split; [reflexivity |]. split; [reflexivity |]. split.
  - rewrite lookup_insert_ne by (symmetry; apply path_ins_ne).
    apply lookup_insert_eq.
  - apply lookup_insert_eq.
Qed.

(** C1 (one global cursor): for construction inputs with one
    observation count per group and [sum(nqobfb) = nqtfb], [write_file]
    on a ready encoder returns, and the observation records of the
    primary file are exactly [nqtfb] lines, the [k]-th of them being
    the record at index [k] of the flattened arrays: the cursor is never
    reset between groups. The cursor left by the loop over the groups is
    [sum(nqobfb)], the number of records written. *)
Theorem records_follow_one_cursor
    (a : Args) (e : Encoder) (fs : gmap string (list line)) :
  __init__ a = Ok e ->
  length (arg_nqobfb a) = Z.to_nat (arg_nqfb a) ->
  sum_list_Z (arg_nqobfb a) = arg_nqtfb a ->
  write_ready e = true ->
  exists primary,
    w_res (write_file e fs) = Ok tt
    /\ w_fs (write_file e fs) !! fn_path e = Some primary
    /\ Z.of_nat (length (obs_lines primary)) = arg_nqtfb a
    /\ Some <$> obs_lines primary
       = obs_record e <$> seq 0 (length (obs_lines primary))
    /\ res (write_sections_3_5 e) = Ok (length (obs_lines primary))
    /\ Z.of_nat (length (obs_lines primary)) = sum_list_Z (arg_nqobfb a).
Proof.
  intros Hinit Hlen Hsum Hr.
  destruct (init_fields a e Hinit)
    as (Hnqfb & Hnqtfb & Hnam & _ & Hob & _ & Ht & Hs).
  specialize (Hob Hlen).
  destruct (write_ready_spec e Hr) as (Hc & Hn & _).
  assert (Hend : cursor_end e = Z.to_nat (nqtfb e)).
  { apply cursor_end_exact; try assumption. now rewrite Hob, Hnqtfb. }
  destruct (written_files e fs Hs Hr) as (Hres & _ & Hp & _).
  exists (primary_lines e).
  assert (Hl : length (obs_lines (primary_lines e)) = Z.to_nat (nqtfb e)).
  { rewrite (obs_lines_primary e Hs), length_fmap, length_seq. exact Hend. }
  split; [exact Hres |]. split; [exact Hp |].
  split; [rewrite Hl; lia |]. split.
  - rewrite Hl. rewrite (obs_lines_primary e Hs), Hend.
    apply obs_records_stream; [assumption | lia | assumption].
  - split; [| rewrite Hl; lia].
    rewrite Hl, <- Hend. now rewrite (write_sections_3_5_runs e Hs Hr).
Qed.

(** C2 (instruction file): on a ready encoder [write_file] returns
    and leaves, at the primary path followed by ["_ins"], the marker
    line, the [StandardFile] line with [nqtfb], and then [nqtfb] lines:
    the first [nqtfb] observation names in order. When
    [sum(nqobfb) = nqtfb] these are the names of the observation records
    of the primary file, in the same order. *)
Theorem instruction_file_lists_the_names
    (a : Args) (e : Encoder) (fs : gmap string (list line)) :
  __init__ a = Ok e ->
  write_ready e = true ->
  exists names,
    w_res (write_file e fs) = Ok tt
    /\ w_fs (write_file e fs) !! String.append (fn_path e) "_ins"
       = Some (L_text "jif @"
               :: L_text (String.append "StandardFile 0 1 " (py_str (nqtfb e)))
               :: (L_text <$> names))
    /\ Z.of_nat (length names) = nqtfb e
    /\ names = take (length names) (obsnam e)
    /\ (sum_list_Z (nqobfb e) = nqtfb e ->
        exists primary,
          w_fs (write_file e fs) !! fn_path e = Some primary
          /\ obs_name <$> obs_lines primary = Some <$> names).
Proof.
  intros Hinit Hr.
  destruct (init_fields a e Hinit) as (_ & _ & _ & _ & _ & _ & Ht & Hs).
  destruct (write_ready_spec e Hr) as (Hc & Hn & _).
  destruct (written_files e fs Hs Hr) as (Hres & _ & Hp & Hi).
  exists (take (Z.to_nat (nqtfb e)) (obsnam e)).
  assert (Hl : length (take (Z.to_nat (nqtfb e)) (obsnam e))
               = Z.to_nat (nqtfb e)) by (rewrite length_take; lia).
  split; [exact Hres |]. split; [exact Hi |].
  split; [rewrite Hl; lia |]. split; [now rewrite Hl |].
  intros Hsum. exists (primary_lines e). split; [exact Hp |].
  rewrite (obs_lines_primary e Hs), (cursor_end_exact e Ht Hsum Hc).
  now apply obs_names_stream.
Qed.

Lemma cells_of_group_written (e : Encoder) (i : nat) (q : Z) :
  shaped e -> nqclfb e !! i = Some q ->
  cells_of_group (primary_lines e) i
  = cell_at e i q <$> seq 0 (Z.to_nat (abs32 q)).
Proof.
  intros Hs Hq. pose proof Hs as (_ & Hlc & _).
  pose proof (lookup_lt_Some _ _ _ Hq) as Hi.
  rewrite cells_of_group_primary by lia.
  now rewrite (nth_lookup_Some _ _ 0 _ Hq).
Qed.

(** C3 (negative flag): for a group [i] with [nqclfb[i] < 0],
    [write_file] on a ready encoder returns and the cell records it
    wrote for that group, [abs(nqclfb[i])] of them, all carry the factor
    1.0, whatever factors the constructor was given. *)
Theorem negative_flag_writes_ones
    (a : Args) (e : Encoder) (fs : gmap string (list line))
    (i : nat) (q : Z) :
  __init__ a = Ok e ->
  write_ready e = true ->
  nqclfb e !! i = Some q ->
  q < 0 ->
  exists primary,
    w_res (write_file e fs) = Ok tt
    /\ w_fs (write_file e fs) !! fn_path e = Some primary
    /\ Z.of_nat (length (cells_of_group primary i)) = Z.max 0 (abs32 q)
    /\ (q <> int32_min ->
        Z.of_nat (length (cells_of_group primary i)) = Z.abs q)
    /\ Forall (fun l => cell_factor l = Some (f32_of f64_one))
         (cells_of_group primary i).
Proof.
  intros Hinit Hr Hq Hneg.
  destruct (init_fields a e Hinit) as (_ & _ & _ & _ & _ & _ & _ & Hs).
  destruct (written_files e fs Hs Hr) as (Hres & _ & Hp & _).
  exists (primary_lines e).
  rewrite (cells_of_group_written e i q Hs Hq), length_fmap, length_seq.
  split; [exact Hres |]. split; [exact Hp |].
  split; [lia |]. split.
  - intros Hmin. rewrite (abs32_abs q Hmin). lia.
  - apply Forall_fmap, Forall_forall. intros j _. simpl.
    destruct (Z.ltb_spec q 0); [reflexivity | lia].
Qed.

(** C5 (padding is not written): for every group [i], [write_file] on
    a ready encoder returns and the primary file holds exactly
    [abs(nqclfb[i])] cell records for that group, which is at most the
    padded width of the storage. *)
Theorem group_writes_its_own_cells
    (a : Args) (e : Encoder) (fs : gmap string (list line))
    (i : nat) (q : Z) :
  __init__ a = Ok e ->
  write_ready e = true ->
  nqclfb e !! i = Some q ->
  exists primary,
    w_res (write_file e fs) = Ok tt
    /\ w_fs (write_file e fs) !! fn_path e = Some primary
    /\ Forall (fun l => is_cell l = true) (cells_of_group primary i)
    /\ Z.of_nat (length (cells_of_group primary i)) = Z.max 0 (abs32 q)
    /\ (q <> int32_min ->
        Z.of_nat (length (cells_of_group primary i)) = Z.abs q)
    /\ (length (cells_of_group primary i) <= shape1 (layer e))%nat.
Proof.
  intros Hinit Hr Hq.
  destruct (init_fields a e Hinit) as (_ & _ & _ & _ & _ & _ & _ & Hs).
  destruct (written_files e fs Hs Hr) as (Hres & _ & Hp & _).
  destruct (write_ready_spec e Hr) as (_ & _ & Hw).
  exists (primary_lines e).
  rewrite (cells_of_group_written e i q Hs Hq), length_fmap, length_seq.
  split; [exact Hres |]. split; [exact Hp |].
  split; [apply Forall_fmap, Forall_forall; reflexivity |].
  split; [lia |]. split.
  - intros Hmin. rewrite (abs32_abs q Hmin). lia.
  - pose proof (lookup_lt_Some _ _ _ Hq) as Hi. specialize (Hw i Hi).
    now rewrite (nth_lookup_Some _ _ 0 _ Hq) in Hw.
Qed.

(** C9 (writing twice): [write_file] on a ready encoder returns and
    leaves the two files, the primary one and the instruction one. A
    second call on the encoder the first call left, whatever the files
    it finds - those of the first call, or none of them - returns too,
    writes the same two files again and leaves the same encoder; on the
    files of the first call it changes nothing. What the first call
    changed in the encoder is the data of [factor] only: the row of every
    group with a negative flag is now all ones, and every other row is
    the one it was. (The flag [int32_min] is its own [abs]: the cell loop
    of such a group is empty and its row is kept.) *)
Theorem second_write_leaves_the_same_files
    (a : Args) (e : Encoder) (fs : gmap string (list line)) :
  __init__ a = Ok e ->
  write_ready e = true ->
  w_res (write_file e fs) = Ok tt
  /\ w_fs (write_file e fs) !! fn_path e = Some (primary_lines e)
  /\ w_fs (write_file e fs) !! String.append (fn_path e) "_ins"
     = Some (ins_lines e)
  /\ (forall fs' : gmap string (list line),
        w_res (write_file (w_self (write_file e fs)) fs') = Ok tt
        /\ w_fs (write_file (w_self (write_file e fs)) fs') !! fn_path e
           = Some (primary_lines e)
        /\ w_fs (write_file (w_self (write_file e fs)) fs')
             !! String.append (fn_path e) "_ins"
           = Some (ins_lines e)
        /\ w_self (write_file (w_self (write_file e fs)) fs')
           = w_self (write_file e fs))
  /\ w_fs (write_file (w_self (write_file e fs)) (w_fs (write_file e fs)))
     = w_fs (write_file e fs)
  /\ w_self (write_file e fs)
     = set_factor e (factor (w_self (write_file e fs)))
  /\ shape0 (factor (w_self (write_file e fs))) = shape0 (factor e)
  /\ shape1 (factor (w_self (write_file e fs))) = shape1 (factor e)
  /\ (forall (i : nat) (q : Z),
        nqclfb e !! i = Some q -> q < 0 -> q <> int32_min ->
        rows (factor (w_self (write_file e fs))) !! i
        = Some (replicate (shape1 (factor e)) (f32_of f64_one)))
  /\ (forall i : nat,
        (forall q, nqclfb e !! i = Some q -> 0 <= q \/ q = int32_min) ->
        rows (factor (w_self (write_file e fs))) !! i
        = rows (factor e) !! i).
Proof.
  intros Hinit Hr.
  destruct (init_fields a e Hinit) as (_ & _ & _ & _ & _ & _ & _ & Hs).
  set (n := Z.to_nat (nqfb e)).
  assert (Hs1 : shaped (settled e n)) by now apply set_ones_shaped.
  assert (Hr1 : write_ready (settled e n) = true) by exact Hr.
  assert (Hpl : primary_lines (settled e n) = primary_lines e)
    by (apply primary_lines_set_ones; intros k; apply settled_mask).
  assert (Hsecond : forall fs' : gmap string (list line),
    write_file (settled e n) fs'
    = Written (Ok tt) (settled e n)
        (<[String.append (fn_path e) "_ins" := ins_lines e]>
           (<[fn_path e := primary_lines e]> fs'))).
  { intros fs'. rewrite (write_file_run (settled e n) fs' Hs1 Hr1).
    change (nqfb (settled e n)) with (nqfb e). fold n.
    change (fn_path (settled e n)) with (fn_path e).
    change (ins_lines (settled e n)) with (ins_lines e).
    now rewrite Hpl, settled_again. }
  rewrite (write_file_run e fs Hs Hr). cbn [w_res w_self w_fs]. fold n.
  assert (Hfiles : forall fs' : gmap string (list line),
    <[String.append (fn_path e) "_ins" := ins_lines e]>
      (<[fn_path e := primary_lines e]> fs') !! fn_path e
    = Some (primary_lines e)
    /\ <[String.append (fn_path e) "_ins" := ins_lines e]>
         (<[fn_path e := primary_lines e]> fs')
         !! String.append (fn_path e) "_ins"
       = Some (ins_lines e)).
  { intros fs'. split; [| apply lookup_insert_eq].
    rewrite lookup_insert_ne by (symmetry; apply path_ins_ne).
    apply lookup_insert_eq. }
  split; [reflexivity |].
  split; [apply Hfiles |]. split; [apply Hfiles |]. split.
  { intros fs'. rewrite Hsecond. cbn [w_res w_self w_fs].
    split; [reflexivity |]. split; [apply Hfiles |].
    split; [apply Hfiles | reflexivity]. }
  split.
  { rewrite Hsecond. cbn [w_fs]. apply map_eq. intros k.
    rewrite !lookup_insert. repeat case_decide; reflexivity. }
  split; [reflexivity |]. split; [reflexivity |]. split; [reflexivity |].
  destruct Hs as (_ & Hlc & _ & _ & _ & _ & _ & _ & _ & _ & Hrows & _).
  split.
  - intros i q Hq Hneg Hmin. unfold settled. simpl.
    rewrite list_lookup_imap.
    pose proof (lookup_lt_Some _ _ _ Hq) as Hi. rewrite Hlc in Hi.
    destruct (lookup_lt_is_Some_2 (rows (factor e)) i) as [r Hrow];
      [rewrite Hrows; exact Hi |].
    rewrite Hrow. simpl. unfold overwritten. rewrite Hq.
    assert (Habs : 0 < abs32 q) by (rewrite abs32_abs by assumption; lia).
    fold n.
    destruct (Nat.ltb_spec i n); [| lia].
    destruct (Z.ltb_spec q 0); [| lia].
    destruct (Z.ltb_spec 0 (abs32 q)); [reflexivity | lia].
  - intros i Hflag. unfold settled. simpl. rewrite list_lookup_imap.
    destruct (rows (factor e) !! i) as [r|]; [| reflexivity]. simpl.
    unfold overwritten.
    destruct (nqclfb e !! i) as [q|] eqn:Hq;
      [| now rewrite andb_false_r].
    destruct (Hflag q eq_refl) as [Hpos | ->].
    + destruct (Z.ltb_spec q 0); [lia |]. now rewrite andb_false_r.
    + now rewrite andb_false_r.
Qed.

(** ** Inputs that respect the shapes

    When the constructor accepts inputs that have the documented shapes
    (one count and one flag per group, non-negative counts that add up
    to [nqtfb], [nqtfb] names, and no group larger than the padded
    width), the encoder is ready to be written. *)

Lemma sum_nonneg_counts (l : list Z) :
  Forall (fun n => 0 <= n) l ->
  Z.of_nat (foldr Nat.add 0%nat (Z.to_nat <$> l)) = sum_list_Z l.
Proof.
  induction 1 as [|n l Hn _ IH]; [reflexivity |].
  rewrite fmap_cons. simpl. lia.
Qed.

Lemma init_flags (a : Args) (e : Encoder) :
  __init__ a = Ok e ->
  length (arg_nqclfb a) = Z.to_nat (arg_nqfb a) ->
  nqclfb e = arg_nqclfb a.
Proof.
  intros H Hlen. unfold __init__ in H.
  do 20 (inv_bind H). injection H as <-. simpl.
  apply np_zeros1_ok in E9 as (_ & ->).
  unfold np_assign, np_setslice in E14.
  apply bind_ok in E14 as (src & Hsrc & E14).
  apply as_int32_ok in Hsrc. subst src.
  rewrite length_replicate, Nat.min_id, Hlen, Nat.eqb_refl in E14.
  injection E14 as <-.
  rewrite drop_ge by (rewrite length_replicate; lia). apply app_nil_r.
Qed.

Lemma ready_of_valid_input (a : Args) (e : Encoder) :
  __init__ a = Ok e ->
  length (arg_nqobfb a) = Z.to_nat (arg_nqfb a) ->
  length (arg_nqclfb a) = Z.to_nat (arg_nqfb a) ->
  Forall (fun n => 0 <= n) (arg_nqobfb a) ->
  sum_list_Z (arg_nqobfb a) = arg_nqtfb a ->
  length (arg_obsnam a) = Z.to_nat (arg_nqtfb a) ->
  Forall (fun q => abs32 q <= Z.of_nat (shape1 (layer e))) (arg_nqclfb a) ->
  write_ready e = true.
Proof.
  intros Hinit Hlo Hlc Hpos Hsum Hnam Hw.
  destruct (init_fields a e Hinit)
    as (Hnqfb & Hnqtfb & Hobs & _ & Hob & _ & Ht & Hs).
  specialize (Hob Hlo). pose proof (init_flags a e Hinit Hlc) as Hcl.
  unfold write_ready, cursor_end. rewrite Hob, Hcl, Hobs, Hnqtfb.
  apply andb_true_intro. split; [apply andb_true_intro; split |].
  - apply Nat.leb_le. pose proof (sum_nonneg_counts _ Hpos). lia.
  - apply Nat.leb_le. lia.
  - apply forallb_forall. intros q Hq. apply Nat.leb_le.
    rewrite Forall_forall in Hw. apply list_elem_of_In in Hq.
    specialize (Hw q Hq). lia.
Qed.

(** ** The rows after construction

    What [__init__] does store: the width is the signed maximum of the
    flags, and a sub-sequence that fits the width is copied to the left
    of its row, the rest of the row staying zero. *)

Lemma np_setrow_prefix_rows {S A} (conv : list S -> result (list A))
    (arr arr' : ndarray2 A) (i : nat) (src : list S) :
  np_setrow_prefix conv arr i (length src) src = Ok arr' ->
  (forall j, j <> i -> rows arr' !! j = rows arr !! j)
  /\ (forall r v, rows arr !! i = Some r -> conv src = Ok v ->
        length v = length src -> (length src <= length r)%nat ->
        rows arr' !! i = Some (v ++ drop (length src) r)).
Proof.
  unfold np_setrow_prefix.
  destruct (rows arr !! i) as [r|] eqn:Hr; [| discriminate].
  intros H. apply bind_ok in H as (r' & Hr' & H). injection H as <-. simpl.
  split.
  - intros j Hj. apply list_lookup_insert_ne. congruence.
  - intros r0 v [= <-] Hv Hlen Hle.
    rewrite list_lookup_insert_eq by (now apply lookup_lt_Some in Hr).
    f_equal. unfold np_setslice in Hr'. rewrite Hv in Hr'. simpl in Hr'.
    rewrite Nat.min_l, Hlen, Nat.eqb_refl in Hr' by assumption.
    now injection Hr' as <-.
Qed.

Lemma as_int32_length (l v : list Z) : as_int32 l = Ok v -> length v = length l.
Proof. intros H. now rewrite (as_int32_ok l v H). Qed.

(** The rows of the groups of [idx] after [fill_cells]; the other rows
    are untouched. *)
Lemma fill_cells_rows (a : Args) (idx : list nat) (c c' : Cells) :
  NoDup idx -> fill_cells a idx c = Ok c' ->
  (forall j, j ∉ idx ->
     rows (c_layer c') !! j = rows (c_layer c) !! j
     /\ rows (c_row c') !! j = rows (c_row c) !! j
     /\ rows (c_column c') !! j = rows (c_column c) !! j
     /\ rows (c_factor c') !! j = rows (c_factor c) !! j)
  /\ (forall i, i ∈ idx ->
      exists li ri ci fi,
        arg_layer a !! i = Some li /\ arg_row a !! i = Some ri
        /\ arg_column a !! i = Some ci /\ arg_factor a !! i = Some fi
        /\ (forall r, rows (c_layer c) !! i = Some r ->
              (length li <= length r)%nat ->
              rows (c_layer c') !! i = Some (li ++ drop (length li) r))
        /\ (forall r, rows (c_row c) !! i = Some r ->
              (length ri <= length r)%nat ->
              rows (c_row c') !! i = Some (ri ++ drop (length ri) r))
        /\ (forall r, rows (c_column c) !! i = Some r ->
              (length ci <= length r)%nat ->
              rows (c_column c') !! i = Some (ci ++ drop (length ci) r))
        /\ (forall r, rows (c_factor c) !! i = Some r ->
              (length fi <= length r)%nat ->
              rows (c_factor c') !! i
              = Some ((f32_of <$> fi) ++ drop (length fi) r))).
Proof.
  intros Hnd. revert c. induction Hnd as [|i idx Hi Hnd IH]; intros c H.
  - simpl in H. injection H as <-. split; [auto |].
    intros i Hi. now apply elem_of_nil in Hi.
  - simpl in H. apply bind_ok in H as (c1 & Hg & H).
    destruct (IH c1 H) as (Hout & Hin). clear IH.
    unfold fill_group in Hg.
    apply bind_ok in Hg as (li & Hli & Hg).
    apply bind_ok in Hg as (lay & Hlay & Hg).
    apply bind_ok in Hg as (ri & Hri & Hg).
    apply bind_ok in Hg as (rw & Hrw & Hg).
    apply bind_ok in Hg as (ci & Hci & Hg).
    apply bind_ok in Hg as (col & Hcol & Hg).
    apply bind_ok in Hg as (fi & Hfi & Hg).
    apply bind_ok in Hg as (fac & Hfac & Hg).
    injection Hg as <-. simpl in *.
    destruct (np_setrow_prefix_rows _ _ _ _ _ Hlay) as (Hl1 & Hl2).
    destruct (np_setrow_prefix_rows _ _ _ _ _ Hrw) as (Hr1 & Hr2).
    destruct (np_setrow_prefix_rows _ _ _ _ _ Hcol) as (Hc1 & Hc2).
    destruct (np_setrow_prefix_rows _ _ _ _ _ Hfac) as (Hf1 & Hf2).
    split.
    + intros j Hj. apply not_elem_of_cons in Hj as [Hji Hj].
      destruct (Hout j Hj) as (-> & -> & -> & ->). auto.
    + intros k Hk. apply elem_of_cons in Hk as [-> | Hk].
      * exists li, ri, ci, fi.
        unfold py_getitem in Hli, Hri, Hci, Hfi.
        destruct (arg_layer a !! i) as [li'|]; [| discriminate].
        destruct (arg_row a !! i) as [ri'|]; [| discriminate].
        destruct (arg_column a !! i) as [ci'|]; [| discriminate].
        destruct (arg_factor a !! i) as [fi'|]; [| discriminate].
        injection Hli as ->. injection Hri as ->.
        injection Hci as ->. injection Hfi as ->.
        do 4 (split; [reflexivity |]).
        destruct (Hout i Hi) as (-> & -> & -> & ->).
        assert (Hi32 : forall l r arr arr',
          np_setrow_prefix as_int32 arr i (length l) l = Ok arr' ->
          rows arr !! i = Some r -> exists v, as_int32 l = Ok v).
        { intros l r arr arr' Hs Hrow. unfold np_setrow_prefix in Hs.
          rewrite Hrow in Hs. apply bind_ok in Hs as (r' & Hs & _).
          unfold np_setslice in Hs. apply bind_ok in Hs as (v & Hv & _).
          eauto. }
        split; [| split; [| split]].
        -- intros r Hr Hle. destruct (Hi32 _ _ _ _ Hlay Hr) as [v Hv].
           rewrite (Hl2 r v Hr Hv (as_int32_length _ _ Hv) Hle).
           now rewrite (as_int32_ok _ _ Hv).
        -- intros r Hr Hle. destruct (Hi32 _ _ _ _ Hrw Hr) as [v Hv].
           rewrite (Hr2 r v Hr Hv (as_int32_length _ _ Hv) Hle).
           now rewrite (as_int32_ok _ _ Hv).
        -- intros r Hr Hle. destruct (Hi32 _ _ _ _ Hcol Hr) as [v Hv].
           rewrite (Hc2 r v Hr Hv (as_int32_length _ _ Hv) Hle).
           now rewrite (as_int32_ok _ _ Hv).
        -- intros r Hr Hle.
           apply (Hf2 r (f32_of <$> fi) Hr eq_refl); [| assumption].
           apply length_fmap.
      * assert (Hki : k <> i) by (intros ->; contradiction).
        destruct (Hin k Hk)
          as (lk & rk & ck & fk & ? & ? & ? & ? & Ha & Hb & Hc & Hd).
        exists lk, rk, ck, fk. do 4 (split; [assumption |]).
        rewrite <- (Hl1 k Hki), <- (Hr1 k Hki), <- (Hc1 k Hki),
          <- (Hf1 k Hki). auto.
Qed.

(** After construction: the padded width is [max(nqclfb)], and the
    cells of a group that fit it are at the left of the group's row,
    followed by zeros. *)
Lemma init_rows_left_aligned (a : Args) (e : Encoder) (i : nat) :
  __init__ a = Ok e -> (i < Z.to_nat (nqfb e))%nat ->
  let w := shape1 (layer e) in
  py_max (arg_nqclfb a) = Ok (Z.of_nat w)
  /\ exists li ri ci fi,
       arg_layer a !! i = Some li /\ arg_row a !! i = Some ri
       /\ arg_column a !! i = Some ci /\ arg_factor a !! i = Some fi
       /\ ((length li <= w)%nat ->
           rows (layer e) !! i = Some (li ++ replicate (w - length li) 0))
       /\ ((length ri <= w)%nat ->
           rows (row e) !! i = Some (ri ++ replicate (w - length ri) 0))
       /\ ((length ci <= w)%nat ->
           rows (column e) !! i = Some (ci ++ replicate (w - length ci) 0))
       /\ ((length fi <= w)%nat ->
           rows (factor e) !! i
           = Some ((f32_of <$> fi) ++ replicate (w - length fi) f32_zero)).
Proof.
  intros Hinit Hi w.
  destruct (init_fields a e Hinit) as (Hnqfb & _ & _ & Hmax & _ & Hn & _ & Hs).
  split; [exact Hmax |].
  unfold __init__ in Hinit. do 9 (inv_bind Hinit). do 10 (inv_bind Hinit).
  inv_bind Hinit. injection Hinit as <-. simpl in *.
  unfold np_zeros2 in E4, E5, E6, E7.
  destruct ((arg_nqfb a <? 0) || (v3 <? 0)); [discriminate |].
  injection E4 as <-. injection E5 as <-. injection E6 as <-.
  injection E7 as <-.
  destruct (fill_cells_rows a _ _ _ (NoDup_seq 0 _) E18) as (_ & Hin).
  destruct (Hin i) as (li & ri & ci & fi & Hli & Hri & Hci & Hfi & Ha & Hb
                       & Hc & Hd).
  { apply elem_of_seq. lia. }
  simpl in *.
  assert (Hz : forall (A : Type) (z : A),
    replicate (Z.to_nat (arg_nqfb a)) (replicate (Z.to_nat v3) z) !! i
    = Some (replicate (Z.to_nat v3) z)).
  { intros A z. apply lookup_replicate_2. lia. }
  assert (Hw : w = Z.to_nat v3).
  { rewrite E3 in Hmax. injection Hmax as ->. subst w. simpl. lia. }
  assert (Hd' : forall (A : Type) (z : A) n,
    drop n (replicate (Z.to_nat v3) z) = replicate (w - n) z).
  { intros A z n. rewrite Hw. apply drop_replicate. }
  exists li, ri, ci, fi. do 4 (split; [assumption |]).
  split; [| split; [| split]]; intros Hle.
  - rewrite (Ha _ (Hz Z 0)), Hd'; [reflexivity |].
    rewrite length_replicate. lia.
  - rewrite (Hb _ (Hz Z 0)), Hd'; [reflexivity |].
    rewrite length_replicate. lia.
  - rewrite (Hc _ (Hz Z 0)), Hd'; [reflexivity |].
    rewrite length_replicate. lia.
  - rewrite (Hd _ (Hz float32 f32_zero)), Hd'; [reflexivity |].
    rewrite length_replicate. lia.
Qed.

End FlwobFacts.

(** ** The code on concrete inputs *)

(** C4 (padded width): the width of the storage is [max(nqclfb)], the
    signed maximum, not the maximum of the absolute values. One group of
    three cells with the flag [-3] is refused ([np.zeros] gets the width
    [-3]); the flags [[-1, 0]] give storage of width 0 that does not
    hold the cell of the first group, and [write_file] then stops on it. *)
Theorem padded_width_is_signed_max :
  py_max (Z.abs <$> arg_nqclfb negative_flag) = Ok 3
  /\ __init__ negative_flag = Raise ValueError
  /\ py_max (Z.abs <$> arg_nqclfb negative_flag_zero_width) = Ok 1
  /\ __init__ negative_flag_zero_width = Ok zero_width_encoder
  /\ shape1 (layer zero_width_encoder) = 0%nat
  /\ shape1 (factor zero_width_encoder) = 0%nat
  /\ rows (layer zero_width_encoder) = [[]; []]
  /\ w_res (write_file zero_width_encoder ∅) = Raise IndexError.
Proof. vm_compute. repeat split. Qed.

(** C8 (shape checks): inputs that break the three shape conditions at
    once are accepted by the constructor; the trouble shows when the
    files are written: the cells of the group are padding, one record is
    written where the header says two, and the instruction file stops on
    the missing name. *)
Theorem shape_checks_missing :
  ragged_ok inconsistent = false
  /\ counts_ok inconsistent = false
  /\ flattened_ok inconsistent = false
  /\ __init__ inconsistent = Ok inconsistent_encoder
  /\ w_res (write_file inconsistent_encoder ∅) = Raise IndexError
  /\ w_fs (write_file inconsistent_encoder ∅) !! "model.gbob"%string
     = Some [L_text "# GBOB for MODFLOW, generated by Flopy.";
             L_header 1 2 2 141; @L_tomult Q_floats 1%Q; L_group 1 2;
             @L_obs Q_floats "o1" 1 0%Q 5%Q;
             @L_cell Q_floats 0 0 0 0%Q; @L_cell Q_floats 0 0 0 0%Q]
  /\ w_fs (write_file inconsistent_encoder ∅) !! "model.gbob_ins"%string
     = Some [L_text "jif @"; L_text "StandardFile 0 1 2"; L_text "o1"].
Proof. vm_compute. repeat split. Qed.

(** The spec's example of C3: the factors [0.2, 0.5, 0.9] of a group
    with the flag [-3] are written as three ones. *)
Example two_groups_first_group_factors :
  arg_factor two_groups !! 0%nat = Some [1 # 5; 1 # 2; 9 # 10]%Q
  /\ (cell_factor <$>
        cells_of_group (primary_lines two_groups_encoder) 0)
     = [Some (f32_of f64_one); Some (f32_of f64_one);
        Some (f32_of f64_one)].
Proof. vm_compute. split; reflexivity. Qed.

(** The spec's example of C5: groups of sizes 2 and 5 give 2 cell
    lines, then 5. *)
Example sizes_2_5_cell_lines :
  shape1 (layer sizes_2_5_encoder) = 5%nat
  /\ length (cells_of_group (primary_lines sizes_2_5_encoder) 0) = 2%nat
  /\ length (cells_of_group (primary_lines sizes_2_5_encoder) 1) = 5%nat.
Proof. vm_compute. repeat split. Qed.

(** ** Instances of the theorems *)

Lemma chd_tag_case_and_space_insensitive_witness :
  all_space "" = true /\ all_space " " = true /\ upper "chd" = "CHD"%string
  /\ __init__ (with_flowtype two_groups (Some "CHD"%string))
     = Ok two_groups_encoder
  /\ name two_groups_encoder = ["CHOB"; "DATA"]%string
  /\ extension two_groups_encoder = ["chob"; "obc"]%string
  /\ unit_number two_groups_encoder = [40; 140]
  /\ iufbobsv two_groups_encoder = 140.
Proof.
  split; [reflexivity |]. split; [reflexivity |]. split; [reflexivity |].
  apply (chd_tag_case_and_space_insensitive two_groups "" "chd" " "
           two_groups_encoder); reflexivity.
Defined.

Lemma empty_flag_list_rejected_witness :
  recognized (arg_flowtype riv_defaults) = true
  /\ arg_nqclfb riv_defaults = []
  /\ (__init__ riv_defaults = Raise ValueError
      \/ __init__ riv_defaults = Raise IndexError)
  /\ (arg_unitnumber riv_defaults = default_unitnumber ->
      __init__ riv_defaults = Raise ValueError).
Proof.
  split; [reflexivity |]. split; [reflexivity |].
  apply (empty_flag_list_rejected riv_defaults); reflexivity.
Defined.

Lemma records_follow_one_cursor_witness :
  __init__ two_groups = Ok two_groups_encoder
  /\ sum_list_Z (arg_nqobfb two_groups) = arg_nqtfb two_groups
  /\ write_ready two_groups_encoder = true
  /\ exists primary,
       w_res (write_file two_groups_encoder ∅) = Ok tt
       /\ w_fs (write_file two_groups_encoder ∅)
            !! fn_path two_groups_encoder = Some primary
       /\ Z.of_nat (length (obs_lines primary)) = arg_nqtfb two_groups
       /\ Some <$> obs_lines primary
          = obs_record two_groups_encoder
              <$> seq 0 (length (obs_lines primary))
       /\ res (write_sections_3_5 two_groups_encoder)
          = Ok (length (obs_lines primary))
       /\ Z.of_nat (length (obs_lines primary))
          = sum_list_Z (arg_nqobfb two_groups).
Proof.
  split; [reflexivity |]. split; [reflexivity |]. split; [reflexivity |].
  apply (records_follow_one_cursor two_groups two_groups_encoder ∅);
    reflexivity.
Defined.

Lemma instruction_file_lists_the_names_witness :
  __init__ two_groups = Ok two_groups_encoder
  /\ write_ready two_groups_encoder = true
  /\ exists names,
       w_res (write_file two_groups_encoder ∅) = Ok tt
       /\ w_fs (write_file two_groups_encoder ∅)
            !! String.append (fn_path two_groups_encoder) "_ins"
          = Some (L_text "jif @"
                  :: L_text (String.append "StandardFile 0 1 "
                               (py_str (nqtfb two_groups_encoder)))
                  :: (L_text <$> names))
       /\ Z.of_nat (length names) = nqtfb two_groups_encoder
       /\ names = take (length names) (obsnam two_groups_encoder)
       /\ (sum_list_Z (nqobfb two_groups_encoder) = nqtfb two_groups_encoder ->
           exists primary,
             w_fs (write_file two_groups_encoder ∅)
               !! fn_path two_groups_encoder = Some primary
             /\ obs_name <$> obs_lines primary = Some <$> names).
Proof.
  split; [reflexivity |]. split; [reflexivity |].
  apply (instruction_file_lists_the_names two_groups two_groups_encoder ∅);
    reflexivity.
Defined.

Lemma negative_flag_writes_ones_witness :
  __init__ two_groups = Ok two_groups_encoder
  /\ write_ready two_groups_encoder = true
  /\ nqclfb two_groups_encoder !! 0%nat = Some (-3)
  /\ exists primary,
       w_res (write_file two_groups_encoder ∅) = Ok tt
       /\ w_fs (write_file two_groups_encoder ∅)
            !! fn_path two_groups_encoder = Some primary
       /\ Z.of_nat (length (cells_of_group primary 0)) = Z.max 0 (abs32 (-3))
       /\ (-3 <> int32_min ->
           Z.of_nat (length (cells_of_group primary 0)) = Z.abs (-3))
       /\ Forall (fun l => cell_factor l = Some (f32_of f64_one))
            (cells_of_group primary 0).
Proof.
  split; [reflexivity |]. split; [reflexivity |]. split; [reflexivity |].
  apply (negative_flag_writes_ones two_groups two_groups_encoder ∅ 0%nat (-3));
    [reflexivity | reflexivity | reflexivity | lia].
Defined.

Lemma group_writes_its_own_cells_witness :
  __init__ sizes_2_5 = Ok sizes_2_5_encoder
  /\ write_ready sizes_2_5_encoder = true
  /\ nqclfb sizes_2_5_encoder !! 0%nat = Some 2
  /\ exists primary,
       w_res (write_file sizes_2_5_encoder ∅) = Ok tt
       /\ w_fs (write_file sizes_2_5_encoder ∅)
            !! fn_path sizes_2_5_encoder = Some primary
       /\ Forall (fun l => is_cell l = true) (cells_of_group primary 0)
       /\ Z.of_nat (length (cells_of_group primary 0)) = Z.max 0 (abs32 2)
       /\ (2 <> int32_min ->
           Z.of_nat (length (cells_of_group primary 0)) = Z.abs 2)
       /\ (length (cells_of_group primary 0)
           <= shape1 (layer sizes_2_5_encoder))%nat.
Proof.
  split; [reflexivity |]. split; [reflexivity |]. split; [reflexivity |].
  apply (group_writes_its_own_cells sizes_2_5 sizes_2_5_encoder ∅ 0%nat 2);
    reflexivity.
Defined.

Lemma second_write_leaves_the_same_files_witness :
  __init__ two_groups = Ok two_groups_encoder
  /\ write_ready two_groups_encoder = true
  /\ w_res (write_file two_groups_encoder ∅) = Ok tt
  /\ w_fs (write_file two_groups_encoder ∅) !! "model.chob"%string
     = Some (primary_lines two_groups_encoder)
  /\ w_fs (write_file two_groups_encoder ∅) !! "model.chob_ins"%string
     = Some [L_text "jif @"; L_text "StandardFile 0 1 3";
             L_text "o1"; L_text "o2"; L_text "o3"]
  /\ w_fs (write_file (w_self (write_file two_groups_encoder ∅)) ∅)
       !! "model.chob"%string
     = Some (primary_lines two_groups_encoder)
  /\ w_fs (write_file (w_self (write_file two_groups_encoder ∅))
             (w_fs (write_file two_groups_encoder ∅)))
     = w_fs (write_file two_groups_encoder ∅)
  /\ w_self (write_file (w_self (write_file two_groups_encoder ∅))
               (w_fs (write_file two_groups_encoder ∅)))
     = w_self (write_file two_groups_encoder ∅)
  /\ rows (factor two_groups_encoder) !! 0%nat
     = Some [1 # 5; 1 # 2; 9 # 10]%Q
  /\ rows (factor (w_self (write_file two_groups_encoder ∅))) !! 0%nat
     = Some [1%Q; 1%Q; 1%Q]
  /\ rows (factor (w_self (write_file two_groups_encoder ∅))) !! 1%nat
     = rows (factor two_groups_encoder) !! 1%nat.
Proof.
  split; [reflexivity |]. split; [reflexivity |].
  destruct (second_write_leaves_the_same_files two_groups
              two_groups_encoder ∅ eq_refl eq_refl)
    as (H1 & H2 & H3 & H4 & H5 & _ & _ & _ & H9 & H10).
  split; [exact H1 |]. split; [exact H2 |]. split; [exact H3 |].
  split; [exact (proj1 (proj2 (H4 ∅))) |]. split; [exact H5 |].
  split; [exact (proj2 (proj2 (proj2 (H4 _)))) |].
  split; [reflexivity |].
  split; [apply (H9 0%nat (-3)); [reflexivity | lia | discriminate] |].
  apply (H10 1%nat). intros q Hq. injection Hq as <-. left. lia.
Defined.

(** * Further properties of the constructor and of [write_file] *)

Section FlwobMore.
Context {FL : Floats} {UC : Unicode}.

(** ** What a successful construction went through *)

Lemma init_inv (a : Args) (e : Encoder) :
  __init__ a = Ok e ->
  exists sel nm u h w c,
    select_flowtype (arg_flowtype a) (arg_extension a) (arg_unitnumber a)
      (arg_iufbobsv a) = Ok sel
    /\ s_name sel = Some nm /\ s_url sel = Some u /\ s_heading sel = Some h
    /\ py_max (arg_nqclfb a) = Ok w
    /\ 0 <= arg_nqfb a /\ 0 <= w /\ 0 <= arg_nqtfb a
    /\ np_assign as_int32 (replicate (Z.to_nat (arg_nqfb a)) 0)
         (arg_nqobfb a) = Ok (nqobfb e)
    /\ np_assign as_int32 (replicate (Z.to_nat (arg_nqfb a)) 0)
         (arg_nqclfb a) = Ok (nqclfb e)
    /\ np_assign as_int32 (replicate (Z.to_nat (arg_nqtfb a)) 0)
         (arg_irefsp a) = Ok (irefsp e)
    /\ np_assign as_float32 (replicate (Z.to_nat (arg_nqtfb a)) f32_zero)
         (arg_toffset a) = Ok (toffset e)
    /\ np_assign as_float32 (replicate (Z.to_nat (arg_nqtfb a)) f32_zero)
         (arg_flwobs a) = Ok (flwobs e)
    /\ fill_cells a (range (arg_nqfb a))
         {| c_layer := Ndarray2 (Z.to_nat (arg_nqfb a)) (Z.to_nat w)
              (replicate (Z.to_nat (arg_nqfb a)) (replicate (Z.to_nat w) 0));
            c_row := Ndarray2 (Z.to_nat (arg_nqfb a)) (Z.to_nat w)
              (replicate (Z.to_nat (arg_nqfb a)) (replicate (Z.to_nat w) 0));
            c_column := Ndarray2 (Z.to_nat (arg_nqfb a)) (Z.to_nat w)
              (replicate (Z.to_nat (arg_nqfb a)) (replicate (Z.to_nat w) 0));
            c_factor := Ndarray2 (Z.to_nat (arg_nqfb a)) (Z.to_nat w)
              (replicate (Z.to_nat (arg_nqfb a))
                 (replicate (Z.to_nat w) f32_zero)) |} = Ok c
    /\ e = {| name := nm; extension := s_extension sel;
              unit_number := s_unitnumber sel;
              fn_path := package_path (arg_model a) (s_extension sel) nm
                           (s_unitnumber sel);
              url := u; heading := h;
              nqfb := arg_nqfb a; nqcfb := arg_nqcfb a; nqtfb := arg_nqtfb a;
              iufbobsv := s_iufbobsv sel; tomultfb := arg_tomultfb a;
              nqobfb := nqobfb e; nqclfb := nqclfb e; obsnam := arg_obsnam a;
              irefsp := irefsp e; toffset := toffset e; flwobs := flwobs e;
              layer := c_layer c; row := c_row c; column := c_column c;
              factor := c_factor c |}.
Proof.
  intros H. unfold __init__ in H.
  apply bind_ok in H as (sel & Hsel & H).
  apply bind_ok in H as (nm & Hnm & H).
  apply bind_ok in H as (u & Hu & H).
  apply bind_ok in H as (h & Hh & H).
  apply bind_ok in H as (w & Hw & H).
  apply bind_ok in H as (l0 & Hl0 & H).
  apply bind_ok in H as (r0 & Hr0 & H).
  apply bind_ok in H as (c0 & Hc0 & H).
  apply bind_ok in H as (f0 & Hf0 & H).
  apply bind_ok in H as (ob0 & Hob0 & H).
  apply bind_ok in H as (cl0 & Hcl0 & H).
  apply bind_ok in H as (ir0 & Hir0 & H).
  apply bind_ok in H as (to0 & Hto0 & H).
  apply bind_ok in H as (fl0 & Hfl0 & H).
  apply bind_ok in H as (ob1 & Hob1 & H).
  apply bind_ok in H as (cl1 & Hcl1 & H).
  apply bind_ok in H as (ir1 & Hir1 & H).
  apply bind_ok in H as (to1 & Hto1 & H).
  apply bind_ok in H as (fl1 & Hfl1 & H).
  apply bind_ok in H as (c & Hc & H).
  injection H as <-. simpl.
  destruct (np_zeros1_ok _ _ _ Hob0) as (Hn & ->).
  destruct (np_zeros1_ok _ _ _ Hcl0) as (_ & ->).
  destruct (np_zeros1_ok _ _ _ Hir0) as (Ht & ->).
  destruct (np_zeros1_ok _ _ _ Hto0) as (_ & ->).
  destruct (np_zeros1_ok _ _ _ Hfl0) as (_ & ->).
  destruct (np_zeros2_ok _ _ _ _ Hl0) as (_ & Hw0 & _).
  unfold np_zeros2 in Hl0, Hr0, Hc0, Hf0.
  destruct ((arg_nqfb a <? 0) || (w <? 0)); [discriminate |].
  injection Hl0 as <-. injection Hr0 as <-. injection Hc0 as <-.
  injection Hf0 as <-.
  assert (Hloc : forall (A : Type) (o : option A) (x : A),
            py_local o = Ok x -> o = Some x).
  { intros A [y|] x; simpl; [now intros [= ->] | discriminate]. }
  apply Hloc in Hnm, Hu, Hh.
  exists sel, nm, u, h, w, c. repeat (split; [first [assumption | reflexivity] |]).
  reflexivity.
Qed.

(** X1. Without a recognized tag the constructor raises: on the
    default [flowtype=None] the call of [upper] fails, on any other
    string no branch binds [name]. A tag is recognized by the value of
    [upper_strip], which outside ASCII is what the tables of the
    interpreter give. *)
Theorem unrecognized_tag_raises (a : Args) :
  recognized (arg_flowtype a) = false ->
  __init__ a
  = Raise (match arg_flowtype a with
           | None => AttributeError
           | Some _ => UnboundLocalError
           end).
Proof.
  intros Hrec. unfold __init__, select_flowtype.
  destruct (arg_flowtype a) as [t|]; [| reflexivity].
  unfold recognized in Hrec.
  apply orb_false_elim in Hrec as [Hrec Hr].
  apply orb_false_elim in Hrec as [Hrec Hd].
  apply orb_false_elim in Hrec as [Hc Hg].
  now rewrite Hc, Hg, Hd, Hr.
Qed.

Lemma select_branch (t : option string) (ext : list string)
    (units : list Z) (iu0 : Z) (sel : Selected) (nm : list string) :
  select_flowtype t ext units iu0 = Ok sel -> s_name sel = Some nm ->
  exists k u0,
    (k <= 3)%nat
    /\ s_extension sel = py_slice (2 * k) (2 * k + 2) ext
    /\ s_unitnumber sel = py_slice (2 * k) (2 * k + 2) units
    /\ s_unitnumber sel = [u0; s_iufbobsv sel]
    /\ exists n0, nm = [n0; "DATA"%string].
Proof.
  unfold select_flowtype. destruct t as [t|]; [| discriminate].
  assert (Hb : forall n0 k u h,
    take_branch n0 (2 * k) (2 * k + 2) u h ext units = Ok sel ->
    s_name sel = Some nm -> (k <= 3)%nat ->
    exists k u0,
      (k <= 3)%nat
      /\ s_extension sel = py_slice (2 * k) (2 * k + 2) ext
      /\ s_unitnumber sel = py_slice (2 * k) (2 * k + 2) units
      /\ s_unitnumber sel = [u0; s_iufbobsv sel]
      /\ exists n0, nm = [n0; "DATA"%string]).
  { intros n0 k u h Hb Hnm Hk. unfold take_branch in Hb.
    assert (Hlen : (length (py_slice (2 * k) (2 * k + 2) units) <= 2)%nat).
    { unfold py_slice. rewrite length_take. lia. }
    remember (py_slice (2 * k) (2 * k + 2) units) as us eqn:Hus.
    remember (py_slice (2 * k) (2 * k + 2) ext) as es eqn:Hes.
    apply bind_ok in Hb as (iu & Hiu & Hb). unfold py_getitem in Hiu.
    destruct (us !! 1%nat) as [x|] eqn:Hx; [| discriminate].
    injection Hiu as ->. injection Hb as <-. simpl in Hnm |- *.
    injection Hnm as <-. exists k.
    destruct us as [|u0 [|u1 [|u2 l]]]; try discriminate;
      [| simpl in Hlen; lia].
    injection Hx as ->. exists u0. eauto 10. }
  destruct (String.eqb _ "CHD"); [intros H1 H2; apply (Hb _ 0%nat _ _ H1 H2); lia |].
  destruct (String.eqb _ "GHB"); [intros H1 H2; apply (Hb _ 1%nat _ _ H1 H2); lia |].
  destruct (String.eqb _ "DRN"); [intros H1 H2; apply (Hb _ 2%nat _ _ H1 H2); lia |].
  destruct (String.eqb _ "RIV"); [intros H1 H2; apply (Hb _ 3%nat _ _ H1 H2); lia |].
  intros [= <-]. discriminate.
Qed.

(** X2. The output unit of the encoder is the second entry of the pair
    cut from the unit table, and the pairs of extensions and units are
    the slices [2k:2k+2] of the tables for the same [k]: the argument
    [iufbobsv] is never used. *)
Theorem output_unit_comes_from_the_table (a : Args) (e : Encoder) :
  __init__ a = Ok e ->
  exists k u0 n0,
    (k <= 3)%nat
    /\ extension e = py_slice (2 * k) (2 * k + 2) (arg_extension a)
    /\ unit_number e = py_slice (2 * k) (2 * k + 2) (arg_unitnumber a)
    /\ unit_number e = [u0; iufbobsv e]
    /\ name e = [n0; "DATA"%string].
Proof.
  intros H.
  destruct (init_inv a e H)
    as (sel & nm & u & h & w & c & Hsel & Hnm & _ & _ & _ & _ & _ & _ & _ & _
        & _ & _ & _ & _ & ->).
  destruct (select_branch _ _ _ _ _ _ Hsel Hnm)
    as (k & u0 & Hk & Hext & Hun & Hiu & n0 & ->).
  exists k, u0, n0. simpl. auto.
Qed.

(** X3. The three other variants, with the default tables. *)
Theorem other_variants_metadata (a : Args) (e : Encoder) (t : string) :
  arg_flowtype a = Some t ->
  arg_extension a = default_extension ->
  arg_unitnumber a = default_unitnumber ->
  __init__ a = Ok e ->
  (strip (upper t) = "GHB"%string ->
     name e = ["GBOB"; "DATA"]%string /\ extension e = ["gbob"; "obg"]%string
     /\ unit_number e = [41; 141] /\ iufbobsv e = 141
     /\ url e = "gbob.htm"%string
     /\ heading e = "# GBOB for MODFLOW, generated by Flopy."%string)
  /\ (strip (upper t) = "DRN"%string ->
     name e = ["DROB"; "DATA"]%string /\ extension e = ["drob"; "obd"]%string
     /\ unit_number e = [42; 142] /\ iufbobsv e = 142
     /\ url e = "drob.htm"%string
     /\ heading e = "# DROB for MODFLOW, generated by Flopy."%string)
  /\ (strip (upper t) = "RIV"%string ->
     name e = ["RVOB"; "DATA"]%string /\ extension e = ["rvob"; "obr"]%string
     /\ unit_number e = [43; 143] /\ iufbobsv e = 143
     /\ url e = "rvob.htm"%string
     /\ heading e = "# RVOB for MODFLOW, generated by Flopy."%string).
Proof.
  intros Ht Hext Hun H.
  destruct (init_inv a e H)
    as (sel & nm & u & h & w & c & Hsel & Hnm & Hu & Hh & _ & _ & _ & _ & _
        & _ & _ & _ & _ & _ & ->).
  rewrite Ht, Hext, Hun in Hsel. unfold select_flowtype in Hsel. simpl.
  split; [| split]; intros Htag;
    rewrite upper_strip_ascii in Hsel by (now rewrite Htag);
    rewrite Htag in Hsel; simpl in Hsel;
    injection Hsel as <-; simpl in *;
    injection Hnm as <-; injection Hu as <-; injection Hh as <-;
    repeat split.
Qed.

(** X4. The shapes after construction: one count and one flag per
    group, [nqtfb] entries in the three numeric flattened arrays, and
    four cell arrays of [nqfb] rows whose width is [max(nqclfb)]; the
    counts [nqfb] and [nqtfb] are not negative. *)
Theorem construction_shapes (a : Args) (e : Encoder) :
  __init__ a = Ok e ->
  exists w : nat,
    py_max (arg_nqclfb a) = Ok (Z.of_nat w)
    /\ 0 <= nqfb e /\ 0 <= nqtfb e
    /\ length (nqobfb e) = Z.to_nat (nqfb e)
    /\ length (nqclfb e) = Z.to_nat (nqfb e)
    /\ length (irefsp e) = Z.to_nat (nqtfb e)
    /\ length (toffset e) = Z.to_nat (nqtfb e)
    /\ length (flwobs e) = Z.to_nat (nqtfb e)
    /\ arr_shaped (layer e) (Z.to_nat (nqfb e)) w
    /\ arr_shaped (row e) (Z.to_nat (nqfb e)) w
    /\ arr_shaped (column e) (Z.to_nat (nqfb e)) w
    /\ arr_shaped (factor e) (Z.to_nat (nqfb e)) w.
Proof.
  intros H.
  destruct (init_fields a e H) as (_ & _ & _ & Hmax & _ & Hn & Ht & Hs).
  destruct Hs as (H1 & H2 & H3 & H4 & H5 & H6 & H7 & H8 & H9).
  exists (shape1 (layer e)). auto 15.
Qed.

Lemma np_assign_inv {S A} (conv : list S -> result (list A))
    (r : list A) (src : list S) (r' : list A) :
  np_assign conv r src = Ok r' ->
  exists v, conv src = Ok v
    /\ (length v = length r /\ r' = v
        \/ length v <> length r
           /\ exists x, v = [x] /\ r' = replicate (length r) x).
Proof.
  unfold np_assign, np_setslice. intros H.
  apply bind_ok in H as (v & Hv & H). exists v. split; [exact Hv |].
  rewrite Nat.min_id in H.
  destruct (Nat.eqb_spec (length v) (length r)) as [Hl | Hl].
  - left. injection H as <-. rewrite drop_all. now rewrite app_nil_r.
  - right. split; [exact Hl |].
    destruct v as [|x [|y v]]; try discriminate. injection H as <-.
    exists x. rewrite drop_all. now rewrite app_nil_r.
Qed.

Lemma np_assign_int32_inv (k : nat) (src r' : list Z) :
  np_assign as_int32 (replicate k 0) src = Ok r' ->
  length src = k /\ r' = src \/ exists x, src = [x] /\ r' = replicate k x.
Proof.
  intros Ha. apply np_assign_inv in Ha as (v & Hv & Ha).
  apply as_int32_ok in Hv. subst v. rewrite length_replicate in Ha.
  destruct Ha as [[Hl ->] | [_ (x & -> & ->)]]; eauto.
Qed.

Lemma np_assign_float32_inv (k : nat) (src : list float64)
    (r' : list float32) :
  np_assign as_float32 (replicate k f32_zero) src = Ok r' ->
  length src = k /\ r' = f32_of <$> src
  \/ exists x, src = [x] /\ r' = replicate k (f32_of x).
Proof.
  intros Ha. apply np_assign_inv in Ha as (v & Hv & Ha).
  injection Hv as <-. rewrite length_replicate, length_fmap in Ha.
  destruct Ha as [[Hl ->] | [_ (x & Hx & ->)]]; [now left |].
  right. destruct src as [|y [|z src]]; try discriminate.
  injection Hx as <-. eauto.
Qed.

(** X5. The length checks the constructor does make: each per-group
    array has [nqfb] entries and each numeric flattened array [nqtfb]
    entries, in which case it is stored as given (floats cast to single
    precision), or it has exactly one entry, which is then stored in
    every cell. The names are stored as given, whatever their number. *)
Theorem stored_as_given_or_broadcast (a : Args) (e : Encoder) :
  __init__ a = Ok e ->
  let n := Z.to_nat (arg_nqfb a) in
  let t := Z.to_nat (arg_nqtfb a) in
  (length (arg_nqobfb a) = n /\ nqobfb e = arg_nqobfb a
   \/ exists x, arg_nqobfb a = [x] /\ nqobfb e = replicate n x)
  /\ (length (arg_nqclfb a) = n /\ nqclfb e = arg_nqclfb a
   \/ exists x, arg_nqclfb a = [x] /\ nqclfb e = replicate n x)
  /\ (length (arg_irefsp a) = t /\ irefsp e = arg_irefsp a
   \/ exists x, arg_irefsp a = [x] /\ irefsp e = replicate t x)
  /\ (length (arg_toffset a) = t /\ toffset e = f32_of <$> arg_toffset a
   \/ exists x, arg_toffset a = [x] /\ toffset e = replicate t (f32_of x))
  /\ (length (arg_flwobs a) = t /\ flwobs e = f32_of <$> arg_flwobs a
   \/ exists x, arg_flwobs a = [x] /\ flwobs e = replicate t (f32_of x))
  /\ obsnam e = arg_obsnam a.
Proof.
  intros H n t.
  destruct (init_inv a e H)
    as (sel & nm & u & h & w & c & _ & _ & _ & _ & _ & _ & _ & _ & Hob & Hcl
        & Hir & Hto & Hfl & _ & He).
  split; [exact (np_assign_int32_inv _ _ _ Hob) |].
  split; [exact (np_assign_int32_inv _ _ _ Hcl) |].
  split; [exact (np_assign_int32_inv _ _ _ Hir) |].
  split; [exact (np_assign_float32_inv _ _ _ Hto) |].
  split; [exact (np_assign_float32_inv _ _ _ Hfl) |]. now rewrite He.
Qed.

Lemma py_max_spec (l : list Z) (w : Z) :
  py_max l = Ok w -> w ∈ l /\ Forall (fun q => q <= w) l.
Proof.
  destruct l as [|x l]; [discriminate |]. simpl. intros [= <-].
  assert (H : forall l x, (foldl Z.max x l = x \/ foldl Z.max x l ∈ l)
                          /\ x <= foldl Z.max x l
                          /\ Forall (fun q => q <= foldl Z.max x l) l).
  { clear. induction l as [|y l IH]; intros x; simpl.
    - split; [now left |]. split; [lia | constructor].
    - destruct (IH (Z.max x y)) as (Hm & Hle & Hall).
      split; [| split].
      + destruct Hm as [Hm | Hm].
        * rewrite Hm. destruct (Z.max_spec x y) as [[_ ->] | [_ ->]];
            [right; left | now left].
        * right. now right.
      + lia.
      + constructor; [lia | exact Hall]. }
  destruct (H l x) as (Hm & Hle & Hall). split.
  - destruct Hm as [-> | Hm]; [left | now right].
  - now constructor.
Qed.

(** X6. A successful construction had a non-negative flag: the
    padded width is the largest flag, it belongs to the list, and it is
    not negative. When every flag is negative the constructor raises. *)
Theorem construction_needs_a_non_negative_flag (a : Args) (e : Encoder) :
  __init__ a = Ok e ->
  exists q,
    q ∈ arg_nqclfb a /\ 0 <= q
    /\ Forall (fun q' => q' <= q) (arg_nqclfb a)
    /\ shape1 (layer e) = Z.to_nat q
    /\ shape1 (factor e) = Z.to_nat q.
Proof.
  intros H.
  destruct (init_fields a e H) as (_ & _ & _ & Hmax & _ & _ & _ & Hs).
  destruct (py_max_spec _ _ Hmax) as (Hin & Hall).
  exists (Z.of_nat (shape1 (layer e))).
  split; [exact Hin |]. split; [lia |]. split; [exact Hall |].
  rewrite Nat2Z.id. split; [reflexivity |].
  destruct Hs as (_ & _ & _ & _ & _ & _ & _ & _ & (_ & Hw & _)). exact Hw.
Qed.

Lemma np_setrow_prefix_fits {S A} (conv : list S -> result (list A))
    (arr arr' : ndarray2 A) (i : nat) (src : list S) (n w : nat) :
  arr_shaped arr n w ->
  (forall v, conv src = Ok v -> length v = length src) ->
  np_setrow_prefix conv arr i (length src) src = Ok arr' ->
  (length src <= w)%nat \/ length src = 1%nat.
Proof.
  intros (_ & _ & _ & Hw) Hconv. unfold np_setrow_prefix.
  destruct (rows arr !! i) as [r|] eqn:Hr; [| discriminate].
  eapply Forall_lookup_1 in Hw; eauto. simpl in Hw.
  intros H. apply bind_ok in H as (r' & H & _). unfold np_setslice in H.
  apply bind_ok in H as (v & Hv & H). specialize (Hconv v Hv).
  destruct (Nat.eqb_spec (length v) (Nat.min (length src) (length r)))
    as [Hl | Hl]; [left; lia |].
  destruct v as [|x [|y v]]; try discriminate. right. now rewrite <- Hconv.
Qed.

Lemma fill_cells_fits (a : Args) (idx : list nat) (c c' : Cells) (n w : nat) :
  cells_shaped c n w -> fill_cells a idx c = Ok c' ->
  forall i, i ∈ idx ->
    exists li ri ci fi,
      arg_layer a !! i = Some li /\ arg_row a !! i = Some ri
      /\ arg_column a !! i = Some ci /\ arg_factor a !! i = Some fi
      /\ ((length li <= w)%nat \/ length li = 1%nat)
      /\ ((length ri <= w)%nat \/ length ri = 1%nat)
      /\ ((length ci <= w)%nat \/ length ci = 1%nat)
      /\ ((length fi <= w)%nat \/ length fi = 1%nat).
Proof.
  revert c. induction idx as [|k idx IH]; intros c Hc H i Hi.
  - now apply elem_of_nil in Hi.
  - simpl in H. apply bind_ok in H as (c1 & Hg & H).
    assert (Hc1 : cells_shaped c1 n w).
    { apply (fill_cells_shaped a [k] c c1 n w Hc). simpl. now rewrite Hg. }
    apply elem_of_cons in Hi as [-> | Hi]; [| now apply (IH c1)].
    destruct Hc as (Hl & Hr & Hcl & Hf). unfold fill_group in Hg.
    apply bind_ok in Hg as (li & Hli & Hg).
    apply bind_ok in Hg as (lay & Hlay & Hg).
    apply bind_ok in Hg as (ri & Hri & Hg).
    apply bind_ok in Hg as (rw & Hrw & Hg).
    apply bind_ok in Hg as (ci & Hci & Hg).
    apply bind_ok in Hg as (col & Hcol & Hg).
    apply bind_ok in Hg as (fi & Hfi & Hg).
    apply bind_ok in Hg as (fac & Hfac & _).
    assert (Hget : forall (A : Type) (l : list A) x,
              py_getitem l k = Ok x -> l !! k = Some x).
    { intros A l x. unfold py_getitem.
      destruct (l !! k); [now intros [= ->] | discriminate]. }
    exists li, ri, ci, fi.
    split; [now apply Hget |]. split; [now apply Hget |].
    split; [now apply Hget |]. split; [now apply Hget |].
    split; [| split; [| split]].
    + eapply np_setrow_prefix_fits; [exact Hl | | exact Hlay].
      intros v Hv. now rewrite (as_int32_ok _ _ Hv).
    + eapply np_setrow_prefix_fits; [exact Hr | | exact Hrw].
      intros v Hv. now rewrite (as_int32_ok _ _ Hv).
    + eapply np_setrow_prefix_fits; [exact Hcl | | exact Hcol].
      intros v Hv. now rewrite (as_int32_ok _ _ Hv).
    + eapply np_setrow_prefix_fits; [exact Hf | | exact Hfac].
      intros v [= <-]. apply length_fmap.
Qed.

(** The loop over the groups of a successful construction: it ran on
    zeroed storage of the final shape. *)
Lemma init_fill (a : Args) (e : Encoder) :
  __init__ a = Ok e ->
  exists c,
    nqfb e = arg_nqfb a
    /\ cells_shaped
         {| c_layer := Ndarray2 (Z.to_nat (arg_nqfb a)) (shape1 (layer e))
              (replicate (Z.to_nat (arg_nqfb a))
                 (replicate (shape1 (layer e)) 0));
            c_row := Ndarray2 (Z.to_nat (arg_nqfb a)) (shape1 (layer e))
              (replicate (Z.to_nat (arg_nqfb a))
                 (replicate (shape1 (layer e)) 0));
            c_column := Ndarray2 (Z.to_nat (arg_nqfb a)) (shape1 (layer e))
              (replicate (Z.to_nat (arg_nqfb a))
                 (replicate (shape1 (layer e)) 0));
            c_factor := Ndarray2 (Z.to_nat (arg_nqfb a)) (shape1 (layer e))
              (replicate (Z.to_nat (arg_nqfb a))
                 (replicate (shape1 (layer e)) f32_zero)) |}
         (Z.to_nat (arg_nqfb a)) (shape1 (layer e))
    /\ fill_cells a (range (arg_nqfb a))
         {| c_layer := Ndarray2 (Z.to_nat (arg_nqfb a)) (shape1 (layer e))
              (replicate (Z.to_nat (arg_nqfb a))
                 (replicate (shape1 (layer e)) 0));
            c_row := Ndarray2 (Z.to_nat (arg_nqfb a)) (shape1 (layer e))
              (replicate (Z.to_nat (arg_nqfb a))
                 (replicate (shape1 (layer e)) 0));
            c_column := Ndarray2 (Z.to_nat (arg_nqfb a)) (shape1 (layer e))
              (replicate (Z.to_nat (arg_nqfb a))
                 (replicate (shape1 (layer e)) 0));
            c_factor := Ndarray2 (Z.to_nat (arg_nqfb a)) (shape1 (layer e))
              (replicate (Z.to_nat (arg_nqfb a))
                 (replicate (shape1 (layer e)) f32_zero)) |} = Ok c.
Proof.
  intros H.
  destruct (init_fields a e H) as (_ & _ & _ & Hmax & _ & _ & _ & _).
  destruct (init_inv a e H)
    as (sel & nm & u & h & w & c & _ & _ & _ & _ & Hw & _ & _ & _ & _ & _
        & _ & _ & _ & Hfill & He).
  rewrite Hw in Hmax. injection Hmax as ->. rewrite Nat2Z.id in Hfill.
  exists c. split; [now rewrite He |]. split; [| exact Hfill].
  repeat split; simpl; try apply length_replicate;
    apply Forall_replicate, length_replicate.
Qed.

(** X7. What the constructor checks of the ragged inputs: every group
    has its sub-sequence in each of the four lists, and a sub-sequence is
    no longer than the padded width, or has a single entry. *)
Theorem sub_sequences_present_and_fit (a : Args) (e : Encoder) (i : nat) :
  __init__ a = Ok e ->
  (i < Z.to_nat (nqfb e))%nat ->
  exists li ri ci fi,
    arg_layer a !! i = Some li /\ arg_row a !! i = Some ri
    /\ arg_column a !! i = Some ci /\ arg_factor a !! i = Some fi
    /\ ((length li <= shape1 (layer e))%nat \/ length li = 1%nat)
    /\ ((length ri <= shape1 (layer e))%nat \/ length ri = 1%nat)
    /\ ((length ci <= shape1 (layer e))%nat \/ length ci = 1%nat)
    /\ ((length fi <= shape1 (layer e))%nat \/ length fi = 1%nat).
Proof.
  intros H Hi.
  destruct (init_fill a e H) as (c & Hn & Hshape & Hfill).
  rewrite Hn in Hi.
  apply (fill_cells_fits a _ _ c _ _ Hshape Hfill).
  apply elem_of_seq. lia.
Qed.

(** ** Any run of [write_file]: what is left untouched *)

Lemma frame_refl (s : Encoder) : frame s s.
Proof.
  exists (fun _ => false). split; [discriminate |].
  symmetry. now apply set_ones_none.
Qed.

Lemma frame_trans (s1 s2 s3 : Encoder) :
  frame s1 s2 -> frame s2 s3 -> frame s1 s3.
Proof.
  intros (T & HT & ->) (T' & HT' & ->).
  exists (fun k => T k || T' k). split; [| apply set_ones_twice].
  intros k Hk. apply orb_prop in Hk as [Hk | Hk]; [now apply HT |].
  now apply HT' in Hk.
Qed.

Lemma frame_bind {A B} (m : M A) (f : A -> M B) (s : Encoder) :
  frame s (st (m s)) ->
  (forall a, res (m s) = Ok a -> frame (st (m s)) (st (f a (st (m s))))) ->
  frame s (st ((m ≫= f) s)).
Proof.
  intros Hm Hf. unfold mbind, M_bind.
  destruct (res (m s)) as [a|x] eqn:Hr; simpl; [| exact Hm].
  eapply frame_trans; [exact Hm | now apply Hf].
Qed.

Lemma frame_for_loop {C} (body : nat -> C -> M C) :
  (forall i c s, frame s (st (body i c s))) ->
  forall l c s, frame s (st (for_loop l body c s)).
Proof.
  intros Hb. induction l as [|i l IH]; intros c s; simpl.
  - apply frame_refl.
  - apply frame_bind; [apply Hb | intros; apply IH].
Qed.

Lemma frame_eval_bind {A B} (g : Encoder -> result A) (f : A -> M B)
    (s : Encoder) :
  (forall a, g s = Ok a -> frame s (st (f a s))) ->
  frame s (st ((eval g ≫= f) s)).
Proof.
  intros Hf. apply frame_bind; [apply frame_refl |]. simpl. exact Hf.
Qed.

Lemma frame_emit_bind {B} (x : line) (f : unit -> M B) (s : Encoder) :
  frame s (st (f tt s)) -> frame s (st ((emit x ≫= f) s)).
Proof.
  intros Hf. apply frame_bind; [apply frame_refl |]. simpl. now intros [].
Qed.

Lemma frame_set_factor_row (s : Encoder) (i : nat) :
  flag_negative s i = true -> frame s (st (set_factor_row i s)).
Proof.
  intros Hneg.
  destruct (Nat.lt_ge_cases i (length (rows (factor s)))) as [Hi | Hi].
  - pose proof (set_factor_row_runs (fun _ => false)
                  (fun k => (k =? i)%nat) s i Hi ltac:(reflexivity)) as H.
    rewrite (set_ones_none (fun _ => false) s) in H by reflexivity.
    unfold runs in H. rewrite H. simpl.
    exists (fun k => (k =? i)%nat). split; [| reflexivity].
    intros k Hk. apply Nat.eqb_eq in Hk. now subst k.
  - unfold set_factor_row.
    destruct (Nat.ltb_spec i (length (rows (factor s)))); [lia |].
    apply frame_refl.
Qed.

Lemma frame_write_obs (c : nat) (s : Encoder) : frame s (st (write_obs c s)).
Proof.
  unfold write_obs.
  do 4 (apply frame_eval_bind; intros ? _).
  apply frame_emit_bind, frame_refl.
Qed.

Lemma frame_write_cell (i j : nat) (s : Encoder) :
  frame s (st (write_cell i j s)).
Proof.
  unfold write_cell. apply frame_eval_bind. intros q Hq.
  assert (Hflag : flag_negative s i = (q <? 0)).
  { unfold flag_negative. unfold py_getitem in Hq.
    destruct (nqclfb s !! i); [now injection Hq as -> | discriminate]. }
  apply frame_bind.
  - destruct (q <? 0); [now apply frame_set_factor_row | apply frame_refl].
  - intros _ _. do 4 (apply frame_eval_bind; intros ? _).
    apply frame_refl.
Qed.

Lemma frame_write_group (i c : nat) (s : Encoder) :
  frame s (st (write_group i c s)).
Proof.
  unfold write_group.
  do 2 (apply frame_eval_bind; intros ? _). apply frame_emit_bind.
  apply frame_eval_bind; intros ? _.
  apply frame_bind; [apply frame_for_loop; intros; apply frame_write_obs |].
  intros ? _. apply frame_eval_bind; intros ? _.
  apply frame_bind; [apply frame_for_loop; intros; apply frame_write_cell |].
  intros ? _. apply frame_refl.
Qed.

Lemma frame_write_primary (s : Encoder) : frame s (st (write_primary s)).
Proof.
  unfold write_primary, write_sections_3_5.
  apply frame_eval_bind; intros ? _. apply frame_emit_bind.
  apply frame_eval_bind; intros ? _. apply frame_emit_bind.
  apply frame_eval_bind; intros ? _. apply frame_emit_bind.
  apply frame_bind.
  - apply frame_eval_bind; intros ? _.
    apply frame_for_loop; intros; apply frame_write_group.
  - intros ? _. apply frame_refl.
Qed.

Lemma frame_write_ins (s : Encoder) : frame s (st (write_ins s)).
Proof.
  unfold write_ins. apply frame_emit_bind.
  apply frame_eval_bind; intros ? _. apply frame_emit_bind.
  apply frame_eval_bind; intros ? _.
  apply frame_for_loop. intros i c s'.
  apply frame_eval_bind; intros ? _. apply frame_refl.
Qed.

Lemma frame_write_file (s : Encoder) (fs : gmap string (list line)) :
  frame s (w_self (write_file s fs)).
Proof.
  unfold write_file. cbv zeta.
  pose proof (frame_write_primary s) as Hp.
  destruct (res (write_primary s)); simpl; [| exact Hp].
  eapply frame_trans; [exact Hp | apply frame_write_ins].
Qed.

(** X8. Whatever the encoder and however the run ends, [write_file]
    leaves every attribute but the data of [factor] as it was; a row of
    [factor] is as it was, or is the all-ones row of a group whose flag
    is negative. *)
Theorem write_file_changes_only_factor_rows
    (e : Encoder) (fs : gmap string (list line)) :
  w_self (write_file e fs) = set_factor e (factor (w_self (write_file e fs)))
  /\ shape0 (factor (w_self (write_file e fs))) = shape0 (factor e)
  /\ shape1 (factor (w_self (write_file e fs))) = shape1 (factor e)
  /\ length (rows (factor (w_self (write_file e fs))))
     = length (rows (factor e))
  /\ forall i,
       rows (factor (w_self (write_file e fs))) !! i = rows (factor e) !! i
       \/ exists q, nqclfb e !! i = Some q /\ q < 0
            /\ rows (factor (w_self (write_file e fs))) !! i
               = Some (ones_row (factor e)).
Proof.
  destruct (frame_write_file e fs) as (T & HT & ->).
  split; [reflexivity |]. split; [reflexivity |]. split; [reflexivity |].
  split; [simpl; apply length_imap |].
  intros i. simpl. rewrite list_lookup_imap.
  destruct (rows (factor e) !! i) as [r|]; [| now left]. simpl.
  destruct (T i) eqn:HTi; [| now left]. right.
  apply HT in HTi. unfold flag_negative in HTi.
  destruct (nqclfb e !! i) as [q|]; [| discriminate].
  exists q. apply Z.ltb_lt in HTi. auto.
Qed.

(** X9. [write_file] writes two files and no other: every path but
    [fn_path] and [fn_path + "_ins"] keeps its content, whether the run
    returns or raises. *)
Theorem write_file_touches_two_paths
    (e : Encoder) (fs : gmap string (list line)) (p : string) :
  p <> fn_path e ->
  p <> String.append (fn_path e) "_ins" ->
  w_fs (write_file e fs) !! p = fs !! p.
Proof.
  intros Hp Hi. unfold write_file. cbv zeta.
  destruct (frame_write_primary e) as (T & _ & Hst).
  destruct (write_primary e) as [l1 s1 r1]. simpl in Hst. subst s1.
  cbn [res st out]. change (fn_path (set_ones T e)) with (fn_path e).
  destruct r1; cbn [w_fs].
  - rewrite lookup_insert_ne by congruence.
    now rewrite lookup_insert_ne by congruence.
  - now rewrite lookup_insert_ne by congruence.
Qed.

(** ** When [write_file] returns *)

Lemma bind_res_ok {A B} (m : M A) (f : A -> M B) (s : Encoder) (b : B) :
  res ((m ≫= f) s) = Ok b ->
  exists a, res (m s) = Ok a /\ res (f a (st (m s))) = Ok b.
Proof.
  unfold mbind, M_bind. destruct (res (m s)) as [a|x]; simpl;
    [eauto | discriminate].
Qed.

Lemma eval_bind_res_ok {A B} (g : Encoder -> result A) (f : A -> M B)
    (s : Encoder) (b : B) :
  res ((eval g ≫= f) s) = Ok b -> exists a, g s = Ok a /\ res (f a s) = Ok b.
Proof. intros H. apply bind_res_ok in H as (a & Ha & H). eauto. Qed.

Lemma emit_bind_res_ok {B} (x : line) (f : unit -> M B) (s : Encoder) (b : B) :
  res ((emit x ≫= f) s) = Ok b -> res (f tt s) = Ok b.
Proof. intros H. now apply bind_res_ok in H as ([] & _ & H). Qed.

Lemma py_getitem_ok {A} (l : list A) (i : nat) (x : A) :
  py_getitem l i = Ok x -> l !! i = Some x.
Proof.
  unfold py_getitem. destruct (l !! i); [now intros [= ->] | discriminate].
Qed.

Lemma st_write_obs (c : nat) (s : Encoder) : st (write_obs c s) = s.
Proof.
  unfold write_obs, mbind, M_bind, eval, emit. simpl.
  destruct (py_getitem (obsnam s) c); simpl; [| reflexivity].
  destruct (py_getitem (irefsp s) c); simpl; [| reflexivity].
  destruct (py_getitem (toffset s) c); simpl; [| reflexivity].
  destruct (py_getitem (flwobs s) c); reflexivity.
Qed.

Lemma write_obs_ok_inv (c c1 : nat) (s : Encoder) :
  res (write_obs c s) = Ok c1 ->
  c1 = S c /\ (c < length (obsnam s))%nat /\ (c < length (irefsp s))%nat.
Proof.
  unfold write_obs. intros H.
  apply eval_bind_res_ok in H as (nam & Hnam & H).
  apply eval_bind_res_ok in H as (ref & Href & H).
  apply eval_bind_res_ok in H as (toff & _ & H).
  apply eval_bind_res_ok in H as (flw & _ & H).
  apply emit_bind_res_ok in H. injection H as <-.
  apply py_getitem_ok, lookup_lt_Some in Hnam, Href. auto.
Qed.

Lemma obs_loop_ok_inv (s : Encoder) (l : list nat) (c c' : nat) :
  res (for_loop l (fun _ c => write_obs c) c s) = Ok c' ->
  c' = (c + length l)%nat
  /\ (l = [] \/ (c + length l <= length (obsnam s))%nat
                /\ (c + length l <= length (irefsp s))%nat).
Proof.
  revert c. induction l as [|j l IH]; intros c H; simpl in H.
  - injection H as <-. split; [simpl; lia | now left].
  - apply bind_res_ok in H as (c1 & H1 & H). rewrite st_write_obs in H.
    apply write_obs_ok_inv in H1 as (-> & Hn & Hi).
    apply IH in H as (-> & Hl). split; [simpl; lia |]. right.
    destruct Hl as [-> | [? ?]]; simpl; lia.
Qed.

Lemma st_obs_loop (s : Encoder) (l : list nat) (c : nat) :
  st (for_loop l (fun _ c => write_obs c) c s) = s.
Proof.
  revert c. induction l as [|j l IH]; intros c; [reflexivity |].
  simpl. unfold mbind, M_bind.
  destruct (res (write_obs c s)) eqn:Hr; simpl.
  - rewrite st_write_obs. apply IH.
  - apply st_write_obs.
Qed.

Lemma of_option_ok {A} (o : option A) (x : A) : of_option o = Ok x -> o = Some x.
Proof. destruct o; [now intros [= ->] | discriminate]. Qed.

Lemma frame_layer (s s' : Encoder) :
  frame s s' ->
  layer s' = layer s /\ nqobfb s' = nqobfb s /\ nqclfb s' = nqclfb s
  /\ obsnam s' = obsnam s /\ irefsp s' = irefsp s /\ nqfb s' = nqfb s
  /\ nqtfb s' = nqtfb s /\ fn_path s' = fn_path s.
Proof. intros (T & _ & ->). repeat split. Qed.

Lemma write_cell_ok_inv (i j : nat) (s : Encoder) :
  res (write_cell i j s) = Ok tt -> is_Some (np_getitem2 (layer s) i j).
Proof.
  unfold write_cell. intros H.
  apply eval_bind_res_ok in H as (q & _ & H).
  apply bind_res_ok in H as ([] & _ & H).
  apply eval_bind_res_ok in H as (lay & Hlay & _).
  apply of_option_ok in Hlay.
  assert (Hl : layer (st ((if q <? 0 then set_factor_row i else mret tt) s))
               = layer s).
  { destruct (q <? 0); [| reflexivity]. unfold set_factor_row.
    now destruct (i <? length (rows (factor s)))%nat. }
  rewrite Hl in Hlay. now rewrite Hlay.
Qed.

Lemma cell_loop_ok_inv (i : nat) (m a : nat) (s : Encoder) :
  res (for_loop (seq a m) (fun j _ => write_cell i j) tt s) = Ok tt ->
  forall j, (a <= j < a + m)%nat -> is_Some (np_getitem2 (layer s) i j).
Proof.
  revert a s. induction m as [|m IH]; intros a s H j Hj; [lia |].
  simpl in H. apply bind_res_ok in H as ([] & H1 & H).
  destruct (Nat.eq_dec j a) as [-> | Hne]; [now apply write_cell_ok_inv |].
  destruct (frame_layer _ _ (frame_write_cell i a s)) as (<- & _).
  apply (IH (S a)); [exact H | lia].
Qed.

Lemma np_getitem2_bound {A} (arr : ndarray2 A) (n w i j : nat) :
  arr_shaped arr n w -> is_Some (np_getitem2 arr i j) -> (j < w)%nat.
Proof.
  intros (_ & _ & _ & Hw) [x Hx]. unfold np_getitem2 in Hx.
  destruct (rows arr !! i) as [r|] eqn:Hr; [| discriminate]. simpl in Hx.
  eapply Forall_lookup_1 in Hw; eauto. simpl in Hw.
  apply lookup_lt_Some in Hx. lia.
Qed.

(** A group that was written to its end: its count and its flag are
    there, the cursor advanced by the count and stayed inside the
    flattened arrays, and the cells of the group are inside the storage. *)
Lemma write_group_ok_inv (i c c' : nat) (s : Encoder) :
  res (write_group i c s) = Ok c' ->
  exists n q,
    nqobfb s !! i = Some n /\ nqclfb s !! i = Some q
    /\ c' = (c + Z.to_nat n)%nat
    /\ (Z.to_nat n = 0%nat
        \/ (c + Z.to_nat n <= length (obsnam s))%nat
           /\ (c + Z.to_nat n <= length (irefsp s))%nat)
    /\ forall j, (j < Z.to_nat (abs32 q))%nat ->
         is_Some (np_getitem2 (layer s) i j).
Proof.
  unfold write_group. intros H.
  apply eval_bind_res_ok in H as (n & Hn & H).
  apply eval_bind_res_ok in H as (q & Hq & H).
  apply emit_bind_res_ok in H.
  apply eval_bind_res_ok in H as (n' & Hn' & H).
  rewrite Hn in Hn'. injection Hn' as <-.
  apply bind_res_ok in H as (c1 & Hobs & H). rewrite st_obs_loop in H.
  apply eval_bind_res_ok in H as (q' & Hq' & H).
  rewrite Hq in Hq'. injection Hq' as <-.
  apply bind_res_ok in H as ([] & Hcells & H). injection H as <-.
  apply obs_loop_ok_inv in Hobs as (-> & Hl). rewrite range_length in *.
  apply py_getitem_ok in Hn, Hq. exists n, q.
  split; [exact Hn |]. split; [exact Hq |]. split; [reflexivity |]. split.
  - destruct Hl as [Hl | Hl]; [left | now right].
    apply (f_equal (@length nat)) in Hl. now rewrite range_length in Hl.
  - intros j Hj. apply (cell_loop_ok_inv i _ 0 s Hcells). simpl. lia.
Qed.

Lemma groups_loop_ok_inv (k i c c' : nat) (s : Encoder) :
  res (for_loop (seq i k) write_group c s) = Ok c' ->
  (c <= length (irefsp s))%nat ->
  c' = (c + counts s (seq i k))%nat
  /\ (c' <= length (irefsp s))%nat
  /\ forall g, (i <= g < i + k)%nat ->
       exists q, nqclfb s !! g = Some q
         /\ forall j, (j < Z.to_nat (abs32 q))%nat ->
              is_Some (np_getitem2 (layer s) g j).
Proof.
  revert i c s. induction k as [|k IH]; intros i c s H Hc.
  - simpl in H. injection H as <-. unfold counts. simpl.
    split; [lia |]. split; [lia |]. intros g Hg. lia.
  - change (seq i (S k)) with (i :: seq (S i) k) in *.
    cbn [for_loop] in H. apply bind_res_ok in H as (c1 & Hg & H).
    destruct (frame_write_group i c s) as (T & _ & Hst).
    rewrite Hst in H.
    apply write_group_ok_inv in Hg
      as (n & q & Hn & Hq & -> & Hcur & Hcells).
    apply IH in H as (-> & Hle & Hrest);
      [| change (irefsp (set_ones T s)) with (irefsp s); lia].
    change (irefsp (set_ones T s)) with (irefsp s) in Hle.
    change (counts (set_ones T s) (seq (S i) k))
      with (counts s (seq (S i) k)) in *.
    assert (Hgc : group_count s i = Z.to_nat n).
    { unfold group_count. now rewrite (nth_lookup_Some _ _ 0 _ Hn). }
    change (counts s (i :: seq (S i) k))
      with (group_count s i + counts s (seq (S i) k))%nat.
    rewrite Hgc. split; [lia |]. split; [exact Hle |].
    intros g Hgr. destruct (Nat.eq_dec g i) as [-> | Hne]; [eauto |].
    apply (Hrest g). lia.
Qed.

Lemma ins_loop_ok_inv (s : Encoder) (m a : nat) :
  res (for_loop (seq a m)
         (fun i _ => nam ← eval (fun s => py_getitem (obsnam s) i);
                     emit (L_text nam)) tt s) = Ok tt ->
  m = 0%nat \/ (a + m <= length (obsnam s))%nat.
Proof.
  revert a s. induction m as [|m IH]; intros a s H; [now left |]. right.
  simpl in H. apply bind_res_ok in H as ([] & H1 & H).
  assert (Hst : st ((nam ← eval (fun s => py_getitem (obsnam s) a);
                     emit (L_text nam)) s) = s).
  { unfold mbind, M_bind, eval, emit. simpl.
    now destruct (py_getitem (obsnam s) a). }
  rewrite Hst in H.
  apply eval_bind_res_ok in H1 as (nam & Hnam & _).
  apply py_getitem_ok, lookup_lt_Some in Hnam.
  destruct (IH (S a) s H) as [-> | Hle]; lia.
Qed.

(** A run that returned was on a ready encoder. *)
Lemma write_file_ok_ready (s : Encoder) (fs : gmap string (list line)) :
  shaped s -> w_res (write_file s fs) = Ok tt -> write_ready s = true.
Proof.
  intros Hs H. pose proof Hs as (Hlo & Hlc & Hir & _ & _ & Hlay & _).
  unfold write_file in H. cbv zeta in H.
  destruct (frame_write_primary s) as (T & _ & Hst). rewrite Hst in H.
  destruct (res (write_primary s)) as [[]|x] eqn:Hp; [| discriminate].
  cbn [w_res] in H.
  (* the instruction file *)
  unfold write_ins in H. apply emit_bind_res_ok in H.
  apply eval_bind_res_ok in H as (t & Ht & H). injection Ht as <-.
  apply emit_bind_res_ok in H.
  apply eval_bind_res_ok in H as (t & Ht & H). injection Ht as <-.
  apply ins_loop_ok_inv in H. simpl in H.
  pose proof (range_length (nqtfb s)) as Hrl. unfold range in Hrl.
  rewrite length_seq in Hrl.
  (* the primary file *)
  unfold write_primary in Hp.
  apply eval_bind_res_ok in Hp as (? & _ & Hp). apply emit_bind_res_ok in Hp.
  apply eval_bind_res_ok in Hp as (? & _ & Hp). apply emit_bind_res_ok in Hp.
  apply eval_bind_res_ok in Hp as (? & _ & Hp). apply emit_bind_res_ok in Hp.
  apply bind_res_ok in Hp as (c & Hp & _). unfold write_sections_3_5 in Hp.
  apply eval_bind_res_ok in Hp as (n & Hn & Hp). injection Hn as <-.
  apply groups_loop_ok_inv in Hp as (-> & Hle & Hcells); [| lia].
  unfold write_ready.
  apply andb_true_intro. split; [apply andb_true_intro; split |].
  - apply Nat.leb_le. rewrite <- counts_all, Hlo, <- Hir. simpl in Hle.
    exact Hle.
  - apply Nat.leb_le. destruct H as [H | H]; lia.
  - apply forallb_forall. intros q Hq. apply Nat.leb_le.
    apply list_elem_of_In, list_elem_of_lookup in Hq as [g Hg].
    pose proof (lookup_lt_Some _ _ _ Hg) as Hgn.
    destruct (Hcells g ltac:(simpl; lia)) as (q' & Hq' & Hj).
    rewrite Hg in Hq'. injection Hq' as <-.
    destruct (Z.to_nat (abs32 q)) as [|m] eqn:Hm; [lia |].
    specialize (Hj m ltac:(lia)).
    apply (np_getitem2_bound _ _ _ _ _ Hlay) in Hj. lia.
Qed.

(** ** The only exception of [write_file] *)

Lemma index_only_bind {A B} (m : M A) (f : A -> M B) :
  index_only m -> (forall a, index_only (f a)) -> index_only (m ≫= f).
Proof.
  intros Hm Hf s x. unfold mbind, M_bind.
  destruct (res (m s)) as [a|y] eqn:Hr; simpl.
  - apply Hf.
  - intros [= <-]. now apply (Hm s).
Qed.

Lemma index_only_ret {A} (a : A) : index_only (mret a).
Proof. intros s x. discriminate. Qed.

Lemma index_only_emit (l : line) : index_only (emit l).
Proof. intros s x. discriminate. Qed.

Lemma index_only_getitem {A} (f : Encoder -> list A) (i : nat) :
  index_only (eval (fun s => py_getitem (f s) i)).
Proof.
  intros s x. unfold eval, py_getitem. simpl.
  destruct (f s !! i); [discriminate | now intros [= <-]].
Qed.

Lemma index_only_getitem2 {A} (f : Encoder -> ndarray2 A) (i j : nat) :
  index_only (eval (fun s => of_option (np_getitem2 (f s) i j))).
Proof.
  intros s x. unfold eval. simpl.
  destruct (np_getitem2 (f s) i j); [discriminate | now intros [= <-]].
Qed.

Lemma index_only_attr {A} (f : Encoder -> A) :
  index_only (eval (fun s => Ok (f s))).
Proof. intros s x. discriminate. Qed.

Lemma index_only_for_loop {C} (body : nat -> C -> M C) :
  (forall i c, index_only (body i c)) ->
  forall l c, index_only (for_loop l body c).
Proof.
  intros Hb. induction l as [|i l IH]; intros c; simpl.
  - apply index_only_ret.
  - apply index_only_bind; [apply Hb | intros; apply IH].
Qed.

Lemma index_only_set_factor_row (i : nat) : index_only (set_factor_row i).
Proof.
  intros s x. unfold set_factor_row.
  destruct (i <? length (rows (factor s)))%nat; simpl;
    [discriminate | now intros [= <-]].
Qed.

Lemma index_only_write_primary : index_only write_primary.
Proof.
  unfold write_primary, write_sections_3_5, write_group, write_cell,
    write_obs.
  repeat first
    [ apply index_only_ret | apply index_only_emit
    | apply index_only_getitem | apply index_only_getitem2
    | apply index_only_attr
    | apply index_only_set_factor_row
    | apply index_only_bind; [| intros ?]
    | apply index_only_for_loop; intros ? ?
    | match goal with
      | |- index_only (if ?b then _ else _) => destruct b
      end ].
Qed.

Lemma index_only_write_ins : index_only write_ins.
Proof.
  unfold write_ins.
  repeat first
    [ apply index_only_ret | apply index_only_emit
    | apply index_only_getitem | apply index_only_attr
    | apply index_only_bind; [| intros ?]
    | apply index_only_for_loop; intros ? ? ].
Qed.

Lemma write_file_raises_index (s : Encoder) (fs : gmap string (list line))
    (x : exn) :
  w_res (write_file s fs) = Raise x -> x = IndexError.
Proof.
  unfold write_file. cbv zeta.
  destruct (res (write_primary s)) as [[]|y] eqn:Hp; cbn [w_res].
  - apply index_only_write_ins.
  - intros [= <-]. now apply (index_only_write_primary s).
Qed.

(** X10. For an encoder that the constructor returned, [write_file]
    returns exactly when the encoder is ready: the cursor stays inside
    the flattened arrays, there is a name for each of the [nqtfb] records
    and no group has more cells than the padded width. Otherwise it
    raises [IndexError]. *)
Theorem write_file_returns_iff_ready
    (a : Args) (e : Encoder) (fs : gmap string (list line)) :
  __init__ a = Ok e ->
  (w_res (write_file e fs) = Ok tt <-> write_ready e = true)
  /\ (write_ready e = false -> w_res (write_file e fs) = Raise IndexError).
Proof.
  intros Hinit.
  destruct (init_fields a e Hinit) as (_ & _ & _ & _ & _ & _ & _ & Hs).
  assert (Hiff : w_res (write_file e fs) = Ok tt <-> write_ready e = true).
  { split; [now apply write_file_ok_ready |].
    intros Hr. now rewrite (write_file_run e fs Hs Hr). }
  split; [exact Hiff |]. intros Hr.
  destruct (w_res (write_file e fs)) as [[]|x] eqn:Hw.
  - destruct Hiff as [Hiff _]. specialize (Hiff eq_refl). congruence.
  - now rewrite (write_file_raises_index e fs x Hw).
Qed.

(** ** From the inputs to the files *)

(** X11. Inputs with the documented shapes that the constructor
    accepts are written to the end: one count and one flag per group,
    counts that are not negative and add up to [nqtfb], [nqtfb] names,
    and no flag larger in absolute value than the largest flag. *)
Theorem valid_input_is_written
    (a : Args) (e : Encoder) (fs : gmap string (list line)) (w : Z) :
  __init__ a = Ok e ->
  length (arg_nqobfb a) = Z.to_nat (arg_nqfb a) ->
  length (arg_nqclfb a) = Z.to_nat (arg_nqfb a) ->
  Forall (fun n => 0 <= n) (arg_nqobfb a) ->
  sum_list_Z (arg_nqobfb a) = arg_nqtfb a ->
  length (arg_obsnam a) = Z.to_nat (arg_nqtfb a) ->
  py_max (arg_nqclfb a) = Ok w ->
  Forall (fun q => abs32 q <= w) (arg_nqclfb a) ->
  w_res (write_file e fs) = Ok tt.
Proof.
  intros Hinit Hlo Hlc Hpos Hsum Hnam Hmax Hw.
  destruct (init_fields a e Hinit) as (_ & _ & _ & Hmax' & _ & _ & _ & Hs).
  rewrite Hmax in Hmax'. injection Hmax' as ->.
  pose proof (ready_of_valid_input a e Hinit Hlo Hlc Hpos Hsum Hnam Hw) as Hr.
  now rewrite (write_file_run e fs Hs Hr).
Qed.

Lemma nth_app_replicate {A} (l : list A) (k j : nat) (d : A) :
  nth j (l ++ replicate k d) d = nth j l d.
Proof.
  destruct (Nat.lt_ge_cases j (length l)) as [Hj | Hj].
  - now apply app_nth1.
  - rewrite app_nth2 by lia. rewrite (nth_overflow l) by lia.
    destruct (Nat.lt_ge_cases (j - length l) k) as [Hk | Hk].
    + apply nth_lookup_Some with (i := (j - length l)%nat).
      now apply lookup_replicate_2.
    + apply nth_overflow. now rewrite length_replicate.
Qed.

(** X12. The cell records of a group are the inputs of that group:
    record [j] carries [layer[i][j]], [row[i][j]], [column[i][j]] and the
    factor cast to single precision, or 1.0 under a negative flag;
    where a sub-sequence is shorter than the group, zeros are
    written. *)
Theorem cells_written_are_the_inputs
    (a : Args) (e : Encoder) (fs : gmap string (list line))
    (i : nat) (q : Z) :
  __init__ a = Ok e ->
  write_ready e = true ->
  nqclfb e !! i = Some q ->
  exists primary,
    w_fs (write_file e fs) !! fn_path e = Some primary
    /\ cells_of_group primary i
       = input_cell a i q <$> seq 0 (Z.to_nat (abs32 q)).
Proof.
  intros Hinit Hr Hq.
  destruct (init_fields a e Hinit) as (_ & _ & _ & _ & _ & _ & _ & Hs).
  destruct (written_files e fs Hs Hr) as (_ & _ & Hp & _).
  destruct (write_ready_spec e Hr) as (_ & _ & Hw).
  exists (primary_lines e). split; [exact Hp |].
  rewrite (cells_of_group_written e i q Hs Hq).
  pose proof (lookup_lt_Some _ _ _ Hq) as Hi.
  specialize (Hw i Hi). rewrite (nth_lookup_Some _ _ 0 _ Hq) in Hw.
  pose proof Hs as (_ & Hlc & _). rewrite Hlc in Hi.
  destruct (init_fill a e Hinit) as (c & Hn & Hshape & Hfill).
  destruct (fill_cells_fits a _ _ c _ _ Hshape Hfill i
              ltac:(apply elem_of_seq; lia))
    as (li & ri & ci & fi & Hli & Hri & Hci & Hfi & Fl & Fr & Fc & Ff).
  destruct (init_rows_left_aligned a e i Hinit Hi)
    as (_ & li' & ri' & ci' & fi' & Hli' & Hri' & Hci' & Hfi' & Rl & Rr & Rc
        & Rf).
  rewrite Hli in Hli'. rewrite Hri in Hri'. rewrite Hci in Hci'.
  rewrite Hfi in Hfi'. injection Hli' as <-. injection Hri' as <-.
  injection Hci' as <-. injection Hfi' as <-.
  apply list_fmap_ext. intros k j Hj. apply lookup_seq in Hj as [-> Hk].
  simpl in Hk.
  assert (Hpos : (0 < shape1 (layer e))%nat) by lia.
  assert (Hget : forall (A : Type) (d : A) (arr : ndarray2 A) (l : list A),
    rows arr !! i = Some (l ++ replicate (shape1 (layer e) - length l) d) ->
    get2 d arr i k = nth k l d).
  { intros A d arr l Hrow. unfold get2.
    rewrite (nth_lookup_Some _ _ [] _ Hrow). apply nth_app_replicate. }
  unfold cell_at, input_cell. change (0 + k)%nat with k.
  rewrite (nth_lookup_Some _ _ [] _ Hli), (nth_lookup_Some _ _ [] _ Hri),
    (nth_lookup_Some _ _ [] _ Hci), (nth_lookup_Some _ _ [] _ Hfi).
  rewrite (Hget Z 0 (layer e) li) by (apply Rl; lia).
  rewrite (Hget Z 0 (row e) ri) by (apply Rr; lia).
  rewrite (Hget Z 0 (column e) ci) by (apply Rc; lia).
  destruct (q <? 0); [reflexivity |].
  now rewrite (Hget float32 f32_zero (factor e) (f32_of <$> fi))
    by (rewrite length_fmap; apply Rf; lia).
Qed.

(** X13. The observation records written are the input records, in
    order: the name, the reference stress period, and the time offset
    and the flow cast to single precision. *)
Theorem records_written_are_the_inputs
    (a : Args) (e : Encoder) (fs : gmap string (list line)) :
  __init__ a = Ok e ->
  write_ready e = true ->
  length (arg_nqobfb a) = Z.to_nat (arg_nqfb a) ->
  sum_list_Z (arg_nqobfb a) = arg_nqtfb a ->
  length (arg_irefsp a) = Z.to_nat (arg_nqtfb a) ->
  length (arg_toffset a) = Z.to_nat (arg_nqtfb a) ->
  length (arg_flwobs a) = Z.to_nat (arg_nqtfb a) ->
  exists primary,
    w_fs (write_file e fs) !! fn_path e = Some primary
    /\ Some <$> obs_lines primary
       = input_record a <$> seq 0 (Z.to_nat (arg_nqtfb a)).
Proof.
  intros Hinit Hr Hlo Hsum Hir Hto Hfl.
  destruct (init_fields a e Hinit)
    as (_ & Hnqtfb & Hnam & _ & Hob & _ & Ht & Hs).
  specialize (Hob Hlo).
  destruct (written_files e fs Hs Hr) as (_ & _ & Hp & _).
  destruct (write_ready_spec e Hr) as (Hc & Hn & _).
  assert (Hend : cursor_end e = Z.to_nat (nqtfb e)).
  { apply cursor_end_exact; try assumption. now rewrite Hob, Hnqtfb. }
  destruct (init_inv a e Hinit)
    as (sel & nm & u & h & w & cs & _ & _ & _ & _ & _ & _ & _ & _ & _ & _
        & Hir' & Hto' & Hfl' & _ & _).
  apply np_assign_int32_inv in Hir'.
  apply np_assign_float32_inv in Hto', Hfl'.
  assert (Hsame : irefsp e = arg_irefsp a
                  /\ toffset e = f32_of <$> arg_toffset a
                  /\ flwobs e = f32_of <$> arg_flwobs a).
  { split; [| split].
    - destruct Hir' as [[_ ->] | (x & Hx & ->)]; [reflexivity |].
      rewrite Hx in *. simpl in Hir. rewrite <- Hir. reflexivity.
    - destruct Hto' as [[_ ->] | (x & Hx & ->)]; [reflexivity |].
      rewrite Hx in *. simpl in Hto. rewrite <- Hto. reflexivity.
    - destruct Hfl' as [[_ ->] | (x & Hx & ->)]; [reflexivity |].
      rewrite Hx in *. simpl in Hfl. rewrite <- Hfl. reflexivity. }
  destruct Hsame as (Ei & Et & Ef).
  exists (primary_lines e). split; [exact Hp |].
  rewrite (obs_lines_primary e Hs), Hend, Hnqtfb.
  rewrite (obs_records_stream e (Z.to_nat (arg_nqtfb a)) Hs)
    by (rewrite <- ?Hnqtfb; lia).
  apply list_fmap_ext. intros k c Hc'. unfold obs_record, input_record.
  rewrite Hnam, Ei, Et, Ef, !list_lookup_fmap.
  destruct (arg_obsnam a !! c); simpl; [| reflexivity].
  destruct (arg_irefsp a !! c); simpl; [| reflexivity].
  destruct (arg_toffset a !! c); simpl; [| reflexivity].
  now destruct (arg_flwobs a !! c).
Qed.

Lemma length_blocks_from (s : Encoder) (idx : list nat) (c : nat) :
  length (blocks_from s idx c) = length idx.
Proof.
  revert c. induction idx as [|i idx IH]; intros c; [reflexivity |].
  simpl. now rewrite IH.
Qed.

(** X14. The primary file of a ready encoder can be read back by its
    own counts: before the first section-3 record there is the heading,
    the header with the counts as the constructor was given them, and the
    time multiplier; then one block per group, made of the section-3
    record with the count and the flag of the group, as many observation
    records as the count, and as many cell records as the absolute value
    of the flag; and nothing else. *)
Theorem primary_file_reads_back_by_its_counts
    (a : Args) (e : Encoder) (fs : gmap string (list line)) :
  __init__ a = Ok e ->
  write_ready e = true ->
  exists primary,
    w_fs (write_file e fs) !! fn_path e = Some primary
    /\ until_group primary
       = [L_text (heading e);
          L_header (arg_nqfb a) (arg_nqcfb a) (arg_nqtfb a) (iufbobsv e);
          L_tomult (arg_tomultfb a)]
    /\ primary = until_group primary ++ concat (groups_of primary)
    /\ length (groups_of primary) = Z.to_nat (arg_nqfb a)
    /\ forall i n q,
         nqobfb e !! i = Some n -> nqclfb e !! i = Some q ->
         exists obs cells,
           nth i (groups_of primary) [] = L_group n q :: obs ++ cells
           /\ Forall (fun l => is_obs l = true) obs
           /\ length obs = Z.to_nat n
           /\ Forall (fun l => is_cell l = true) cells
           /\ length cells = Z.to_nat (abs32 q).
Proof.
  intros Hinit Hr.
  destruct (init_fields a e Hinit) as (Hnqfb & _ & _ & _ & _ & _ & _ & Hs).
  destruct (init_inv a e Hinit)
    as (sel & nm & u & h & w & c & _ & _ & _ & _ & _ & _ & _ & _ & _ & _
        & _ & _ & _ & _ & He).
  destruct (written_files e fs Hs Hr) as (_ & _ & Hp & _).
  exists (primary_lines e). split; [exact Hp |].
  assert (Hpre : until_group (primary_lines e) = preamble e).
  { unfold primary_lines. apply until_group_app.
    - repeat constructor.
    - apply blocks_headed. }
  rewrite groups_of_primary, Hpre.
  split; [unfold preamble; rewrite He; reflexivity |].
  split; [reflexivity |].
  split; [now rewrite length_blocks_from, range_length, Hnqfb |].
  intros i n q Hn Hq.
  pose proof (lookup_lt_Some _ _ _ Hn) as Hi.
  pose proof Hs as (Hlo & _). rewrite Hlo in Hi.
  destruct (nth_blocks_from e (Z.to_nat (nqfb e)) 0 0 i Hi) as [c' Hb].
  unfold range. rewrite Hb. change (0 + i)%nat with i.
  unfold block, group_count.
  rewrite (nth_lookup_Some _ _ 0 _ Hn), (nth_lookup_Some _ _ 0 _ Hq).
  eexists _, _. split; [reflexivity |].
  split; [apply Forall_fmap, Forall_forall; reflexivity |].
  split; [now rewrite length_fmap, length_seq |].
  split; [apply Forall_fmap, Forall_forall; reflexivity |].
  now rewrite length_fmap, length_seq.
Qed.

Lemma write_primary_ok_inv (s : Encoder) :
  shaped s -> res (write_primary s) = Ok tt ->
  (cursor_end s <= Z.to_nat (nqtfb s))%nat
  /\ forallb (fun q => (Z.to_nat (abs32 q) <=? shape1 (layer s))%nat)
       (nqclfb s) = true.
Proof.
  intros Hs Hp. pose proof Hs as (Hlo & Hlc & Hir & _ & _ & Hlay & _).
  unfold write_primary in Hp.
  apply eval_bind_res_ok in Hp as (? & _ & Hp). apply emit_bind_res_ok in Hp.
  apply eval_bind_res_ok in Hp as (? & _ & Hp). apply emit_bind_res_ok in Hp.
  apply eval_bind_res_ok in Hp as (? & _ & Hp). apply emit_bind_res_ok in Hp.
  apply bind_res_ok in Hp as (c & Hp & _). unfold write_sections_3_5 in Hp.
  apply eval_bind_res_ok in Hp as (n & Hn & Hp). injection Hn as <-.
  apply groups_loop_ok_inv in Hp as (-> & Hle & Hcells); [| lia].
  split.
  - rewrite <- counts_all, Hlo, <- Hir. exact Hle.
  - apply forallb_forall. intros q Hq. apply Nat.leb_le.
    apply list_elem_of_In, list_elem_of_lookup in Hq as [g Hg].
    pose proof (lookup_lt_Some _ _ _ Hg) as Hgn.
    destruct (Hcells g ltac:(simpl; lia)) as (q' & Hq' & Hj).
    rewrite Hg in Hq'. injection Hq' as <-.
    destruct (Z.to_nat (abs32 q)) as [|m] eqn:Hm; [lia |].
    specialize (Hj m ltac:(lia)).
    apply (np_getitem2_bound _ _ _ _ _ Hlay) in Hj. lia.
Qed.

(** X15. When the counts run past [nqtfb], or a group has more cells
    than the padded width, [write_file] raises [IndexError] while it is
    in the primary file, and the instruction file is not opened: what was
    at its path stays there. *)
Theorem failed_primary_keeps_instruction_file
    (a : Args) (e : Encoder) (fs : gmap string (list line)) :
  __init__ a = Ok e ->
  (cursor_end e <=? Z.to_nat (nqtfb e))%nat
  && forallb (fun q => (Z.to_nat (abs32 q) <=? shape1 (layer e))%nat)
       (nqclfb e) = false ->
  w_res (write_file e fs) = Raise IndexError
  /\ w_fs (write_file e fs) !! String.append (fn_path e) "_ins"
     = fs !! String.append (fn_path e) "_ins".
Proof.
  intros Hinit Hbad.
  destruct (init_fields a e Hinit) as (_ & _ & _ & _ & _ & _ & _ & Hs).
  unfold write_file. cbv zeta.
  destruct (res (write_primary e)) as [[]|x] eqn:Hp.
  - destruct (write_primary_ok_inv e Hs Hp) as (Hc & Hw).
    apply Nat.leb_le in Hc. rewrite Hc, Hw in Hbad. discriminate.
  - cbn [w_res w_fs]. rewrite (index_only_write_primary e x Hp).
    split; [reflexivity |].
    apply lookup_insert_ne, path_ins_ne.
Qed.

End FlwobMore.

(** ** Instances of the further properties *)

Lemma unrecognized_tag_raises_witness :
  recognized (arg_flowtype (@default_args Q_floats registry)) = false
  /\ __init__ (@default_args Q_floats registry) = Raise AttributeError.
Proof.
  split; [reflexivity |].
  apply (unrecognized_tag_raises (@default_args Q_floats registry)).
  reflexivity.
Defined.

Lemma output_unit_comes_from_the_table_witness :
  __init__ two_groups = Ok two_groups_encoder
  /\ exists k u0 n0,
       (k <= 3)%nat
       /\ extension two_groups_encoder
          = py_slice (2 * k) (2 * k + 2) (arg_extension two_groups)
       /\ unit_number two_groups_encoder
          = py_slice (2 * k) (2 * k + 2) (arg_unitnumber two_groups)
       /\ unit_number two_groups_encoder = [u0; iufbobsv two_groups_encoder]
       /\ name two_groups_encoder = [n0; "DATA"%string].
Proof.
  split; [reflexivity |].
  apply (output_unit_comes_from_the_table two_groups two_groups_encoder).
  reflexivity.
Defined.

Lemma other_variants_metadata_witness :
  arg_flowtype sizes_2_5 = Some "DRN"%string
  /\ __init__ sizes_2_5 = Ok sizes_2_5_encoder
  /\ name sizes_2_5_encoder = ["DROB"; "DATA"]%string
  /\ extension sizes_2_5_encoder = ["drob"; "obd"]%string
  /\ unit_number sizes_2_5_encoder = [42; 142]
  /\ iufbobsv sizes_2_5_encoder = 142
  /\ url sizes_2_5_encoder = "drob.htm"%string
  /\ heading sizes_2_5_encoder
     = "# DROB for MODFLOW, generated by Flopy."%string.
Proof.
  split; [reflexivity |]. split; [reflexivity |].
  destruct (other_variants_metadata sizes_2_5 sizes_2_5_encoder "DRN"
              eq_refl eq_refl eq_refl eq_refl) as (_ & H & _).
  exact (H eq_refl).
Defined.

Lemma construction_shapes_witness :
  __init__ two_groups = Ok two_groups_encoder
  /\ exists w : nat,
       py_max (arg_nqclfb two_groups) = Ok (Z.of_nat w)
       /\ 0 <= nqfb two_groups_encoder /\ 0 <= nqtfb two_groups_encoder
       /\ length (nqobfb two_groups_encoder)
          = Z.to_nat (nqfb two_groups_encoder)
       /\ length (nqclfb two_groups_encoder)
          = Z.to_nat (nqfb two_groups_encoder)
       /\ length (irefsp two_groups_encoder)
          = Z.to_nat (nqtfb two_groups_encoder)
       /\ length (toffset two_groups_encoder)
          = Z.to_nat (nqtfb two_groups_encoder)
       /\ length (flwobs two_groups_encoder)
          = Z.to_nat (nqtfb two_groups_encoder)
       /\ arr_shaped (layer two_groups_encoder)
            (Z.to_nat (nqfb two_groups_encoder)) w
       /\ arr_shaped (row two_groups_encoder)
            (Z.to_nat (nqfb two_groups_encoder)) w
       /\ arr_shaped (column two_groups_encoder)
            (Z.to_nat (nqfb two_groups_encoder)) w
       /\ arr_shaped (factor two_groups_encoder)
            (Z.to_nat (nqfb two_groups_encoder)) w.
Proof.
  split; [reflexivity |].
  apply (construction_shapes two_groups two_groups_encoder). reflexivity.
Defined.

Lemma stored_as_given_or_broadcast_witness :
  __init__ two_groups = Ok two_groups_encoder
  /\ obsnam two_groups_encoder = arg_obsnam two_groups
  /\ (length (arg_irefsp two_groups) = Z.to_nat (arg_nqtfb two_groups)
      /\ irefsp two_groups_encoder = arg_irefsp two_groups
      \/ exists x, arg_irefsp two_groups = [x]
           /\ irefsp two_groups_encoder
              = replicate (Z.to_nat (arg_nqtfb two_groups)) x).
Proof.
  split; [reflexivity |].
  destruct (stored_as_given_or_broadcast two_groups two_groups_encoder
              eq_refl) as (_ & _ & Hir & _ & _ & Hnam).
  exact (conj Hnam Hir).
Defined.

Lemma construction_needs_a_non_negative_flag_witness :
  __init__ two_groups = Ok two_groups_encoder
  /\ exists q,
       q ∈ arg_nqclfb two_groups /\ 0 <= q
       /\ Forall (fun q' => q' <= q) (arg_nqclfb two_groups)
       /\ shape1 (layer two_groups_encoder) = Z.to_nat q
       /\ shape1 (factor two_groups_encoder) = Z.to_nat q.
Proof.
  split; [reflexivity |].
  apply (construction_needs_a_non_negative_flag two_groups
           two_groups_encoder).
  reflexivity.
Defined.

Lemma sub_sequences_present_and_fit_witness :
  __init__ two_groups = Ok two_groups_encoder
  /\ (1 < Z.to_nat (nqfb two_groups_encoder))%nat
  /\ exists li ri ci fi,
       arg_layer two_groups !! 1%nat = Some li
       /\ arg_row two_groups !! 1%nat = Some ri
       /\ arg_column two_groups !! 1%nat = Some ci
       /\ arg_factor two_groups !! 1%nat = Some fi
       /\ ((length li <= shape1 (layer two_groups_encoder))%nat
           \/ length li = 1%nat)
       /\ ((length ri <= shape1 (layer two_groups_encoder))%nat
           \/ length ri = 1%nat)
       /\ ((length ci <= shape1 (layer two_groups_encoder))%nat
           \/ length ci = 1%nat)
       /\ ((length fi <= shape1 (layer two_groups_encoder))%nat
           \/ length fi = 1%nat).
Proof.
  split; [reflexivity |]. split; [vm_compute; lia |].
  apply (sub_sequences_present_and_fit two_groups two_groups_encoder 1);
    [reflexivity | vm_compute; lia].
Defined.

Lemma write_file_touches_two_paths_witness :
  "notes.txt"%string <> fn_path two_groups_encoder
  /\ "notes.txt"%string <> String.append (fn_path two_groups_encoder) "_ins"
  /\ w_fs (write_file two_groups_encoder notes_fs) !! "notes.txt"%string
     = notes_fs !! "notes.txt"%string.
Proof.
  split; [discriminate |]. split; [discriminate |].
  apply (write_file_touches_two_paths two_groups_encoder notes_fs
           "notes.txt"); discriminate.
Defined.

Lemma write_file_returns_iff_ready_witness :
  __init__ inconsistent = Ok inconsistent_encoder
  /\ write_ready inconsistent_encoder = false
  /\ w_res (write_file inconsistent_encoder ∅) = Raise IndexError.
Proof.
  split; [reflexivity |]. split; [reflexivity |].
  apply (write_file_returns_iff_ready inconsistent inconsistent_encoder ∅);
    reflexivity.
Defined.

Lemma valid_input_is_written_witness :
  __init__ two_groups = Ok two_groups_encoder
  /\ sum_list_Z (arg_nqobfb two_groups) = arg_nqtfb two_groups
  /\ py_max (arg_nqclfb two_groups) = Ok 3
  /\ w_res (write_file two_groups_encoder ∅) = Ok tt.
Proof.
  split; [reflexivity |]. split; [reflexivity |]. split; [reflexivity |].
  apply (valid_input_is_written two_groups two_groups_encoder ∅ 3);
    try reflexivity.
  - repeat constructor; lia.
  - repeat constructor; vm_compute; discriminate.
Defined.

Lemma cells_written_are_the_inputs_witness :
  __init__ sizes_2_5 = Ok sizes_2_5_encoder
  /\ write_ready sizes_2_5_encoder = true
  /\ nqclfb sizes_2_5_encoder !! 0%nat = Some 2
  /\ exists primary,
       w_fs (write_file sizes_2_5_encoder ∅) !! fn_path sizes_2_5_encoder
       = Some primary
       /\ cells_of_group primary 0
          = input_cell sizes_2_5 0 2 <$> seq 0 (Z.to_nat (abs32 2)).
Proof.
  split; [reflexivity |]. split; [reflexivity |]. split; [reflexivity |].
  apply (cells_written_are_the_inputs sizes_2_5 sizes_2_5_encoder ∅ 0 2);
    reflexivity.
Defined.

Lemma records_written_are_the_inputs_witness :
  __init__ two_groups = Ok two_groups_encoder
  /\ write_ready two_groups_encoder = true
  /\ sum_list_Z (arg_nqobfb two_groups) = arg_nqtfb two_groups
  /\ exists primary,
       w_fs (write_file two_groups_encoder ∅) !! fn_path two_groups_encoder
       = Some primary
       /\ Some <$> obs_lines primary
          = input_record two_groups
              <$> seq 0 (Z.to_nat (arg_nqtfb two_groups)).
Proof.
  split; [reflexivity |]. split; [reflexivity |]. split; [reflexivity |].
  apply (records_written_are_the_inputs two_groups two_groups_encoder ∅);
    reflexivity.
Defined.

Lemma primary_file_reads_back_by_its_counts_witness :
  __init__ two_groups = Ok two_groups_encoder
  /\ write_ready two_groups_encoder = true
  /\ exists primary,
       w_fs (write_file two_groups_encoder ∅) !! fn_path two_groups_encoder
       = Some primary
       /\ primary = until_group primary ++ concat (groups_of primary)
       /\ length (groups_of primary) = Z.to_nat (arg_nqfb two_groups).
Proof.
  split; [reflexivity |]. split; [reflexivity |].
  destruct (primary_file_reads_back_by_its_counts two_groups
              two_groups_encoder ∅ eq_refl eq_refl)
    as (primary & Hp & _ & Hcat & Hlen & _).
  exists primary. exact (conj Hp (conj Hcat Hlen)).
Defined.

Lemma failed_primary_keeps_instruction_file_witness :
  __init__ negative_flag_zero_width = Ok zero_width_encoder
  /\ w_res (write_file zero_width_encoder stale_ins_fs) = Raise IndexError
  /\ w_fs (write_file zero_width_encoder stale_ins_fs)
       !! String.append (fn_path zero_width_encoder) "_ins"
     = stale_ins_fs !! String.append (fn_path zero_width_encoder) "_ins".
Proof.
  split; [reflexivity |].
  apply (failed_primary_keeps_instruction_file negative_flag_zero_width
           zero_width_encoder stale_ins_fs); reflexivity.
Defined.
